(** * Earthquake Visualizer: filter engine, summary cards and map marker layer

    A shallow embedding of the client-side earthquake dashboard:

    - [Js]: the JavaScript values and built-ins the components rely on.
      A JS [number] is an IEEE 754 binary64 value, modelled by Rocq's
      primitive [float]; relational operators, truthiness, [isNaN],
      [Math.max], [Array.prototype.sort] and exceptions are written out.
    - [Binary64]: the order of binary64 numbers as an integer embedding,
      used to reason about [>=] and about the sign of a difference.
    - [Feed]: the GeoJSON records of the feed.
    - [EarthquakeVisualizer]: components/earthquake-visualizer.tsx, the
      component state, the filter effect, [fetchEarthquakeData], the summary
      cards and the list of significant events.
    - [EarthquakeMap]: components/earthquake-map.tsx, the marker effect.
    - [EarthquakeMapChecked]: the variant of the map component that skips
      invalid coordinates and records a map error.
    - [ArrayStore]: arrays as shared mutable objects, to follow which array
      [sort] mutates.
    - [VisualizerView]: what the visualizer renders (map card, list card,
      legend, refresh button), the two halves of a fetch, and the component
      as a state machine over its events.
    - [MapLifecycle]: the checked map component's other effects (loading the
      library, creating the map, cleanup), its render and its steps.

    Definitions come first, the properties follow. *)

From Stdlib Require Import ZArith Lia ZifyBool List Bool String Floats.
From Stdlib Require Uint63.
From Stdlib Require Import Permutation Sorted.
Import ListNotations.

Set Warnings "-inexact-float".

(** ** JavaScript values and built-ins *)

Module Js.

(** A JS number is a binary64 value; NaN, the infinities and both zeros are
    values of the type. *)
Definition number := float.

(** [x >= y], [x > y], [x <= y], [x < y] on numbers: false as soon as one
    operand is NaN. *)
Definition ge (x y : number) : bool := (y <=? x)%float.
Definition gt (x y : number) : bool := (y <? x)%float.
Definition le (x y : number) : bool := (x <=? y)%float.
Definition lt (x y : number) : bool := (x <? y)%float.

(** The global [isNaN] applied to a number. *)
Definition isNaN (x : number) : bool := is_nan x.

(** [ToBoolean] on a number: false exactly for +0, -0 and NaN. *)
Definition ToBoolean (x : number) : bool := negb (is_zero x || is_nan x).

(** The global [isFinite] applied to a number. *)
Definition isFinite (x : number) : bool := negb (is_nan x || is_infinity x).

(** [!x] on a number. *)
Definition falsy (x : number) : bool := negb (ToBoolean x).

(** [a || b] where [a] is a property lookup that may be [undefined]. *)
Definition orElse (a : option number) (b : number) : number :=
  match a with
  | Some v => if ToBoolean v then v else b
  | None => b
  end.

(** [xs[0]] read in a numeric comparison: a missing element is [undefined],
    which [ToNumber] turns into NaN. *)
Definition elem0 (xs : list number) : number :=
  match xs with
  | x :: _ => x
  | [] => nan
  end.

Definition isPositiveZero (x : number) : bool := is_zero x && negb (get_sign x).
Definition isNegativeZero (x : number) : bool := is_zero x && get_sign x.

(** [Math.max(...xs)]: start from -Infinity; a NaN argument makes the result
    NaN; +0 replaces -0; a strictly greater argument replaces the highest. *)
Fixpoint Math_max_from (highest : number) (xs : list number) : number :=
  match xs with
  | [] => highest
  | x :: rest =>
      if is_nan x then nan
      else if isPositiveZero x && isNegativeZero highest then Math_max_from x rest
      else if gt x highest then Math_max_from x rest
      else Math_max_from highest rest
  end.

Definition Math_max (xs : list number) : number := Math_max_from neg_infinity xs.

(** An array length as a number (lengths are below 2^32). *)
Definition ofLength (n : nat) : number := of_uint63 (Uint63.of_Z (Z.of_nat n)).

(** [SortCompare]: the comparator's result, with NaN read as +0. *)
Definition SortCompare {A : Type} (comparefn : A -> A -> number) (x y : A) : number :=
  let v := comparefn x y in
  if is_nan v then 0%float else v.

(** [Array.prototype.sort(comparefn)]. The language fixes the result for a
    consistent comparator: the elements in comparator order, elements that
    compare equal in their original order (the sort is stable). The engine's
    algorithm is not observable in that case; the result is computed here by
    stable insertion, an element moving right past those it compares
    greater than. *)
Fixpoint insert {A : Type} (comparefn : A -> A -> number) (x : A) (l : list A) : list A :=
  match l with
  | [] => [x]
  | y :: rest =>
      if (0 <? SortCompare comparefn x y)%float
      then y :: insert comparefn x rest
      else x :: y :: rest
  end.

Definition Array_sort {A : Type} (comparefn : A -> A -> number) (l : list A) : list A :=
  fold_right (insert comparefn) [] l.

(** [l.slice(start, end)] for in-range non-negative indices. *)
Definition slice {A : Type} (start stop : nat) (l : list A) : list A :=
  firstn (stop - start) (skipn start l).

(** Completion of a statement sequence over a state: normal, or abrupt by a
    thrown exception, with the state reached at that point. *)
Inductive outcome (S : Type) : Type :=
| Normal (s : S)
| Thrown (s : S).
Arguments Normal {S} s.
Arguments Thrown {S} s.

(** [xs.forEach(body)]: the callback runs on each element in order; a throw
    ends the loop. *)
Fixpoint forEach {A S : Type} (body : A -> S -> outcome S) (xs : list A) (s : S) : outcome S :=
  match xs with
  | [] => Normal s
  | x :: rest =>
      match body x s with
      | Normal s' => forEach body rest s'
      | Thrown s' => Thrown s'
      end
  end.

(** [try { body } catch { handler }] and
    [try { body } catch { handler } finally { finalizer }], where handler and
    finalizer are plain state updates. *)
Definition tryCatch {S : Type} (body : outcome S) (handler : S -> S) : outcome S :=
  match body with
  | Normal s => Normal s
  | Thrown s => Normal (handler s)
  end.

Definition tryCatchFinally {S : Type} (body : outcome S) (handler finalizer : S -> S) : outcome S :=
  match tryCatch body handler with
  | Normal s => Normal (finalizer s)
  | Thrown s => Thrown (finalizer s)
  end.

End Js.

(** ** Order of binary64 numbers *)

Module Binary64.

(** The value of a number in units of 2^-1074 (the smallest subnormal); the
    infinities are placed beyond every finite value. *)
Definition scaled (x : spec_float) : Z :=
  match x with
  | S754_zero _ => 0
  | S754_infinity s => cond_Zopp s (2 ^ 2100)
  | S754_nan => 0
  | S754_finite s m e => cond_Zopp s (Z.pos m * 2 ^ (e + 1074))
  end.

Definition SFis_nan (x : spec_float) : bool :=
  match x with
  | S754_nan => true
  | _ => false
  end.

(** A rounded result that kept the sign [s] and did not vanish. *)
Definition signed (s : bool) (x : spec_float) : Prop :=
  (exists m e, x = S754_finite s m e) \/ x = S754_infinity s.

Definition units (x : float) : Z := scaled (Prim2SF x).

End Binary64.

(** ** The feed's records *)

Module Feed.

Import Js.

(** [properties] and [geometry] of a feature, with the fields the components
    read. Coordinates are [longitude, latitude, depth]. *)
Record Properties : Type := {
  mag : number;
  place : string;
  time : number;
  title : string
}.

Record Geometry : Type := {
  coordinates : number * number * number
}.

Record Earthquake : Type := {
  id : string;
  properties : Properties;
  geometry : Geometry
}.

Record EarthquakeData : Type := {
  features : list Earthquake
}.

Definition magnitudeOf (eq : Earthquake) : number := mag (properties eq).
Definition lngOf (eq : Earthquake) : number := fst (fst (coordinates (geometry eq))).
Definition latOf (eq : Earthquake) : number := snd (fst (coordinates (geometry eq))).

End Feed.

(** ** components/earthquake-visualizer.tsx *)

Module EarthquakeVisualizer.

Import Js Feed.

(** The component's state cells. [lastUpdated] holds the epoch milliseconds of
    the [Date] it was set to. *)
Record State : Type := {
  earthquakes : list Earthquake;
  filteredEarthquakes : list Earthquake;
  loading : bool;
  error : option string;
  lastUpdated : option number;
  magnitudeFilter : list number;
  timeFilter : string;
  showFilters : bool
}.

Definition setEarthquakes (v : list Earthquake) (st : State) : State :=
  {| earthquakes := v; filteredEarthquakes := filteredEarthquakes st;
     loading := loading st; error := error st; lastUpdated := lastUpdated st;
     magnitudeFilter := magnitudeFilter st; timeFilter := timeFilter st;
     showFilters := showFilters st |}.

Definition setFilteredEarthquakes (v : list Earthquake) (st : State) : State :=
  {| earthquakes := earthquakes st; filteredEarthquakes := v;
     loading := loading st; error := error st; lastUpdated := lastUpdated st;
     magnitudeFilter := magnitudeFilter st; timeFilter := timeFilter st;
     showFilters := showFilters st |}.

Definition setLoading (v : bool) (st : State) : State :=
  {| earthquakes := earthquakes st; filteredEarthquakes := filteredEarthquakes st;
     loading := v; error := error st; lastUpdated := lastUpdated st;
     magnitudeFilter := magnitudeFilter st; timeFilter := timeFilter st;
     showFilters := showFilters st |}.

Definition setError (v : option string) (st : State) : State :=
  {| earthquakes := earthquakes st; filteredEarthquakes := filteredEarthquakes st;
     loading := loading st; error := v; lastUpdated := lastUpdated st;
     magnitudeFilter := magnitudeFilter st; timeFilter := timeFilter st;
     showFilters := showFilters st |}.

Definition setLastUpdated (v : option number) (st : State) : State :=
  {| earthquakes := earthquakes st; filteredEarthquakes := filteredEarthquakes st;
     loading := loading st; error := error st; lastUpdated := v;
     magnitudeFilter := magnitudeFilter st; timeFilter := timeFilter st;
     showFilters := showFilters st |}.

(** The initial state of the [useState] cells. *)
Definition initialState : State :=
  {| earthquakes := []; filteredEarthquakes := []; loading := true;
     error := None; lastUpdated := None; magnitudeFilter := [0%float];
     timeFilter := "all"; showFilters := false |}.

(** *** The filter effect *)

(** The object literal indexed by [timeFilter], by its own keys: any other
    key the selector can produce reads [undefined]. The selector produces
    "all", "1h", "6h" and "12h"; names that every object inherits, such as
    "constructor", are not among them and are left out of the table. *)
Definition timeThresholdTable (key : string) : option number :=
  if String.eqb key "1h" then Some (60 * 60 * 1000)%float
  else if String.eqb key "6h" then Some (6 * 60 * 60 * 1000)%float
  else if String.eqb key "12h" then Some (12 * 60 * 60 * 1000)%float
  else None.

Definition timeThreshold (timeFilter : string) : number :=
  orElse (timeThresholdTable timeFilter) 0%float.

(** The array the effect passes to [setFilteredEarthquakes]; [now] is the one
    value [Date.now()] returned in this run. *)
Definition filtered (earthquakes : list Earthquake) (magnitudeFilter : list number)
    (timeFilter : string) (now : number) : list Earthquake :=
  let filtered := earthquakes in
  let filtered :=
    if gt (elem0 magnitudeFilter) 0%float
    then filter (fun eq => ge (mag (properties eq)) (elem0 magnitudeFilter)) filtered
    else filtered in
  let filtered :=
    if negb (String.eqb timeFilter "all")
    then filter (fun eq => le (now - time (properties eq))%float (timeThreshold timeFilter)) filtered
    else filtered in
  filtered.

Definition filterEffect (now : number) (st : State) : State :=
  setFilteredEarthquakes
    (filtered (earthquakes st) (magnitudeFilter st) (timeFilter st) now) st.

(** The values the time-window selector offers. *)
Inductive TimeWindow : Type := All | LastHour | Last6Hours | Last12Hours.

Definition timeFilterValue (w : TimeWindow) : string :=
  match w with
  | All => "all"
  | LastHour => "1h"
  | Last6Hours => "6h"
  | Last12Hours => "12h"
  end.

(** The window lengths as the specification lists them (All has none). *)
Definition windowMillis (w : TimeWindow) : number :=
  match w with
  | All => 0%float
  | LastHour => 3600000%float
  | Last6Hours => 21600000%float
  | Last12Hours => 43200000%float
  end.

(** *** fetchEarthquakeData *)

(** What the request settles to: [fetch] rejects, or a response arrives with
    its [ok] flag, its status and the value [response.json()] resolves to
    ([None] when the body is not JSON and [json()] rejects). *)
Inductive FetchResult : Type :=
| NetworkFailure
| Response (ok : bool) (status : Z) (json : option EarthquakeData).

Definition fetchErrorMessage : string :=
  "Failed to load earthquake data. Please try again later.".

(** The [try] block; [now] is the time [new Date()] reads on success. *)
Definition fetchTry (result : FetchResult) (now : number) (st : State) : outcome State :=
  let st := setLoading true st in
  let st := setError None st in
  match result with
  | NetworkFailure => Thrown st
  | Response ok status json =>
      if negb ok then Thrown st
      else
        match json with
        | None => Thrown st
        | Some data => Normal (setLastUpdated (Some now) (setEarthquakes (features data) st))
        end
  end.

Definition fetchEarthquakeData (result : FetchResult) (now : number) (st : State) : outcome State :=
  tryCatchFinally (fetchTry result now st)
    (setError (Some fetchErrorMessage))
    (setLoading false).

(** The fetch outcomes that are failures. *)
Definition fetchFailed (result : FetchResult) : bool :=
  match result with
  | NetworkFailure => true
  | Response ok _ json =>
      negb ok || match json with None => true | Some _ => false end
  end.

(** *** Magnitude classes of the list and legend *)

Definition getMagnitudeColor (magnitude : number) : string :=
  if ge magnitude 7%float then "bg-destructive"
  else if ge magnitude 5%float then "bg-orange-500"
  else if ge magnitude 3%float then "bg-yellow-500"
  else if ge magnitude 1%float then "bg-blue-500"
  else "bg-green-500".

Definition getMagnitudeLabel (magnitude : number) : string :=
  if ge magnitude 7%float then "Major"
  else if ge magnitude 5%float then "Moderate"
  else if ge magnitude 3%float then "Light"
  else if ge magnitude 1%float then "Minor"
  else "Micro".

(** *** Significant events and summary cards *)

Definition byMagnitudeDescending (a b : Earthquake) : number :=
  (mag (properties b) - mag (properties a))%float.

Definition significantEarthquakes (filteredEarthquakes : list Earthquake) : list Earthquake :=
  slice 0 5
    (Array_sort byMagnitudeDescending
       (filter (fun eq => ge (mag (properties eq)) 2.5%float) filteredEarthquakes)).

(** What a card prints: a string literal, or [x.toFixed(1)] of a number. *)
Inductive CardText : Type :=
| Literal (s : string)
| ToFixed1 (x : number).

Definition totalEarthquakes (filteredEarthquakes : list Earthquake) : nat :=
  List.length filteredEarthquakes.

Definition significantEvents (filteredEarthquakes : list Earthquake) : nat :=
  List.length (filter (fun eq => ge (mag (properties eq)) 2.5%float) filteredEarthquakes).

Definition strongestEvent (filteredEarthquakes : list Earthquake) : CardText :=
  if (0 <? List.length filteredEarthquakes)%nat
  then ToFixed1 (Math_max (map (fun eq => mag (properties eq)) filteredEarthquakes))
  else Literal "0.0".

Definition averageMagnitude (filteredEarthquakes : list Earthquake) : CardText :=
  if (0 <? List.length filteredEarthquakes)%nat
  then ToFixed1
         (fold_left (fun sum eq => (sum + mag (properties eq))%float) filteredEarthquakes 0%float
          / ofLength (List.length filteredEarthquakes))%float
  else Literal "0.0".

(** The reduction of the average card, on the magnitudes alone. *)
Definition sumFromZero (xs : list number) : number :=
  fold_left (fun sum x => (sum + x)%float) xs 0%float.

(** The four summary cards as the component renders them from its state. *)
Record Cards : Type := {
  cardTotal : nat;
  cardSignificant : nat;
  cardStrongest : CardText;
  cardAverage : CardText
}.

Definition summaryCards (st : State) : Cards :=
  {| cardTotal := totalEarthquakes (filteredEarthquakes st);
     cardSignificant := significantEvents (filteredEarthquakes st);
     cardStrongest := strongestEvent (filteredEarthquakes st);
     cardAverage := averageMagnitude (filteredEarthquakes st) |}.

End EarthquakeVisualizer.

(** ** The map library's boundary *)

Module Leaflet.

Import Js.

(** The options object passed to [L.circleMarker]. *)
Record PathOptions : Type := {
  radius : number;
  fillColor : string;
  color : string;
  weight : number;
  opacity : number;
  fillOpacity : number
}.

(** The popup's template literal, by the values that fill its holes:
    [magnitude.toFixed(1)], the place, the [Date] of the event time and
    [Math.abs] of the depth. *)
Record Popup : Type := {
  popupMagnitude : number;
  popupPlace : string;
  popupTime : number;
  popupDepth : number
}.

(** A circle marker with its bound popup, as the layer group holds it. *)
Record Marker : Type := {
  latlng : number * number;
  options : PathOptions;
  popup : Popup
}.

(** A layer group is the sequence of layers added to it. *)
Definition LayerGroup : Type := list Marker.

Definition clearLayers (group : LayerGroup) : LayerGroup := [].

Definition addLayer (marker : Marker) (group : LayerGroup) : LayerGroup := group ++ [marker].

(** A renderer that accepts every position, and Leaflet's own check, which
    throws on a NaN latitude or longitude. *)
Definition acceptsAll (position : number * number) : bool := false.

Definition throwsOnNaN (position : number * number) : bool :=
  isNaN (fst position) || isNaN (snd position).

End Leaflet.

(** ** components/earthquake-map.tsx *)

Module EarthquakeMap.

Import Js Feed Leaflet.

(** The refs and state the marker effect reads: whether
    [mapInstanceRef.current] is set, the layer group in [markersRef.current],
    [leafletLoaded], and whether [window.L] is defined. *)
Record MapState : Type := {
  mapInstance : bool;
  markers : option LayerGroup;
  leafletLoaded : bool;
  windowL : bool
}.

Definition setMarkers (group : LayerGroup) (st : MapState) : MapState :=
  {| mapInstance := mapInstance st; markers := Some group;
     leafletLoaded := leafletLoaded st; windowL := windowL st |}.

(** Colour and radius chosen from the magnitude. *)
Definition markerStyle (magnitude : number) : string * number :=
  if ge magnitude 7%float then ("#dc2626"%string, 15%float)
  else if ge magnitude 5%float then ("#f97316"%string, 12%float)
  else if ge magnitude 3%float then ("#eab308"%string, 9%float)
  else if ge magnitude 1%float then ("#3b82f6"%string, 7%float)
  else ("#22c55e"%string, 5%float).

(** The marker built for one earthquake. *)
Definition markerFor (earthquake : Earthquake) : Marker :=
  let '(lng, lat, depth) := coordinates (geometry earthquake) in
  let magnitude := mag (properties earthquake) in
  let '(color, radius) := markerStyle magnitude in
  {| latlng := (lat, lng);
     options := {| radius := radius; fillColor := color; color := "#ffffff";
                   weight := 1%float; opacity := 1%float; fillOpacity := 0.7%float |};
     popup := {| popupMagnitude := magnitude;
                 popupPlace := place (properties earthquake);
                 popupTime := time (properties earthquake);
                 popupDepth := abs depth |} |}.

(** The marker descriptors of an event list: one per event, in order. *)
Definition project (earthquakes : list Earthquake) : list Marker :=
  map markerFor earthquakes.

Section Renderer.

(** Whether [L.circleMarker] throws on a position. *)
Variable circleMarkerThrows : number * number -> bool.

(** The [forEach] callback. *)
Definition addEarthquakeMarker (earthquake : Earthquake) (group : LayerGroup) : outcome LayerGroup :=
  let marker := markerFor earthquake in
  if circleMarkerThrows (latlng marker) then Thrown group
  else Normal (addLayer marker group).

(** The effect's body below its readiness test. *)
Definition reconcile (earthquakes : list Earthquake) (group : LayerGroup) : outcome LayerGroup :=
  forEach addEarthquakeMarker earthquakes (clearLayers group).

(** The marker effect; an exception leaves it uncaught. *)
Definition markerEffect (earthquakes : list Earthquake) (loading : bool) (st : MapState) : outcome MapState :=
  match markers st with
  | None => Normal st
  | Some group =>
      if negb (mapInstance st) || loading || negb (leafletLoaded st) || negb (windowL st)
      then Normal st
      else
        match reconcile earthquakes group with
        | Normal group' => Normal (setMarkers group' st)
        | Thrown group' => Thrown (setMarkers group' st)
        end
  end.

End Renderer.

End EarthquakeMap.

(** ** The map component with the coordinate check and the map error state *)

Module EarthquakeMapChecked.

Import Js Feed Leaflet.

Record MapState : Type := {
  mapInstance : bool;
  markers : option LayerGroup;
  leafletLoaded : bool;
  windowL : bool;
  mapError : option string
}.

Definition setMarkers (group : LayerGroup) (st : MapState) : MapState :=
  {| mapInstance := mapInstance st; markers := Some group;
     leafletLoaded := leafletLoaded st; windowL := windowL st;
     mapError := mapError st |}.

Definition setMapError (message : string) (st : MapState) : MapState :=
  {| mapInstance := mapInstance st; markers := markers st;
     leafletLoaded := leafletLoaded st; windowL := windowL st;
     mapError := Some message |}.

(** The test under "Skip invalid coordinates". *)
Definition skipped (earthquake : Earthquake) : bool :=
  let '(lng, lat, _) := coordinates (geometry earthquake) in
  falsy lat || falsy lng || isNaN lat || isNaN lng.

(** Colour and radius chosen from the magnitude. *)
Definition markerStyle (magnitude : number) : string * number :=
  if ge magnitude 7%float then ("#dc2626"%string, 15%float)
  else if ge magnitude 5%float then ("#f97316"%string, 12%float)
  else if ge magnitude 3%float then ("#eab308"%string, 9%float)
  else if ge magnitude 1%float then ("#3b82f6"%string, 7%float)
  else ("#22c55e"%string, 5%float).

Definition markerFor (earthquake : Earthquake) : Marker :=
  let '(lng, lat, depth) := coordinates (geometry earthquake) in
  let magnitude := mag (properties earthquake) in
  let '(color, radius) := markerStyle magnitude in
  {| latlng := (lat, lng);
     options := {| radius := radius; fillColor := color; color := "#ffffff";
                   weight := 1%float; opacity := 1%float; fillOpacity := 0.7%float |};
     popup := {| popupMagnitude := magnitude;
                 popupPlace := place (properties earthquake);
                 popupTime := time (properties earthquake);
                 popupDepth := abs depth |} |}.

(** The marker descriptors of an event list: one per event that is not
    skipped, in the list's order. *)
Definition project (earthquakes : list Earthquake) : list Marker :=
  map markerFor (filter (fun earthquake => negb (skipped earthquake)) earthquakes).

Section Renderer.

Variable circleMarkerThrows : number * number -> bool.

(** The [forEach] callback: [return] on a skipped event. *)
Definition addEarthquakeMarker (earthquake : Earthquake) (group : LayerGroup) : outcome LayerGroup :=
  if skipped earthquake then Normal group
  else
    let marker := markerFor earthquake in
    if circleMarkerThrows (latlng marker) then Thrown group
    else Normal (addLayer marker group).

(** The [try] block. *)
Definition reconcile (earthquakes : list Earthquake) (group : LayerGroup) : outcome LayerGroup :=
  forEach addEarthquakeMarker earthquakes (clearLayers group).

Definition markerErrorMessage : string := "Error adding earthquake markers".

(** The marker effect: readiness test, then the [try] block with its
    [catch]. *)
Definition markerEffect (earthquakes : list Earthquake) (loading : bool) (st : MapState) : outcome MapState :=
  match markers st with
  | None => Normal st
  | Some group =>
      if negb (mapInstance st) || loading || negb (leafletLoaded st) || negb (windowL st)
         || match mapError st with Some _ => true | None => false end
      then Normal st
      else
        tryCatch
          match reconcile earthquakes group with
          | Normal group' => Normal (setMarkers group' st)
          | Thrown group' => Thrown (setMarkers group' st)
          end
          (setMapError markerErrorMessage)
  end.

End Renderer.

End EarthquakeMapChecked.

(** ** The magnitude classes across the components *)

Module Classification.

Import Js.

(** The list label, the badge colour, and the marker colour and radius of
    both map components agree on one class. *)
Definition classifiedAs (magnitude : number) (label badge fill : string) (radius : number) : Prop :=
  EarthquakeVisualizer.getMagnitudeLabel magnitude = label /\
  EarthquakeVisualizer.getMagnitudeColor magnitude = badge /\
  EarthquakeMap.markerStyle magnitude = (fill, radius) /\
  EarthquakeMapChecked.markerStyle magnitude = (fill, radius).

End Classification.

(** ** Arrays as shared objects *)

Module ArrayStore.

Import Js Feed.

(** An array is an object: a variable or state cell holds its address, and
    the store gives the contents at each allocated address. [filter] and
    [slice] allocate a new array; [sort] rewrites the array it is called on
    and returns that same array. *)
Definition store : Type := list (list Earthquake).

Definition address : Type := nat.

Definition read (h : store) (a : address) : list Earthquake := nth a h [].

Definition alloc (h : store) (contents : list Earthquake) : store * address :=
  (h ++ [contents], List.length h).

Fixpoint write (h : store) (a : address) (contents : list Earthquake) : store :=
  match h, a with
  | [], _ => []
  | _ :: rest, O => contents :: rest
  | x :: rest, S a' => x :: write rest a' contents
  end.

Definition array_filter (p : Earthquake -> bool) (a : address) (h : store) : store * address :=
  alloc h (filter p (read h a)).

Definition array_sort (comparefn : Earthquake -> Earthquake -> number) (a : address) (h : store)
    : store * address :=
  (write h a (Array_sort comparefn (read h a)), a).

Definition array_slice (start stop : nat) (a : address) (h : store) : store * address :=
  alloc h (slice start stop (read h a)).

(** The filter effect on addresses: [let filtered = earthquakes] aliases the
    state's array, and each active filter rebinds [filtered] to a new one. *)
Definition filterEffect (earthquakes : address) (magnitudeFilter : list number)
    (timeFilter : string) (now : number) (h : store) : store * address :=
  let filtered := earthquakes in
  let '(h, filtered) :=
    if gt (elem0 magnitudeFilter) 0%float
    then array_filter (fun eq => ge (mag (properties eq)) (elem0 magnitudeFilter)) filtered h
    else (h, filtered) in
  let '(h, filtered) :=
    if negb (String.eqb timeFilter "all")
    then array_filter
           (fun eq => le (now - time (properties eq))%float
                         (EarthquakeVisualizer.timeThreshold timeFilter)) filtered h
    else (h, filtered) in
  (h, filtered).

(** [filteredEarthquakes.filter(...).sort(...).slice(0, 5)]. *)
Definition significantEarthquakes (filteredEarthquakes : address) (h : store) : store * address :=
  let '(h, a) := array_filter (fun eq => ge (mag (properties eq)) 2.5%float) filteredEarthquakes h in
  let '(h, a) := array_sort EarthquakeVisualizer.byMagnitudeDescending a h in
  array_slice 0 5 a h.

(** No allocated array of [h] has other contents in [h']. *)
Definition preserves (h h' : store) : Prop :=
  (List.length h <= List.length h')%nat /\
  forall a : address, (a < List.length h)%nat -> read h' a = read h a.

(** The filter effect followed by the render that derives the list of
    significant events: the store afterwards, the filtered array and the
    top list. *)
Definition computeView (earthquakes : address) (magnitudeFilter : list number)
    (timeFilter : string) (now : number) (h : store) : store * address * address :=
  let '(h, filtered) := filterEffect earthquakes magnitudeFilter timeFilter now h in
  let '(h, top) := significantEarthquakes filtered h in
  (h, filtered, top).

End ArrayStore.

(** ** Vocabulary for sorting by a numeric key *)

Module SortSpec.

Import Js.

(** The comparator [(a, b) => key(b) - key(a)]. *)
Definition descendingBy {A : Type} (key : A -> number) (a b : A) : number :=
  (key b - key a)%float.

(** Every key is a number other than NaN. *)
Definition keyedBy {A : Type} (key : A -> number) (l : list A) : Prop :=
  Forall (fun a => is_nan (key a) = false) l.

(** [a] may stand before [b] in descending key order. *)
Definition precedesBy {A : Type} (key : A -> number) (a b : A) : Prop :=
  ge (key a) (key b) = true.

End SortSpec.

(** ** Sample events *)

Module Samples.

Import Js Feed.

Definition quake (name : string) (magnitude occurred lng lat : number) : Earthquake :=
  {| id := name;
     properties := {| mag := magnitude; place := "Test Zone"; time := occurred; title := name |};
     geometry := {| coordinates := (lng, lat, 10%float) |} |}.

(** A fixed reading of the clock, in epoch milliseconds. *)
Definition clock : number := 1700000000000%float.

Definition q20 : Earthquake := quake "q20" 2.0%float clock 10%float 20%float.
Definition q60 : Earthquake := quake "q60" 6.0%float clock 11%float 21%float.
Definition q30 : Earthquake := quake "q30" 3.0%float clock 12%float 22%float.
Definition q90 : Earthquake := quake "q90" 9.0%float clock 13%float 23%float.
Definition q50 : Earthquake := quake "q50" 5.0%float clock 14%float 24%float.
Definition q60' : Earthquake := quake "q60'" 6.0%float clock 15%float 25%float.

(** Events without a usable magnitude or with unusual coordinates. *)
Definition qNaN : Earthquake := quake "qNaN" nan clock 10%float 20%float.
Definition qLatNaN : Earthquake := quake "qLatNaN" 4.5%float clock 10%float nan.
Definition qLatInfinite : Earthquake := quake "qLatInfinite" 4.5%float clock 10%float infinity.
Definition qEquator : Earthquake := quake "qEquator" 4.5%float clock 10%float 0%float.
Definition qMeridian : Earthquake := quake "qMeridian" 4.5%float clock 0%float 20%float.

(** Events one hour and one hour plus a millisecond old at [clock]. *)
Definition qHourOld : Earthquake := quake "qHourOld" 4.5%float (clock - 3600000)%float 10%float 20%float.
Definition qOverHourOld : Earthquake := quake "qOverHourOld" 4.5%float (clock - 3600001)%float 10%float 20%float.

End Samples.

(** ** components/earthquake-visualizer.tsx: what is rendered, the controls
    and the two halves of a fetch *)

Module VisualizerView.

Import Js Feed EarthquakeVisualizer.

Definition setMagnitudeFilter (v : list number) (st : State) : State :=
  {| earthquakes := earthquakes st; filteredEarthquakes := filteredEarthquakes st;
     loading := loading st; error := error st; lastUpdated := lastUpdated st;
     magnitudeFilter := v; timeFilter := timeFilter st;
     showFilters := showFilters st |}.

Definition setTimeFilter (v : string) (st : State) : State :=
  {| earthquakes := earthquakes st; filteredEarthquakes := filteredEarthquakes st;
     loading := loading st; error := error st; lastUpdated := lastUpdated st;
     magnitudeFilter := magnitudeFilter st; timeFilter := v;
     showFilters := showFilters st |}.

Definition setShowFilters (v : bool) (st : State) : State :=
  {| earthquakes := earthquakes st; filteredEarthquakes := filteredEarthquakes st;
     loading := loading st; error := error st; lastUpdated := lastUpdated st;
     magnitudeFilter := magnitudeFilter st; timeFilter := timeFilter st;
     showFilters := v |}.

(** *** A fetch in two halves *)

(** [fetchEarthquakeData] up to its first [await]: the two state updates made
    before the request is sent. *)
Definition fetchStart (st : State) : State := setError None (setLoading true st).

(** The rest of the [try] block, run when the request settles, on the state
    of that moment. *)
Definition fetchResume (result : FetchResult) (now : number) (st : State) : outcome State :=
  match result with
  | NetworkFailure => Thrown st
  | Response ok status json =>
      if negb ok then Thrown st
      else
        match json with
        | None => Thrown st
        | Some data => Normal (setLastUpdated (Some now) (setEarthquakes (features data) st))
        end
  end.

Definition fetchSettle (result : FetchResult) (now : number) (st : State) : outcome State :=
  tryCatchFinally (fetchResume result now st)
    (setError (Some fetchErrorMessage))
    (setLoading false).

(** The state of a completion; a thrown completion carries its state too. *)
Definition stateOf (o : outcome State) : State :=
  match o with
  | Normal s => s
  | Thrown s => s
  end.

(** *** The rendered panels *)

(** The refresh button's [disabled] attribute. *)
Definition refreshDisabled (st : State) : bool := loading st.

(** The line "Last updated: ..." is rendered when [lastUpdated] is set. *)
Definition lastUpdatedShown (st : State) : bool :=
  match lastUpdated st with
  | Some _ => true
  | None => false
  end.

(** The map card: when [error] is truthy, the error panel with the message
    and the "Try Again" button; otherwise the map component with its props. *)
Inductive MapCard : Type :=
| ErrorPanel (message : string)
| MapComponent (earthquakes : list Earthquake) (loading : bool).

Definition mapCard (st : State) : MapCard :=
  match error st with
  | Some message =>
      if String.eqb message "" then MapComponent (filteredEarthquakes st) (loading st)
      else ErrorPanel message
  | None => MapComponent (filteredEarthquakes st) (loading st)
  end.

(** One entry of the list of significant events: the React key, the badge
    class and the number it prints with [toFixed(1)], the class label, the
    place and the event time. *)
Record ListItem : Type := {
  itemKey : string;
  itemBadge : string;
  itemMagnitude : number;
  itemLabel : string;
  itemPlace : string;
  itemTime : number
}.

Definition listItem (earthquake : Earthquake) : ListItem :=
  {| itemKey := id earthquake;
     itemBadge := getMagnitudeColor (mag (properties earthquake));
     itemMagnitude := mag (properties earthquake);
     itemLabel := getMagnitudeLabel (mag (properties earthquake));
     itemPlace := place (properties earthquake);
     itemTime := time (properties earthquake) |}.

(** The list card: five skeleton rows while loading, the entries when there
    are significant events, the "no significant earthquakes" message
    otherwise. *)
Inductive ListCard : Type :=
| Skeleton (rows : nat)
| Items (items : list ListItem)
| NoSignificantEvents.

Definition listCard (st : State) : ListCard :=
  if loading st then Skeleton 5
  else if (0 <? List.length (significantEarthquakes (filteredEarthquakes st)))%nat
       then Items (map listItem (significantEarthquakes (filteredEarthquakes st)))
       else NoSignificantEvents.

(** The rows of the magnitude scale card. *)
Record LegendRow : Type := {
  legendColor : string;
  legendLabel : string;
  legendRange : string;
  legendDescription : string
}.

Definition legend : list LegendRow :=
  [ {| legendColor := "bg-green-500"; legendLabel := "Micro"; legendRange := "<1.0";
       legendDescription := "Usually not felt" |};
    {| legendColor := "bg-blue-500"; legendLabel := "Minor"; legendRange := "1.0-2.9";
       legendDescription := "Rarely felt" |};
    {| legendColor := "bg-yellow-500"; legendLabel := "Light"; legendRange := "3.0-4.9";
       legendDescription := "Often felt" |};
    {| legendColor := "bg-orange-500"; legendLabel := "Moderate"; legendRange := "5.0-6.9";
       legendDescription := "Damaging" |};
    {| legendColor := "bg-red-600"; legendLabel := "Major"; legendRange := "7.0+";
       legendDescription := "Serious damage" |} ].

(** The colour the legend shows for a label. *)
Definition legendColorOf (label : string) : option string :=
  option_map legendColor (find (fun row => String.eqb (legendLabel row) label) legend).

(** *** The component as a state machine *)

(** What can happen to the state: a fetch runs to completion, the filter
    effect runs, or a control is used. *)
Inductive Event : Type :=
| Fetched (result : FetchResult) (now : number)
| FilterEffectRan (now : number)
| SliderMoved (value : list number)
| WindowSelected (value : string)
| FiltersToggled.

Definition handle (e : Event) (st : State) : State :=
  match e with
  | Fetched result now => stateOf (fetchEarthquakeData result now st)
  | FilterEffectRan now => filterEffect now st
  | SliderMoved value => setMagnitudeFilter value st
  | WindowSelected value => setTimeFilter value st
  | FiltersToggled => setShowFilters (negb (showFilters st)) st
  end.

Definition run (events : list Event) (st : State) : State :=
  fold_left (fun st e => handle e st) events st.

Definition succeeded (e : Event) : bool :=
  match e with
  | Fetched result _ => negb (fetchFailed result)
  | _ => false
  end.

End VisualizerView.

(** ** The map component with the coordinate check: loading the library,
    creating the map, cleanup and rendering *)

Module MapLifecycle.

Import Js Feed Leaflet EarthquakeMapChecked.

(** [s.includes(sub)]. *)
Definition includes (s sub : string) : bool :=
  match String.index 0 sub s with
  | Some _ => true
  | None => false
  end.

(** The document, by the [href] of its [link] elements and the [src] of the
    [script] elements appended to the head. *)
Record Document : Type := {
  links : list string;
  scripts : list string
}.

Record Component : Type := {
  refs : MapState;
  document : Document
}.

Definition setLeafletLoaded (v : bool) (st : MapState) : MapState :=
  {| mapInstance := mapInstance st; markers := markers st;
     leafletLoaded := v; windowL := windowL st; mapError := mapError st |}.

Definition setMapInstance (v : bool) (st : MapState) : MapState :=
  {| mapInstance := v; markers := markers st;
     leafletLoaded := leafletLoaded st; windowL := windowL st; mapError := mapError st |}.

Definition setWindowL (v : bool) (st : MapState) : MapState :=
  {| mapInstance := mapInstance st; markers := markers st;
     leafletLoaded := leafletLoaded st; windowL := v; mapError := mapError st |}.

Definition leafletCss : string := "https://unpkg.com/leaflet@1.9.4/dist/leaflet.css".
Definition leafletJs : string := "https://unpkg.com/leaflet@1.9.4/dist/leaflet.js".

(** [loadLeaflet] in the browser: the stylesheet link is appended unless some
    link's [href] contains "leaflet"; the script is appended when [window.L]
    is undefined, and otherwise [leafletLoaded] is set. The DOM calls are
    taken not to throw. *)
Definition loadLeaflet (c : Component) : Component :=
  let links' :=
    if existsb (fun href => includes href "leaflet") (links (document c))
    then links (document c)
    else links (document c) ++ [leafletCss] in
  if windowL (refs c)
  then {| refs := setLeafletLoaded true (refs c);
          document := {| links := links'; scripts := scripts (document c) |} |}
  else {| refs := refs c;
          document := {| links := links'; scripts := scripts (document c) ++ [leafletJs] |} |}.

(** The script's [onload] and [onerror] handlers. *)
Definition scriptOnload (st : MapState) : MapState := setLeafletLoaded true st.

Definition scriptOnerror (st : MapState) : MapState := setMapError "Failed to load map library" st.

(** Where the initialisation may throw: in [L.map(...).setView(...)], before
    anything is assigned; in the tile layer's [addTo]; or in the layer
    group's creation, both after [mapInstanceRef.current] is assigned and
    before [markersRef.current] is. *)
Inductive InitThrow : Type :=
| InitCompletes
| ThrowsInMap
| ThrowsInTileLayer
| ThrowsInLayerGroup.

(** The initialisation effect; [mapRef] tells whether [mapRef.current] is
    attached. *)
Definition initEffect (mapRef : bool) (throws : InitThrow) (st : MapState) : MapState :=
  if negb mapRef || negb (leafletLoaded st) || negb (windowL st)
     || match mapError st with Some _ => true | None => false end
  then st
  else if mapInstance st then st
  else
    match throws with
    | InitCompletes =>
        {| mapInstance := true; markers := Some [];
           leafletLoaded := leafletLoaded st; windowL := windowL st;
           mapError := mapError st |}
    | ThrowsInMap => setMapError "Failed to initialize map" st
    | ThrowsInTileLayer | ThrowsInLayerGroup =>
        setMapError "Failed to initialize map" (setMapInstance true st)
    end.

(** The cleanup the initialisation effect returns; an exception of
    [remove()] is ignored and leaves the ref assigned. *)
Definition initCleanup (removeThrows : bool) (st : MapState) : MapState :=
  if mapInstance st
  then if removeThrows then st else setMapInstance false st
  else st.

(** What the component returns. *)
Inductive View : Type :=
| MapErrorView (message : string)
| LoadingView
| MapContainer.

Definition render (st : MapState) : View :=
  match mapError st with
  | Some message => MapErrorView message
  | None => if leafletLoaded st then MapContainer else LoadingView
  end.

(** The component's steps: its effects, the script's events, the library
    defining [window.L], and the cleanup. *)
Inductive Step : Type :=
| LoadLeaflet
| ScriptLoaded
| ScriptFailed
| LibraryDefined
| InitEffect (mapRef : bool) (throws : InitThrow)
| InitCleanup (removeThrows : bool)
| MarkerEffect (circleMarkerThrows : number * number -> bool)
    (earthquakes : list Earthquake) (loading : bool).

Definition onRefs (f : MapState -> MapState) (c : Component) : Component :=
  {| refs := f (refs c); document := document c |}.

Definition completed (o : outcome MapState) : MapState :=
  match o with
  | Normal s => s
  | Thrown s => s
  end.

Definition step (s : Step) (c : Component) : Component :=
  match s with
  | LoadLeaflet => loadLeaflet c
  | ScriptLoaded => onRefs scriptOnload c
  | ScriptFailed => onRefs scriptOnerror c
  | LibraryDefined => onRefs (setWindowL true) c
  | InitEffect mapRef throws => onRefs (initEffect mapRef throws) c
  | InitCleanup removeThrows => onRefs (initCleanup removeThrows) c
  | MarkerEffect circleMarkerThrows earthquakes loading =>
      onRefs (fun st => completed (markerEffect circleMarkerThrows earthquakes loading st)) c
  end.

Definition run (steps : list Step) (c : Component) : Component :=
  fold_left (fun c s => step s c) steps c.

(** The component when it mounts, in a document with the given links. *)
Definition mounted (hasL : bool) (hrefs : list string) : Component :=
  {| refs := {| mapInstance := false; markers := None; leafletLoaded := false;
                windowL := hasL; mapError := None |};
     document := {| links := hrefs; scripts := [] |} |}.

End MapLifecycle.

(** ** components/earthquake-visualizer.tsx: the fetch over the values the
    state cells hold when the code runs *)

Module EarthquakeVisualizerUntyped.

Import Js Feed.

(** The annotation [const data: EarthquakeData] is erased when the code
    runs: [setEarthquakes] stores whatever [data.features] evaluates to, and
    nothing checks that it is an array of events. [Value] is the type of what
    the two event cells may hold; the fetch never looks into it. *)
Record State (Value : Type) : Type := {
  earthquakes : Value;
  filteredEarthquakes : Value;
  loading : bool;
  error : option string;
  lastUpdated : option number;
  magnitudeFilter : list number;
  timeFilter : string;
  showFilters : bool
}.
Arguments earthquakes {Value} s.
Arguments filteredEarthquakes {Value} s.
Arguments loading {Value} s.
Arguments error {Value} s.
Arguments lastUpdated {Value} s.
Arguments magnitudeFilter {Value} s.
Arguments timeFilter {Value} s.
Arguments showFilters {Value} s.

Definition setEarthquakes {Value : Type} (v : Value) (st : State Value) : State Value :=
  {| earthquakes := v; filteredEarthquakes := filteredEarthquakes st;
     loading := loading st; error := error st; lastUpdated := lastUpdated st;
     magnitudeFilter := magnitudeFilter st; timeFilter := timeFilter st;
     showFilters := showFilters st |}.

Definition setLoading {Value : Type} (v : bool) (st : State Value) : State Value :=
  {| earthquakes := earthquakes st; filteredEarthquakes := filteredEarthquakes st;
     loading := v; error := error st; lastUpdated := lastUpdated st;
     magnitudeFilter := magnitudeFilter st; timeFilter := timeFilter st;
     showFilters := showFilters st |}.

Definition setError {Value : Type} (v : option string) (st : State Value) : State Value :=
  {| earthquakes := earthquakes st; filteredEarthquakes := filteredEarthquakes st;
     loading := loading st; error := v; lastUpdated := lastUpdated st;
     magnitudeFilter := magnitudeFilter st; timeFilter := timeFilter st;
     showFilters := showFilters st |}.

Definition setLastUpdated {Value : Type} (v : option number) (st : State Value) : State Value :=
  {| earthquakes := earthquakes st; filteredEarthquakes := filteredEarthquakes st;
     loading := loading st; error := error st; lastUpdated := v;
     magnitudeFilter := magnitudeFilter st; timeFilter := timeFilter st;
     showFilters := showFilters st |}.

(** What [response.json()] settles to: it rejects when the body is not JSON;
    it resolves to [null], on which reading [data.features] throws; or it
    resolves to any other value, on which [data.features] evaluates to
    [features] ([undefined] when the value has no such property). *)
Inductive Body (Value : Type) : Type :=
| NotJson
| Null
| Parsed (features : Value).
Arguments NotJson {Value}.
Arguments Null {Value}.
Arguments Parsed {Value} features.

(** What the request settles to: [fetch] rejects, or a response arrives with
    its [ok] flag, its status and its body, which is read only when the
    response is ok. *)
Inductive FetchResult (Value : Type) : Type :=
| NetworkFailure
| Response (ok : bool) (status : Z) (body : Body Value).
Arguments NetworkFailure {Value}.
Arguments Response {Value} ok status body.

(** The [try] block; [now] is the time [new Date()] reads. *)
Definition fetchTry {Value : Type} (result : FetchResult Value) (now : number)
    (st : State Value) : outcome (State Value) :=
  let st := setLoading true st in
  let st := setError None st in
  match result with
  | NetworkFailure => Thrown st
  | Response ok status body =>
      if negb ok then Thrown st
      else
        match body with
        | NotJson => Thrown st
        | Null => Thrown st
        | Parsed features => Normal (setLastUpdated (Some now) (setEarthquakes features st))
        end
  end.

Definition fetchEarthquakeData {Value : Type} (result : FetchResult Value) (now : number)
    (st : State Value) : outcome (State Value) :=
  tryCatchFinally (fetchTry result now st)
    (setError (Some EarthquakeVisualizer.fetchErrorMessage))
    (setLoading false).

(** The fetch outcomes that end in the [catch] block: a network failure, a
    response that is not ok, a body that is not JSON, and the body [null]. *)
Definition fetchFailed {Value : Type} (result : FetchResult Value) : bool :=
  match result with
  | NetworkFailure => true
  | Response ok _ body =>
      negb ok || match body with NotJson | Null => true | Parsed _ => false end
  end.

(** *** The typed component among the untyped ones *)

(** A state and a fetch outcome of the typed component, with an event array
    stored as the value [array] makes of it. *)
Definition erase {Value : Type} (array : list Earthquake -> Value)
    (st : EarthquakeVisualizer.State) : State Value :=
  {| earthquakes := array (EarthquakeVisualizer.earthquakes st);
     filteredEarthquakes := array (EarthquakeVisualizer.filteredEarthquakes st);
     loading := EarthquakeVisualizer.loading st;
     error := EarthquakeVisualizer.error st;
     lastUpdated := EarthquakeVisualizer.lastUpdated st;
     magnitudeFilter := EarthquakeVisualizer.magnitudeFilter st;
     timeFilter := EarthquakeVisualizer.timeFilter st;
     showFilters := EarthquakeVisualizer.showFilters st |}.

Definition eraseResult {Value : Type} (array : list Earthquake -> Value)
    (result : EarthquakeVisualizer.FetchResult) : FetchResult Value :=
  match result with
  | EarthquakeVisualizer.NetworkFailure => NetworkFailure
  | EarthquakeVisualizer.Response ok status None => Response ok status NotJson
  | EarthquakeVisualizer.Response ok status (Some data) =>
      Response ok status (Parsed (array (features data)))
  end.

Definition eraseOutcome {Value : Type} (array : list Earthquake -> Value)
    (o : outcome EarthquakeVisualizer.State) : outcome (State Value) :=
  match o with
  | Normal st => Normal (erase array st)
  | Thrown st => Thrown (erase array st)
  end.

(** The values of the examples: [undefined], and an array of events. *)
Inductive JsValue : Type :=
| Undefined
| EventArray (events : list Earthquake).

(** The component with one event loaded, at 1699999000000. *)
Definition loadedBefore : State JsValue :=
  erase EventArray
    (EarthquakeVisualizer.setLoading false
       (EarthquakeVisualizer.setLastUpdated (Some 1699999000000%float)
          (EarthquakeVisualizer.setFilteredEarthquakes [Samples.q60]
             (EarthquakeVisualizer.setEarthquakes [Samples.q60]
                EarthquakeVisualizer.initialState)))).

End EarthquakeVisualizerUntyped.

(** * Properties *)

(** ** Binary64: rounding keeps the sign of a difference, and the order is that
    of the scaled integer values *)

Module Binary64Facts.

Import Binary64.

Local Open Scope Z_scope.

(** A mantissa of [d] binary digits lies in [2^(d-1), 2^d). *)
Lemma digits2_pos_bounds (m : positive) :
  2 ^ (Z.pos (digits2_pos m) - 1) <= Z.pos m < 2 ^ Z.pos (digits2_pos m).
Proof.
  induction m as [m IH | m IH |]; cbn [digits2_pos].
  - rewrite Pos2Z.inj_succ. change (Z.pos m~1) with (2 * Z.pos m + 1).
    replace (Z.succ (Z.pos (digits2_pos m)) - 1) with (Z.succ (Z.pos (digits2_pos m) - 1)) by lia.
    rewrite !Z.pow_succ_r by lia.
    revert IH. generalize (2 ^ (Z.pos (digits2_pos m) - 1)) (2 ^ Z.pos (digits2_pos m)). lia.
  - rewrite Pos2Z.inj_succ. change (Z.pos m~0) with (2 * Z.pos m).
    replace (Z.succ (Z.pos (digits2_pos m)) - 1) with (Z.succ (Z.pos (digits2_pos m) - 1)) by lia.
    rewrite !Z.pow_succ_r by lia.
    revert IH. generalize (2 ^ (Z.pos (digits2_pos m) - 1)) (2 ^ Z.pos (digits2_pos m)). lia.
  - cbn. lia.
Qed.

Lemma iter_xO_pow (d m : positive) :
  Z.pos (Pos.iter xO m d) = Z.pos m * 2 ^ Z.pos d.
Proof.
  revert m. induction d as [| d IH] using Pos.peano_ind; intro m.
  - cbn. lia.
  - rewrite Pos.iter_succ. change (Z.pos (Pos.iter xO m d)~0) with (2 * Z.pos (Pos.iter xO m d)).
    rewrite IH, Pos2Z.inj_succ, Z.pow_succ_r by lia. lia.
Qed.

(** Aligning to a smaller exponent multiplies the mantissa by a power of two. *)
Lemma shl_align_value (m : positive) (e e' : Z) :
  e' <= e -> Z.pos (fst (shl_align m e e')) = Z.pos m * 2 ^ (e - e').
Proof.
  intro H. unfold shl_align.
  destruct (e' - e) as [| d | d] eqn:E.
  - cbn [fst]. replace (e - e') with 0 by lia. cbn. lia.
  - lia.
  - cbn [fst]. rewrite iter_xO_pow. f_equal. f_equal. lia.
Qed.

Lemma shl_align_snd (m : positive) (e e' : Z) :
  snd (shl_align m e e') = Z.min e e'.
Proof.
  unfold shl_align. destruct (e' - e) eqn:E; cbn [snd]; lia.
Qed.

(* shr_1 on a nonnegative mantissa drops one binary digit *)
Lemma shr_1_digits (mrs : shr_record) :
  0 <= shr_m mrs ->
  0 <= shr_m (shr_1 mrs) /\
  Zdigits2 (shr_m (shr_1 mrs)) = Z.max 0 (Zdigits2 (shr_m mrs) - 1).
Proof.
  destruct mrs as [m r s]. cbn [shr_m]. intro H.
  destruct m as [| [p | p |] | p]; cbn [shr_1 shr_m Zdigits2 digits2_pos]; rewrite ?Pos2Z.inj_succ; lia.
Qed.

Lemma iter_shr_1_digits (p : positive) : forall mrs,
  0 <= shr_m mrs ->
  0 <= shr_m (iter_pos shr_1 p mrs) /\
  Zdigits2 (shr_m (iter_pos shr_1 p mrs)) = Z.max 0 (Zdigits2 (shr_m mrs) - Z.pos p).
Proof.
  induction p as [p IH | p IH |]; intros mrs H; cbn [iter_pos].
  - destruct (shr_1_digits mrs H) as [H1 E1].
    destruct (IH _ H1) as [H2 E2].
    destruct (IH _ H2) as [H3 E3].
    split; [exact H3|]. rewrite E3, E2, E1. lia.
  - destruct (IH _ H) as [H2 E2].
    destruct (IH _ H2) as [H3 E3].
    split; [exact H3|]. rewrite E3, E2. lia.
  - destruct (shr_1_digits mrs H) as [H1 E1]. split; [exact H1|]. rewrite E1. lia.
Qed.

Lemma Zdigits2_pos_iff (m : Z) : 0 <= m -> (0 < Zdigits2 m <-> 0 < m).
Proof. destruct m; cbn; lia. Qed.

Lemma shr_record_of_loc_m (m : Z) (l : location) : shr_m (shr_record_of_loc m l) = m.
Proof. destruct l as [| []]; reflexivity. Qed.

(** Above the smallest exponent, the shift that brings a mantissa to its
    format drops fewer digits than it has: a positive mantissa stays
    positive. *)
Lemma shr_fexp_positive (m e : Z) (l : location) :
  0 < m -> -1074 <= e ->
  0 < shr_m (fst (shr_fexp prec emax m e l)) /\ -1074 <= snd (shr_fexp prec emax m e l).
Proof.
  intros Hm He. unfold shr_fexp, shr.
  pose proof (Zdigits2_pos_iff m ltac:(lia)) as Hd.
  assert (HD : 0 < Zdigits2 m) by (apply Hd; exact Hm).
  destruct (fexp prec emax (Zdigits2 m + e) - e) as [| p | p] eqn:E; cbn [fst snd];
    rewrite ?shr_record_of_loc_m; try (split; lia).
  destruct (iter_shr_1_digits p (shr_record_of_loc m l)) as [H0 H1].
  { rewrite shr_record_of_loc_m. lia. }
  rewrite shr_record_of_loc_m in H1.
  unfold fexp, SpecFloat.emin, prec, emax in E.
  split; [| lia].
  apply Zdigits2_pos_iff; [exact H0|]. rewrite H1. lia.
Qed.

Lemma round_nearest_even_positive (m : Z) (l : location) :
  0 < m -> 0 < round_nearest_even m l.
Proof.
  intro H. destruct l as [| []]; cbn; try lia. destruct (Z.even m); lia.
Qed.

Lemma binary_round_aux_signed (s : bool) (m e : Z) (l : location) :
  0 < m -> -1074 <= e -> signed s (binary_round_aux prec emax s m e l).
Proof.
  intros Hm He. unfold binary_round_aux.
  destruct (shr_fexp_positive m e l Hm He) as [H1 H2].
  destruct (shr_fexp prec emax m e l) as [mrs' e']. cbn [fst snd] in H1, H2.
  pose proof (round_nearest_even_positive (shr_m mrs') (loc_of_shr_record mrs') H1) as H3.
  destruct (shr_fexp_positive _ e' loc_Exact H3 H2) as [H4 _].
  destruct (shr_fexp prec emax _ e' loc_Exact) as [mrs'' e'']. cbn [fst] in H4.
  destruct (shr_m mrs'') as [| q | q]; try lia.
  destruct (e'' <=? emax - prec); [left; eauto | right; reflexivity].
Qed.

Lemma binary_round_signed (s : bool) (m : positive) (e : Z) :
  -1074 <= e -> signed s (binary_round prec emax s m e).
Proof.
  intro He. unfold binary_round.
  pose proof (shl_align_snd m e (fexp prec emax (Z.pos (digits2_pos m) + e))) as Hs.
  destruct (shl_align m e _) as [mz ez]. cbn [snd] in Hs.
  apply binary_round_aux_signed; [lia|].
  unfold fexp, SpecFloat.emin, prec, emax in Hs. lia.
Qed.

(** Rounding a non-zero integer multiple of 2^e, e >= -1074, gives a finite
    number or an infinity of the same sign, never zero. *)
Lemma binary_normalize_signed (m e : Z) (sz : bool) :
  m <> 0 -> -1074 <= e -> signed (m <? 0) (binary_normalize prec emax m e sz).
Proof.
  intros Hm He. destruct m as [| p | p]; [congruence | |]; cbn [binary_normalize];
    apply binary_round_signed; exact He.
Qed.

(** A valid finite number has exponent at least -1074 and at most 53
    mantissa digits, exactly 53 unless the exponent is the smallest. *)
Lemma bounded_facts (m : positive) (e : Z) :
  bounded prec emax m e = true ->
  -1074 <= e /\ Z.pos (digits2_pos m) <= 53 /\ (-1074 < e -> Z.pos (digits2_pos m) = 53).
Proof.
  unfold bounded, canonical_mantissa, fexp, SpecFloat.emin, prec, emax.
  intro H. apply andb_true_iff in H. destruct H as [H _].
  apply Z.eqb_eq in H. lia.
Qed.

Lemma mantissa_lt_pow53 (m : positive) (e : Z) :
  bounded prec emax m e = true -> Z.pos m < 2 ^ 53.
Proof.
  intro H. destruct (bounded_facts m e H) as (_ & Hd & _).
  pose proof (digits2_pos_bounds m) as [_ Hu].
  eapply Z.lt_le_trans; [exact Hu|]. apply Z.pow_le_mono_r; lia.
Qed.

Lemma normal_mantissa_ge_pow52 (m : positive) (e : Z) :
  bounded prec emax m e = true -> -1074 < e -> 2 ^ 52 <= Z.pos m.
Proof.
  intros H He. destruct (bounded_facts m e H) as (_ & _ & Hd).
  pose proof (digits2_pos_bounds m) as [Hl _]. rewrite (Hd He) in Hl. exact Hl.
Qed.

Lemma aligned_lt (m1 m2 : positive) (e1 e2 : Z) :
  bounded prec emax m1 e1 = true -> bounded prec emax m2 e2 = true ->
  e1 < e2 -> Z.pos m1 < Z.pos m2 * 2 ^ (e2 - e1).
Proof.
  intros H1 H2 Hlt.
  pose proof (mantissa_lt_pow53 m1 e1 H1) as Hu.
  destruct (bounded_facts m1 e1 H1) as (He1 & _ & _).
  pose proof (normal_mantissa_ge_pow52 m2 e2 H2 ltac:(lia)) as Hl.
  assert (Hp : 2 ^ 1 <= 2 ^ (e2 - e1)) by (apply Z.pow_le_mono_r; lia).
  change (2 ^ 1) with 2 in Hp.
  change (2 ^ 53) with (2 ^ 52 * 2) in Hu.
  generalize dependent (2 ^ (e2 - e1)). generalize dependent (2 ^ 52). intros. nia.
Qed.

Lemma compare_aligned (m1 m2 : positive) (e1 e2 : Z) :
  bounded prec emax m1 e1 = true -> bounded prec emax m2 e2 = true ->
  (Z.pos (fst (shl_align m1 e1 (Z.min e1 e2))) ?= Z.pos (fst (shl_align m2 e2 (Z.min e1 e2)))) =
  match e1 ?= e2 with
  | Lt => Lt
  | Gt => Gt
  | Eq => Pos.compare_cont Eq m1 m2
  end.
Proof.
  intros H1 H2. rewrite !shl_align_value by lia.
  destruct (Z.compare_spec e1 e2) as [E | E | E].
  - subst e2. rewrite Z.min_id, Z.sub_diag. cbn [Z.pow]. rewrite !Z.mul_1_r. reflexivity.
  - rewrite Z.min_l by lia. rewrite Z.sub_diag. cbn [Z.pow]. rewrite Z.mul_1_r.
    apply Z.compare_lt_iff. apply aligned_lt; assumption.
  - rewrite Z.min_r by lia. rewrite Z.sub_diag. cbn [Z.pow]. rewrite Z.mul_1_r.
    apply Z.compare_gt_iff. apply aligned_lt; assumption.
Qed.

(** The comparison of two valid finite numbers is the comparison of their
    signed mantissas aligned to the smaller exponent. *)
Lemma SFcompare_finite_aligned (s1 s2 : bool) (m1 m2 : positive) (e1 e2 : Z) :
  bounded prec emax m1 e1 = true -> bounded prec emax m2 e2 = true ->
  SFcompare (S754_finite s1 m1 e1) (S754_finite s2 m2 e2) =
  Some (cond_Zopp s1 (Z.pos (fst (shl_align m1 e1 (Z.min e1 e2)))) ?=
        cond_Zopp s2 (Z.pos (fst (shl_align m2 e2 (Z.min e1 e2))))).
Proof.
  intros H1 H2. pose proof (compare_aligned m1 m2 e1 e2 H1 H2) as C.
  cbn [SFcompare]. f_equal.
  destruct s1, s2; cbn [cond_Zopp].
  - rewrite Z.compare_opp.
    rewrite (Z.compare_antisym (Z.pos (fst (shl_align m1 e1 (Z.min e1 e2))))), C.
    destruct (e1 ?= e2); reflexivity.
  - reflexivity.
  - reflexivity.
  - rewrite C. reflexivity.
Qed.

Lemma signed_ltb_zero (s : bool) (r : spec_float) :
  signed s r ->
  SFltb r (S754_zero false) = s /\ SFltb (S754_zero false) r = negb s.
Proof.
  intros [(m & e & ->) | ->]; destruct s; split; reflexivity.
Qed.

(** The sign of a rounded difference is the sign of the comparison. *)
Lemma SFsub_sign (x y : spec_float) :
  valid_binary x = true -> valid_binary y = true ->
  SFltb (SF64sub x y) (S754_zero false) = SFltb x y /\
  SFltb (S754_zero false) (SF64sub x y) = SFltb y x.
Proof.
  intros Vx Vy.
  destruct x as [sx | sx | | sx mx ex], y as [sy | sy | | sy my ey];
    try (destruct sx; destruct sy; split; reflexivity);
    try (destruct sx; split; reflexivity);
    try (destruct sy; split; reflexivity);
    try (split; reflexivity).
  cbn [SpecFloat.valid_binary] in Vx, Vy.
  unfold SFltb at 2 4.
  rewrite (SFcompare_finite_aligned sx sy mx my ex ey Vx Vy).
  rewrite (SFcompare_finite_aligned sy sx my mx ey ex Vy Vx).
  rewrite (Z.min_comm ey ex).
  unfold SF64sub, SFsub.
  set (a := cond_Zopp sx _). set (b := cond_Zopp sy _).
  destruct (bounded_facts mx ex Vx) as (Hex & _ & _).
  destruct (bounded_facts my ey Vy) as (Hey & _ & _).
  destruct (Z.eq_dec (a - b) 0) as [E0 | N0].
  - rewrite E0. cbn [binary_normalize]. 
    assert (a = b) as -> by lia. rewrite Z.compare_refl. split; reflexivity.
  - destruct (signed_ltb_zero _ _ (binary_normalize_signed (a - b) (Z.min ex ey) false N0 ltac:(lia))) as [L R].
    rewrite L, R. split.
    + destruct (Z.compare_spec a b), (Z.ltb_spec (a - b) 0); try reflexivity; lia.
    + destruct (Z.compare_spec b a), (Z.ltb_spec (a - b) 0); try reflexivity; lia.
Qed.


Lemma scaled_finite_bounds (s : bool) (m : positive) (e : Z) :
  bounded prec emax m e = true ->
  0 < Z.pos m * 2 ^ (e + 1074) < 2 ^ 2100.
Proof.
  intro H. pose proof (mantissa_lt_pow53 m e H) as Hm.
  destruct (bounded_facts m e H) as (He & _ & _).
  assert (He' : e <= 971).
  { unfold bounded in H. apply andb_true_iff in H. destruct H as [_ H].
    apply Z.leb_le in H. unfold emax, prec in H. lia. }
  assert (P0 : 0 < 2 ^ (e + 1074)) by (apply Z.pow_pos_nonneg; lia).
  assert (P1 : 2 ^ (e + 1074) <= 2 ^ 2045) by (apply Z.pow_le_mono_r; lia).
  replace (2 ^ 2100) with (2 ^ 53 * 2 ^ 2045 * 4).
  2:{ rewrite <- Z.pow_add_r by lia. change 4 with (2 ^ 2). rewrite <- Z.pow_add_r by lia. reflexivity. }
  assert (Q : 0 < 2 ^ 2045) by (apply Z.pow_pos_nonneg; lia).
  generalize dependent (2 ^ (e + 1074)). generalize dependent (2 ^ 53). generalize dependent (2 ^ 2045).
  intros. nia.
Qed.

Lemma aligned_scaled (m : positive) (e e' : Z) :
  -1074 <= e' -> e' <= e ->
  Z.pos (fst (shl_align m e e')) * 2 ^ (e' + 1074) = Z.pos m * 2 ^ (e + 1074).
Proof.
  intros H1 H2. rewrite shl_align_value by lia.
  rewrite <- Z.mul_assoc, <- Z.pow_add_r by lia. f_equal. f_equal. lia.
Qed.

Lemma cond_Zopp_mul (s : bool) (a k : Z) : cond_Zopp s a * k = cond_Zopp s (a * k).
Proof. destruct s; cbn [cond_Zopp]; lia. Qed.

Lemma mul_compare_pos_r (a b k : Z) : 0 < k -> (a * k ?= b * k) = (a ?= b).
Proof.
  intro Hk. destruct (Z.compare_spec a b) as [E | E | E].
  - subst. apply Z.compare_refl.
  - apply Z.compare_lt_iff. nia.
  - apply Z.compare_gt_iff. nia.
Qed.

(** The order of valid numbers other than NaN is the order of their scaled
    values. *)
Lemma SFcompare_scaled (x y : spec_float) :
  valid_binary x = true -> valid_binary y = true ->
  SFis_nan x = false -> SFis_nan y = false ->
  SFcompare x y = Some (scaled x ?= scaled y).
Proof.
  intros Vx Vy Nx Ny.
  destruct x as [sx | sx | | sx mx ex], y as [sy | sy | | sy my ey]; try discriminate;
    cbn [SpecFloat.valid_binary] in Vx, Vy.
  - reflexivity.
  - destruct sy; reflexivity.
  - pose proof (scaled_finite_bounds sy my ey Vy) as B.
    cbn [SFcompare scaled]. f_equal. destruct sy; cbn [cond_Zopp]; symmetry;
      [apply Z.compare_gt_iff | apply Z.compare_lt_iff]; lia.
  - destruct sx; reflexivity.
  - destruct sx, sy; reflexivity.
  - pose proof (scaled_finite_bounds sy my ey Vy) as B.
    cbn [SFcompare scaled]. f_equal.
    destruct sx, sy; cbn [cond_Zopp]; symmetry;
      try (apply Z.compare_gt_iff; lia); try (apply Z.compare_lt_iff; lia).
  - pose proof (scaled_finite_bounds sx mx ex Vx) as B.
    cbn [SFcompare scaled]. f_equal. destruct sx; cbn [cond_Zopp]; symmetry;
      [apply Z.compare_lt_iff | apply Z.compare_gt_iff]; lia.
  - pose proof (scaled_finite_bounds sx mx ex Vx) as B.
    cbn [SFcompare scaled]. f_equal.
    destruct sx, sy; cbn [cond_Zopp]; symmetry;
      try (apply Z.compare_gt_iff; lia); try (apply Z.compare_lt_iff; lia).
  - rewrite (SFcompare_finite_aligned sx sy mx my ex ey Vx Vy). f_equal.
    destruct (bounded_facts mx ex Vx) as (Hx & _ & _).
    destruct (bounded_facts my ey Vy) as (Hy & _ & _).
    cbn [scaled].
    rewrite <- (aligned_scaled mx ex (Z.min ex ey)) by lia.
    rewrite <- (aligned_scaled my ey (Z.min ex ey)) by lia.
    rewrite <- !cond_Zopp_mul.
    symmetry. apply mul_compare_pos_r. apply Z.pow_pos_nonneg; lia.
Qed.

(** *** The same facts on primitive floats *)

Lemma is_nan_spec (x : float) : is_nan x = SFis_nan (Prim2SF x).
Proof.
  unfold is_nan. rewrite eqb_spec. unfold SFeqb.
  destruct (SFis_nan (Prim2SF x)) eqn:N.
  - destruct (Prim2SF x); try discriminate. reflexivity.
  - rewrite (SFcompare_scaled _ _ (Prim2SF_valid x) (Prim2SF_valid x) N N).
    rewrite Z.compare_refl. reflexivity.
Qed.

Lemma sub_ltb_zero (x y : float) : (x - y <? 0)%float = (x <? y)%float.
Proof.
  rewrite !ltb_spec, sub_spec.
  apply (SFsub_sign (Prim2SF x) (Prim2SF y)); apply Prim2SF_valid.
Qed.

Lemma zero_ltb_sub (x y : float) : (0 <? x - y)%float = (y <? x)%float.
Proof.
  rewrite !ltb_spec, sub_spec.
  apply (SFsub_sign (Prim2SF x) (Prim2SF y)); apply Prim2SF_valid.
Qed.

Lemma compare_units (x y : float) :
  is_nan x = false -> is_nan y = false ->
  SFcompare (Prim2SF x) (Prim2SF y) = Some (units x ?= units y).
Proof.
  intros Nx Ny. rewrite is_nan_spec in Nx, Ny.
  apply SFcompare_scaled; auto using Prim2SF_valid.
Qed.

Lemma leb_units (x y : float) :
  is_nan x = false -> is_nan y = false ->
  (x <=? y)%float = (units x <=? units y).
Proof.
  intros Nx Ny. rewrite leb_spec. unfold SFleb. rewrite (compare_units x y Nx Ny).
  unfold Z.leb. destruct (units x ?= units y); reflexivity.
Qed.

Lemma ltb_units (x y : float) :
  is_nan x = false -> is_nan y = false ->
  (x <? y)%float = (units x <? units y).
Proof.
  intros Nx Ny. rewrite ltb_spec. unfold SFltb. rewrite (compare_units x y Nx Ny).
  unfold Z.ltb. destruct (units x ?= units y); reflexivity.
Qed.

Lemma eqb_units (x y : float) :
  is_nan x = false -> is_nan y = false ->
  (x =? y)%float = (units x =? units y).
Proof.
  intros Nx Ny. rewrite eqb_spec. unfold SFeqb. rewrite (compare_units x y Nx Ny).
  destruct (Z.compare_spec (units x) (units y)), (Z.eqb_spec (units x) (units y));
    try reflexivity; lia.
Qed.

Lemma leb_not_nan (x y : float) : (x <=? y)%float = true -> is_nan x = false /\ is_nan y = false.
Proof.
  rewrite leb_spec, !is_nan_spec. unfold SFleb.
  destruct (Prim2SF x), (Prim2SF y); cbn; intro H; try discriminate; auto.
Qed.

Lemma ltb_not_nan (x y : float) : (x <? y)%float = true -> is_nan x = false /\ is_nan y = false.
Proof.
  rewrite ltb_spec, !is_nan_spec. unfold SFltb.
  destruct (Prim2SF x), (Prim2SF y); cbn; intro H; try discriminate; auto.
Qed.

End Binary64Facts.

(** ** JavaScript built-ins *)

Module JsFacts.

Import Js Binary64 Binary64Facts.

Lemma units_neg_infinity : units neg_infinity = (- 2 ^ 2100)%Z.
Proof. reflexivity. Qed.

Lemma is_nan_neg_infinity : is_nan neg_infinity = false.
Proof. reflexivity. Qed.

(** The relational operators, read on the scaled values. *)
Lemma ge_units (x y : number) :
  is_nan x = false -> is_nan y = false -> ge x y = (units y <=? units x)%Z.
Proof. intros; unfold ge; now apply leb_units. Qed.

Lemma gt_units (x y : number) :
  is_nan x = false -> is_nan y = false -> gt x y = (units y <? units x)%Z.
Proof. intros; unfold gt; now apply ltb_units. Qed.

Lemma le_units (x y : number) :
  is_nan x = false -> is_nan y = false -> le x y = (units x <=? units y)%Z.
Proof. intros; unfold le; now apply leb_units. Qed.

Lemma ge_not_nan (x y : number) : ge x y = true -> is_nan x = false /\ is_nan y = false.
Proof. unfold ge. intro H. apply leb_not_nan in H. tauto. Qed.

Lemma gt_not_nan (x y : number) : gt x y = true -> is_nan x = false /\ is_nan y = false.
Proof. unfold gt. intro H. apply ltb_not_nan in H. tauto. Qed.

Lemma ge_of_nan (x y : number) : is_nan x = true -> ge x y = false.
Proof.
  intro N. destruct (ge x y) eqn:E; [| reflexivity].
  apply ge_not_nan in E. destruct E as [E _]. congruence.
Qed.

Lemma is_zero_units (x : number) : is_zero x = true -> is_nan x = false /\ units x = 0%Z.
Proof.
  unfold is_zero. intro H.
  assert (N : is_nan x = false).
  { rewrite is_nan_spec. rewrite eqb_spec in H. unfold SFeqb in H.
    destruct (Prim2SF x); try reflexivity. discriminate H. }
  split; [exact N|].
  rewrite (eqb_units x zero N eq_refl) in H. change (units zero) with 0%Z in H. lia.
Qed.

(** Only -Infinity is at most -Infinity. *)
Lemma le_neg_infinity (x : number) : le x neg_infinity = true -> x = neg_infinity.
Proof.
  intro H. destruct (leb_not_nan _ _ H) as [N _].
  unfold le in H. rewrite (leb_units x neg_infinity N eq_refl), units_neg_infinity in H.
  assert (P : (0 < 2 ^ 2100)%Z) by (apply Z.pow_pos_nonneg; lia).
  pose proof (Prim2SF_valid x) as V.
  unfold units in H. apply Prim2SF_inj.
  destruct (Prim2SF x) as [s | s | | s m e]; cbn [scaled] in H.
  - lia.
  - destruct s; [reflexivity | cbn [cond_Zopp] in H; lia].
  - lia.
  - cbn [SpecFloat.valid_binary] in V.
    pose proof (scaled_finite_bounds s m e V) as B.
    destruct s; cbn [cond_Zopp] in H; lia.
Qed.

(** *** Math.max *)

Lemma Math_max_from_spec (xs : list number) : forall highest : number,
  is_nan highest = false ->
  Forall (fun x => is_nan x = false) xs ->
  let r := Math_max_from highest xs in
  (r = highest \/ In r xs) /\ is_nan r = false /\ le highest r = true /\
  Forall (fun x => le x r = true) xs.
Proof.
  induction xs as [| x rest IH]; intros highest Nh Nxs; cbn [Math_max_from].
  - cbn zeta. repeat split; auto.
    rewrite (le_units _ _ Nh Nh). lia.
  - inversion Nxs as [| ? ? Nx Nrest]; subst. rewrite Nx.
    destruct (isPositiveZero x && isNegativeZero highest) eqn:Z0.
    + destruct (IH x Nx Nrest) as (I & Nr & L & F). cbn zeta.
      apply andb_true_iff in Z0. destruct Z0 as [Zx Zh].
      unfold isPositiveZero in Zx. unfold isNegativeZero in Zh.
      apply andb_true_iff in Zx, Zh. destruct Zx as [Zx _]. destruct Zh as [Zh _].
      destruct (is_zero_units x Zx) as [_ Ux]. destruct (is_zero_units highest Zh) as [_ Uh].
      rewrite (le_units _ _ Nx Nr) in L.
      repeat split.
      * destruct I as [-> | I]; [right; left; reflexivity | right; right; exact I].
      * exact Nr.
      * rewrite (le_units _ _ Nh Nr). lia.
      * constructor; [rewrite (le_units _ _ Nx Nr); lia | exact F].
    + destruct (gt x highest) eqn:G.
      * destruct (IH x Nx Nrest) as (I & Nr & L & F). cbn zeta.
        rewrite (gt_units _ _ Nx Nh) in G. rewrite (le_units _ _ Nx Nr) in L.
        repeat split.
        -- destruct I as [-> | I]; [right; left; reflexivity | right; right; exact I].
        -- exact Nr.
        -- rewrite (le_units _ _ Nh Nr). lia.
        -- constructor; [rewrite (le_units _ _ Nx Nr); lia | exact F].
      * destruct (IH highest Nh Nrest) as (I & Nr & L & F). cbn zeta.
        rewrite (gt_units _ _ Nx Nh) in G. rewrite (le_units _ _ Nh Nr) in L.
        repeat split.
        -- destruct I as [-> | I]; [left; reflexivity | right; right; exact I].
        -- exact Nr.
        -- rewrite (le_units _ _ Nh Nr). lia.
        -- constructor; [rewrite (le_units _ _ Nx Nr); lia | exact F].
Qed.

(** On a non-empty list without NaN, [Math.max] returns an element of the
    list that every element is at most. *)
Lemma Math_max_is_maximum (xs : list number) :
  xs <> [] ->
  Forall (fun x => is_nan x = false) xs ->
  In (Math_max xs) xs /\ Forall (fun x => le x (Math_max xs) = true) xs.
Proof.
  intros Hne Nxs.
  destruct (Math_max_from_spec xs neg_infinity is_nan_neg_infinity Nxs) as (I & _ & _ & F).
  cbn zeta in I, F. fold (Math_max xs) in I, F. split; [| exact F].
  destruct I as [E | I]; [| exact I].
  destruct xs as [| x rest]; [congruence |].
  inversion F as [| ? ? Lx _]; subst. rewrite E in Lx.
  apply le_neg_infinity in Lx. rewrite E, <- Lx. left; reflexivity.
Qed.

(** NaN is a single value. *)
Lemma nan_unique (x : number) : is_nan x = true -> x = nan.
Proof.
  intro N. rewrite is_nan_spec in N. apply Prim2SF_inj.
  destruct (Prim2SF x); try discriminate N. reflexivity.
Qed.

(** A NaN among the arguments makes [Math.max] NaN. *)
Lemma Math_max_from_nan (xs : list number) : forall highest : number,
  Exists (fun x => is_nan x = true) xs -> Math_max_from highest xs = nan.
Proof.
  induction xs as [| x rest IH]; intros highest E; [inversion E |].
  cbn [Math_max_from]. destruct (is_nan x) eqn:Nx; [reflexivity |].
  inversion E as [? ? Hx | ? ? Hrest]; subst; [congruence |].
  destruct (isPositiveZero x && isNegativeZero highest); [now apply IH |].
  destruct (gt x highest); now apply IH.
Qed.

(** On every non-empty list [Math.max] returns an element of the list that
    no element exceeds. *)
Lemma Math_max_is_maximal (xs : list number) :
  xs <> [] ->
  In (Math_max xs) xs /\ Forall (fun x => gt x (Math_max xs) = false) xs.
Proof.
  intro Hne.
  destruct (Forall_Exists_dec (fun x => is_nan x = false)
              (fun x => bool_dec (is_nan x) false) xs) as [F | E].
  - destruct (Math_max_is_maximum xs Hne F) as [I L]. split; [exact I |].
    rewrite Forall_forall in F, L |- *. pose proof (F _ I) as Nm. intros x Hx.
    specialize (L x Hx). specialize (F x Hx).
    rewrite (le_units _ _ F Nm) in L.
    rewrite (gt_units _ _ F Nm). lia.
  - assert (E' : Exists (fun x => is_nan x = true) xs).
    { eapply Exists_impl; [| exact E]. intros x Hx. now apply not_false_is_true. }
    unfold Math_max. rewrite (Math_max_from_nan xs neg_infinity E'). split.
    + apply Exists_exists in E'. destruct E' as (x & Hx & Nx).
      apply nan_unique in Nx. now subst.
    + rewrite Forall_forall. intros x _.
      destruct (gt x nan) eqn:G; [| reflexivity].
      apply gt_not_nan in G. destruct G as [_ G]. discriminate G.
Qed.

End JsFacts.

(** ** Array.prototype.sort with a descending difference comparator *)

Module SortFacts.

Import Js Binary64 Binary64Facts JsFacts SortSpec.

Section AnyComparator.

Context {A : Type}.
Variable comparefn : A -> A -> number.

Lemma insert_perm (x : A) (l : list A) : Permutation (insert comparefn x l) (x :: l).
Proof.
  induction l as [| y rest IH]; cbn [insert]; [reflexivity |].
  destruct (0 <? SortCompare comparefn x y)%float; [| reflexivity].
  rewrite IH. apply perm_swap.
Qed.

Lemma Array_sort_perm (l : list A) : Permutation (Array_sort comparefn l) l.
Proof.
  induction l as [| x rest IH]; cbn; [reflexivity |].
  fold (Array_sort comparefn rest). rewrite insert_perm. now constructor.
Qed.

End AnyComparator.

Section Descending.

Context {A : Type}.
Variable key : A -> number.

Local Abbreviation descending := (descendingBy key).

(** [a] moves past [b] exactly when its key is strictly smaller: the sign of
    the rounded difference is the sign of the exact one, and a NaN difference
    (equal infinities) counts as zero. *)
Lemma descending_moves (a b : A) :
  (0 <? SortCompare descending a b)%float = lt (key a) (key b).
Proof.
  unfold SortCompare, descendingBy, lt.
  destruct (is_nan (key b - key a)) eqn:N.
  - change (0 <? 0)%float with false.
    rewrite <- (zero_ltb_sub (key b) (key a)).
    destruct (0 <? key b - key a)%float eqn:E; [| reflexivity].
    apply ltb_not_nan in E. destruct E as [_ E]. congruence.
  - apply zero_ltb_sub.
Qed.

Local Abbreviation keyed := (keyedBy key).
Local Abbreviation precedes := (precedesBy key).

Lemma keyed_sort (l : list A) : keyed l -> keyed (Array_sort descending l).
Proof.
  intro Nl. unfold keyed. now rewrite Array_sort_perm.
Qed.

Lemma insert_sorted (x : A) (l : list A) :
  is_nan (key x) = false -> keyed l ->
  StronglySorted precedes l -> StronglySorted precedes (insert descending x l).
Proof.
  intros Nx. induction l as [| y rest IH]; intros Nl Sl; cbn [insert].
  - repeat constructor.
  - inversion Nl as [| ? ? Ny Nrest]; subst.
    inversion Sl as [| ? ? Srest Fy]; subst.
    rewrite descending_moves. unfold lt. rewrite (ltb_units _ _ Nx Ny).
    destruct (units (key x) <? units (key y))%Z eqn:E.
    + constructor; [now apply IH |].
      rewrite insert_perm. constructor; [| exact Fy].
      unfold precedes. rewrite (ge_units _ _ Ny Nx). lia.
    + constructor; [exact Sl |].
      constructor.
      * unfold precedes. rewrite (ge_units _ _ Nx Ny). lia.
      * rewrite Forall_forall in Fy, Nrest |- *. intros z Hz.
        specialize (Fy z Hz). specialize (Nrest z Hz). unfold precedes in *.
        rewrite (ge_units _ _ Ny Nrest) in Fy. rewrite (ge_units _ _ Nx Nrest). lia.
Qed.

(** The sorted array is in descending key order. *)
Lemma Array_sort_sorted (l : list A) :
  keyed l -> StronglySorted precedes (Array_sort descending l).
Proof.
  induction l as [| x rest IH]; intro Nl; cbn.
  - constructor.
  - inversion Nl as [| ? ? Nx Nrest]; subst. fold (Array_sort descending rest).
    apply insert_sorted; auto using keyed_sort.
Qed.

(** Inserting an element leaves the elements of each key value in the order
    of the list it is consed to. *)
Lemma insert_stable (m : number) (x : A) (l : list A) :
  is_nan (key x) = false -> keyed l ->
  filter (fun a => (key a =? m)%float) (insert descending x l) =
  filter (fun a => (key a =? m)%float) (x :: l).
Proof.
  intros Nx. induction l as [| y rest IH]; intro Nl; cbn [insert]; [reflexivity |].
  inversion Nl as [| ? ? Ny Nrest]; subst.
  rewrite descending_moves. unfold lt. rewrite (ltb_units _ _ Nx Ny).
  destruct (units (key x) <? units (key y))%Z eqn:E; [| reflexivity].
  cbn [filter]. rewrite (IH Nrest). cbn [filter].
  destruct (is_nan m) eqn:Nm.
  - assert (Hx : (key x =? m)%float = false).
    { rewrite eqb_spec. rewrite is_nan_spec in Nm. unfold SFeqb.
      destruct (Prim2SF m); try discriminate. now destruct (Prim2SF (key x)). }
    assert (Hy : (key y =? m)%float = false).
    { rewrite eqb_spec. rewrite is_nan_spec in Nm. unfold SFeqb.
      destruct (Prim2SF m); try discriminate. now destruct (Prim2SF (key y)). }
    rewrite Hx, Hy. reflexivity.
  - rewrite (eqb_units _ _ Nx Nm), (eqb_units _ _ Ny Nm).
    destruct (units (key y) =? units m)%Z eqn:Ey, (units (key x) =? units m)%Z eqn:Ex;
      try reflexivity. lia.
Qed.

(** The sort is stable: the elements of each key value keep their relative
    order. *)
Lemma Array_sort_stable (m : number) (l : list A) :
  keyed l ->
  filter (fun a => (key a =? m)%float) (Array_sort descending l) =
  filter (fun a => (key a =? m)%float) l.
Proof.
  induction l as [| x rest IH]; intro Nl; cbn; [reflexivity |].
  inversion Nl as [| ? ? Nx Nrest]; subst. fold (Array_sort descending rest).
  rewrite insert_stable by auto using keyed_sort.
  cbn [filter]. now rewrite IH.
Qed.

End Descending.

End SortFacts.

(** ** The filter effect *)

Module FilterProps.

Import Js Feed EarthquakeVisualizer Binary64 Binary64Facts JsFacts.

Lemma zero_of_ge_not_gt (m : number) :
  ge m 0%float = true -> gt m 0%float = false -> (m =? 0)%float = true.
Proof.
  intros G L. destruct (ge_not_nan _ _ G) as [Nm N0].
  rewrite (ge_units _ _ Nm N0) in G. rewrite (gt_units _ _ Nm N0) in L.
  rewrite (eqb_units _ _ Nm N0). lia.
Qed.

Lemma nonzero_of_gt (m : number) : gt m 0%float = true -> (m =? 0)%float = false.
Proof.
  intro G. destruct (gt_not_nan _ _ G) as [Nm N0].
  rewrite (gt_units _ _ Nm N0) in G. rewrite (eqb_units _ _ Nm N0). lia.
Qed.

Lemma not_gt_of_zero (m : number) : (m =? 0)%float = true -> gt m 0%float = false.
Proof.
  intro E. destruct (gt m 0%float) eqn:G; [| reflexivity].
  apply nonzero_of_gt in G. congruence.
Qed.

Lemma window_is_all (w : TimeWindow) :
  String.eqb (timeFilterValue w) "all" = true <-> w = All.
Proof. destruct w; cbn; split; intro H; congruence. Qed.

Lemma timeThreshold_window (w : TimeWindow) :
  timeThreshold (timeFilterValue w) = windowMillis w.
Proof. destruct w; reflexivity. Qed.

(** Membership in the filtered array, as the two tests of the effect. *)
Lemma filtered_In (earthquakes : list Earthquake) (magnitudeFilter : list number)
    (w : TimeWindow) (now : number) (eq : Earthquake) :
  In eq (filtered earthquakes magnitudeFilter (timeFilterValue w) now) <->
  In eq earthquakes /\
  (gt (elem0 magnitudeFilter) 0%float = false \/
   ge (mag (properties eq)) (elem0 magnitudeFilter) = true) /\
  (w = All \/
   le (now - time (properties eq))%float (timeThreshold (timeFilterValue w)) = true).
Proof.
  unfold filtered.
  destruct (String.eqb (timeFilterValue w) "all") eqn:W; cbn [negb].
  - apply window_is_all in W.
    destruct (gt (elem0 magnitudeFilter) 0%float) eqn:G.
    + rewrite filter_In. intuition congruence.
    + intuition congruence.
  - assert (w <> All) as NW by (intro H; apply window_is_all in H; congruence).
    rewrite filter_In.
    destruct (gt (elem0 magnitudeFilter) 0%float) eqn:G.
    + rewrite filter_In. intuition congruence.
    + intuition congruence.
Qed.

(** C1. With a minimum magnitude of at least zero, an event is in the
    filtered array exactly when it is in the loaded array, the minimum is
    zero or its magnitude is at least the minimum, and it passes the time
    test. With a zero minimum an event whose magnitude is NaN (an absent
    magnitude reads as NaN in the comparison) is kept like any other; with
    a positive minimum it is excluded. *)
Theorem magnitude_filter_keeps (earthquakes : list Earthquake) (magnitudeFilter : list number)
    (w : TimeWindow) (now : number) (eq : Earthquake) :
  ge (elem0 magnitudeFilter) 0%float = true ->
  (In eq (filtered earthquakes magnitudeFilter (timeFilterValue w) now) <->
   In eq earthquakes /\
   ((elem0 magnitudeFilter =? 0)%float = true \/
    ge (mag (properties eq)) (elem0 magnitudeFilter) = true) /\
   (w = All \/
    le (now - time (properties eq))%float (timeThreshold (timeFilterValue w)) = true))
  /\
  ((elem0 magnitudeFilter =? 0)%float = true ->
   isNaN (mag (properties eq)) = true ->
   (In eq (filtered earthquakes magnitudeFilter (timeFilterValue w) now) <->
    In eq earthquakes /\
    (w = All \/
     le (now - time (properties eq))%float (timeThreshold (timeFilterValue w)) = true)))
  /\
  (gt (elem0 magnitudeFilter) 0%float = true ->
   isNaN (mag (properties eq)) = true ->
   ~ In eq (filtered earthquakes magnitudeFilter (timeFilterValue w) now)).
Proof.
  intro Hmin. rewrite filtered_In. split; [| split].
  - split.
    + intros (I & [G | G] & T); (split; [exact I | split; [| exact T]]).
      * left. now apply zero_of_ge_not_gt.
      * right. exact G.
    + intros (I & [Z | G] & T); (split; [exact I | split; [| exact T]]).
      * left. now apply not_gt_of_zero.
      * right. exact G.
  - intros Z N. split.
    + intros (I & _ & T). auto.
    + intros (I & T). split; [exact I | split; [| exact T]].
      left. now apply not_gt_of_zero.
  - intros G N (_ & [G' | G'] & _); [congruence |].
    unfold isNaN in N. rewrite (ge_of_nan _ _ N) in G'. discriminate G'.
Qed.

Lemma magnitude_filter_keeps_witness :
  ge (elem0 [2.5%float]) 0%float = true /\
  In Samples.q60
    (filtered [Samples.q20; Samples.q60; Samples.qNaN] [2.5%float] (timeFilterValue All)
       Samples.clock) /\
  ~ In Samples.qNaN
    (filtered [Samples.q20; Samples.q60; Samples.qNaN] [2.5%float] (timeFilterValue All)
       Samples.clock).
Proof.
  assert (H : ge (elem0 [2.5%float]) 0%float = true) by reflexivity.
  split; [exact H |]. split.
  - destruct (magnitude_filter_keeps [Samples.q20; Samples.q60; Samples.qNaN] [2.5%float] All
                Samples.clock Samples.q60 H) as (K & _ & _).
    apply K. split; [cbn; auto |]. split; [right; reflexivity | left; reflexivity].
  - destruct (magnitude_filter_keeps [Samples.q20; Samples.q60; Samples.qNaN] [2.5%float] All
                Samples.clock Samples.qNaN H) as (_ & _ & K).
    apply K; reflexivity.
Defined.

(** C2. For each choice of the time-window selector and one reading [now] of
    the clock, an event is in the filtered array exactly when it is in the
    loaded array, passes the magnitude test, and the window is All or
    [now - time <= windowMillis], the windows being 3,600,000, 21,600,000 and
    43,200,000 milliseconds. The bound is inclusive: an event whose age is
    exactly the window is kept, one a millisecond older is not. *)
Theorem time_filter_keeps (earthquakes : list Earthquake) (magnitudeFilter : list number)
    (w : TimeWindow) (now : number) (eq : Earthquake) :
  (windowMillis LastHour = 3600000%float /\
   windowMillis Last6Hours = 21600000%float /\
   windowMillis Last12Hours = 43200000%float /\
   timeThreshold (timeFilterValue w) = windowMillis w)
  /\
  (In eq (filtered earthquakes magnitudeFilter (timeFilterValue w) now) <->
   In eq earthquakes /\
   (gt (elem0 magnitudeFilter) 0%float = false \/
    ge (mag (properties eq)) (elem0 magnitudeFilter) = true) /\
   (w = All \/ le (now - time (properties eq))%float (windowMillis w) = true))
  /\
  (w <> All ->
   (now - time (properties eq))%float = windowMillis w ->
   (In eq (filtered earthquakes magnitudeFilter (timeFilterValue w) now) <->
    In eq earthquakes /\
    (gt (elem0 magnitudeFilter) 0%float = false \/
     ge (mag (properties eq)) (elem0 magnitudeFilter) = true)))
  /\
  (w <> All ->
   (now - time (properties eq))%float = (windowMillis w + 1)%float ->
   ~ In eq (filtered earthquakes magnitudeFilter (timeFilterValue w) now)).
Proof.
  rewrite filtered_In, timeThreshold_window. split; [| split; [| split]].
  - repeat split.
  - reflexivity.
  - intros NW E. split.
    + intros (I & M & _). auto.
    + intros (I & M). split; [exact I | split; [exact M |]].
      right. rewrite E. destruct w; reflexivity.
  - intros NW E (_ & _ & [A | T]); [congruence |].
    rewrite E in T. destruct w; discriminate T.
Qed.

Lemma time_filter_keeps_witness :
  In Samples.qHourOld
    (filtered [Samples.qHourOld; Samples.qOverHourOld] [0%float] (timeFilterValue LastHour)
       Samples.clock) /\
  ~ In Samples.qOverHourOld
    (filtered [Samples.qHourOld; Samples.qOverHourOld] [0%float] (timeFilterValue LastHour)
       Samples.clock).
Proof.
  split.
  - destruct (time_filter_keeps [Samples.qHourOld; Samples.qOverHourOld] [0%float] LastHour
                Samples.clock Samples.qHourOld) as (_ & _ & K & _).
    apply K.
    + discriminate.
    + reflexivity.
    + split; [cbn; auto | left; reflexivity].
  - destruct (time_filter_keeps [Samples.qHourOld; Samples.qOverHourOld] [0%float] LastHour
                Samples.clock Samples.qOverHourOld) as (_ & _ & _ & K).
    apply K.
    + discriminate.
    + reflexivity.
Defined.

End FilterProps.

(** ** The list of significant events *)

Module SignificantProps.

Import Js Feed EarthquakeVisualizer SortSpec Binary64Facts JsFacts SortFacts.

Lemma significant_keyed (l : list Earthquake) :
  keyedBy magnitudeOf (filter (fun eq => ge (mag (properties eq)) 2.5%float) l).
Proof.
  unfold keyedBy. rewrite Forall_forall. intros eq H.
  apply filter_In in H. destruct H as [_ H].
  apply ge_not_nan in H. exact (proj1 H).
Qed.

Lemma slice_from_zero {A : Type} (n : nat) (l : list A) : slice 0 n l = firstn n l.
Proof. unfold slice. now rewrite Nat.sub_0_r. Qed.

(** C3. The list of significant events is the first five elements of a
    sequence that is a permutation of the filtered events of magnitude at
    least 2.5, is in descending magnitude order, and keeps the events of each
    magnitude in their feed order (so it is their stable descending sort).
    On magnitudes 2.0, 6.0, 3.0, 9.0 it is the events of magnitude 9.0, 6.0,
    3.0; two events of magnitude 6.0 stay in feed order. *)
Theorem significant_stable_descending_top5 (filteredEarthquakes : list Earthquake) :
  (exists sorted : list Earthquake,
     Permutation sorted
       (filter (fun eq => ge (mag (properties eq)) 2.5%float) filteredEarthquakes) /\
     StronglySorted (fun a b => ge (mag (properties a)) (mag (properties b)) = true) sorted /\
     (forall m : number,
        filter (fun eq => (mag (properties eq) =? m)%float) sorted =
        filter (fun eq => (mag (properties eq) =? m)%float)
          (filter (fun eq => ge (mag (properties eq)) 2.5%float) filteredEarthquakes)) /\
     significantEarthquakes filteredEarthquakes = firstn 5 sorted)
  /\ (List.length (significantEarthquakes filteredEarthquakes) <= 5)%nat
  /\ significantEarthquakes [Samples.q20; Samples.q60; Samples.q30; Samples.q90] =
     [Samples.q90; Samples.q60; Samples.q30]
  /\ map magnitudeOf (significantEarthquakes [Samples.q20; Samples.q60; Samples.q30; Samples.q90]) =
     [9.0%float; 6.0%float; 3.0%float]
  /\ significantEarthquakes [Samples.q60; Samples.q20; Samples.q90; Samples.q60'] =
     [Samples.q90; Samples.q60; Samples.q60'].
Proof.
  pose proof (significant_keyed filteredEarthquakes) as K.
  split; [| split; [| repeat split]].
  - exists (Array_sort byMagnitudeDescending
              (filter (fun eq => ge (mag (properties eq)) 2.5%float) filteredEarthquakes)).
    split; [apply Array_sort_perm |].
    split; [exact (Array_sort_sorted magnitudeOf _ K) |].
    split; [intro m; exact (Array_sort_stable magnitudeOf m _ K) |].
    unfold significantEarthquakes. apply slice_from_zero.
  - unfold significantEarthquakes. rewrite slice_from_zero. apply firstn_le_length.
Qed.

End SignificantProps.

(** ** The summary cards *)

Module CardsProps.

Import Js Feed EarthquakeVisualizer Binary64Facts JsFacts.

Lemma fold_left_magnitudes (l : list Earthquake) : forall sum : number,
  fold_left (fun sum eq => (sum + mag (properties eq))%float) l sum =
  fold_left (fun sum x => (sum + x)%float) (map magnitudeOf l) sum.
Proof.
  induction l as [| eq rest IH]; intro sum; cbn; [reflexivity | apply IH].
Qed.

Lemma significantEvents_counts (l : list Earthquake) :
  significantEvents l =
  fold_right (fun eq n => if ge (mag (properties eq)) 2.5%float then S n else n) 0%nat l.
Proof.
  unfold significantEvents.
  induction l as [| eq rest IH]; cbn [filter fold_right]; [reflexivity |].
  destruct (ge (mag (properties eq)) 2.5%float); cbn [List.length]; now rewrite IH.
Qed.

(** C5. The cards are computed from the filtered array alone. The total is
    its length; the significant count is the number of its events of
    magnitude at least 2.5. On the empty array the strongest and average
    cards print "0.0". Otherwise the strongest card prints a magnitude of
    the array that no magnitude in it exceeds, which is at least every
    magnitude when none is NaN (and is NaN when one is), and the average card
    prints the sum of the magnitudes divided by the length: 5.0 for one event
    of magnitude 5.0 and 4.0 for magnitudes 3.0 and 5.0. *)
Theorem summary_aggregates (filteredEarthquakes : list Earthquake) :
  totalEarthquakes filteredEarthquakes = List.length filteredEarthquakes
  /\ significantEvents filteredEarthquakes =
     fold_right (fun eq n => if ge (mag (properties eq)) 2.5%float then S n else n) 0%nat
       filteredEarthquakes
  /\ strongestEvent [] = Literal "0.0"
  /\ averageMagnitude [] = Literal "0.0"
  /\ (filteredEarthquakes <> [] ->
      exists maxMagnitude : number,
        strongestEvent filteredEarthquakes = ToFixed1 maxMagnitude /\
        In maxMagnitude (map magnitudeOf filteredEarthquakes) /\
        Forall (fun eq => gt (mag (properties eq)) maxMagnitude = false) filteredEarthquakes /\
        (Forall (fun eq => isNaN (mag (properties eq)) = false) filteredEarthquakes ->
         Forall (fun eq => le (mag (properties eq)) maxMagnitude = true) filteredEarthquakes) /\
        (Exists (fun eq => isNaN (mag (properties eq)) = true) filteredEarthquakes ->
         isNaN maxMagnitude = true))
  /\ (filteredEarthquakes <> [] ->
      averageMagnitude filteredEarthquakes =
      ToFixed1 (sumFromZero (map magnitudeOf filteredEarthquakes)
                / ofLength (List.length filteredEarthquakes))%float)
  /\ averageMagnitude [Samples.q50] = ToFixed1 5.0%float
  /\ averageMagnitude [Samples.q30; Samples.q50] = ToFixed1 4.0%float
  /\ (forall st st' : State,
        EarthquakeVisualizer.filteredEarthquakes st = EarthquakeVisualizer.filteredEarthquakes st' ->
        summaryCards st = summaryCards st').
Proof.
  split; [reflexivity |].
  split; [apply significantEvents_counts |].
  split; [reflexivity |].
  split; [reflexivity |].
  split; [| split; [| split; [reflexivity | split; [reflexivity |]]]].
  - intro Hne. exists (Math_max (map magnitudeOf filteredEarthquakes)).
    assert (M : map magnitudeOf filteredEarthquakes <> []).
    { destruct filteredEarthquakes; [congruence | discriminate]. }
    destruct (Math_max_is_maximal _ M) as [I G]. rewrite Forall_map in G.
    split; [| split; [exact I | split; [exact G | split]]].
    + unfold strongestEvent. destruct filteredEarthquakes; [congruence | reflexivity].
    + intro Hnan.
      assert (N : Forall (fun x => is_nan x = false) (map magnitudeOf filteredEarthquakes)).
      { rewrite Forall_map. exact Hnan. }
      destruct (Math_max_is_maximum _ M N) as [_ F].
      rewrite Forall_map in F. exact F.
    + intro Hnan. unfold isNaN, Math_max.
      rewrite Math_max_from_nan; [reflexivity |]. rewrite Exists_map. exact Hnan.
  - intro Hne. unfold averageMagnitude, sumFromZero.
    rewrite fold_left_magnitudes.
    destruct filteredEarthquakes; [congruence | reflexivity].
  - intros st st' E. unfold summaryCards. now rewrite E.
Qed.

Lemma summary_aggregates_witness :
  [Samples.q30; Samples.q50] <> [] /\
  exists maxMagnitude : number,
    strongestEvent [Samples.q30; Samples.q50] = ToFixed1 maxMagnitude /\
    In maxMagnitude (map magnitudeOf [Samples.q30; Samples.q50]) /\
    Forall (fun eq => le (mag (properties eq)) maxMagnitude = true) [Samples.q30; Samples.q50].
Proof.
  assert (Hne : [Samples.q30; Samples.q50] <> []) by discriminate.
  split; [exact Hne |].
  destruct (summary_aggregates [Samples.q30; Samples.q50]) as (_ & _ & _ & _ & K & _).
  destruct (K Hne) as (maxMagnitude & E & I & _ & M & _).
  exists maxMagnitude. split; [exact E |]. split; [exact I |].
  apply M. repeat constructor.
Defined.

End CardsProps.

(** ** fetchEarthquakeData *)

Module FetchProps.

Import Js Feed EarthquakeVisualizerUntyped.

Lemma fetchErrorMessage_not_empty : EarthquakeVisualizer.fetchErrorMessage <> ""%string.
Proof. discriminate. Qed.

(** On the bodies of the declared type, the fetch over run-time values is the
    fetch of the typed component. *)
Lemma fetch_erase {Value : Type} (array : list Earthquake -> Value)
    (result : EarthquakeVisualizer.FetchResult) (now : number)
    (st : EarthquakeVisualizer.State) :
  fetchEarthquakeData (eraseResult array result) now (erase array st) =
  eraseOutcome array (EarthquakeVisualizer.fetchEarthquakeData result now st).
Proof.
  destruct result as [| [] status [data |]]; reflexivity.
Qed.

Lemma fetchFailed_erase {Value : Type} (array : list Earthquake -> Value)
    (result : EarthquakeVisualizer.FetchResult) :
  fetchFailed (eraseResult array result) = EarthquakeVisualizer.fetchFailed result.
Proof.
  destruct result as [| [] status [data |]]; reflexivity.
Qed.

(** A response that is ok with the body [{}]: [data.features] is
    [undefined]. The fetch takes it as data: no error is set, the event that
    was loaded is replaced by [undefined], and the last-updated time is
    stamped. *)
Lemma body_without_features_is_taken_as_data :
  fetchFailed (Response true 200 (Parsed Undefined)) = false /\
  exists st' : State JsValue,
    fetchEarthquakeData (Response true 200 (Parsed Undefined)) Samples.clock loadedBefore
    = Normal st' /\
    error st' = None /\
    earthquakes loadedBefore = EventArray [Samples.q60] /\
    earthquakes st' = Undefined /\
    lastUpdated loadedBefore = Some 1699999000000%float /\
    lastUpdated st' = Some Samples.clock.
Proof.
  split; [reflexivity |]. eexists. split; [reflexivity |]. cbn. repeat split.
Qed.

(** C8. A fetch always completes normally, so nothing is thrown out of it
    into the render. When the request ends in a network failure, a response
    that is not ok, a body that is not JSON or the body [null], the state
    afterwards carries the error message, which is not empty, the loaded and
    filtered events and the last-updated time are those from before, and
    loading is off. In every other case the response is ok and its body
    parsed to some value, of whatever shape: the error is cleared, what
    [data.features] evaluates to is stored as the events, the last-updated
    time is the time of completion, and loading is off. *)
Theorem fetch_error_paths_keep_data {Value : Type} (result : FetchResult Value)
    (now : number) (st : State Value) :
  (exists st' : State Value, fetchEarthquakeData result now st = Normal st')
  /\
  (fetchFailed result = true ->
   exists st' : State Value,
     fetchEarthquakeData result now st = Normal st' /\
     error st' = Some EarthquakeVisualizer.fetchErrorMessage /\
     EarthquakeVisualizer.fetchErrorMessage <> ""%string /\
     earthquakes st' = earthquakes st /\
     filteredEarthquakes st' = filteredEarthquakes st /\
     lastUpdated st' = lastUpdated st /\
     loading st' = false)
  /\
  (fetchFailed result = false ->
   exists (status : Z) (features : Value) (st' : State Value),
     result = Response true status (Parsed features) /\
     fetchEarthquakeData result now st = Normal st' /\
     error st' = None /\
     earthquakes st' = features /\
     filteredEarthquakes st' = filteredEarthquakes st /\
     lastUpdated st' = Some now /\
     loading st' = false).
Proof.
  split; [| split].
  - destruct result as [| [] status [| | features]]; cbn; eauto.
  - intro F. destruct result as [| [] status [| | features]]; cbn in F; try discriminate F;
      (eexists; split; [reflexivity |]; cbn;
       repeat split; exact fetchErrorMessage_not_empty).
  - intro F. destruct result as [| [] status [| | features]]; cbn in F; try discriminate F.
    exists status, features. eexists. split; [reflexivity |]. split; [reflexivity |].
    cbn. repeat split.
Qed.

Lemma fetch_error_paths_keep_data_witness :
  fetchFailed (Response false 503 (@NotJson JsValue)) = true /\
  exists st' : State JsValue,
    fetchEarthquakeData (Response false 503 NotJson) Samples.clock loadedBefore = Normal st' /\
    error st' = Some EarthquakeVisualizer.fetchErrorMessage /\
    earthquakes st' = EventArray [Samples.q60] /\
    lastUpdated st' = Some 1699999000000%float.
Proof.
  assert (F : fetchFailed (Response false 503 (@NotJson JsValue)) = true) by reflexivity.
  split; [exact F |].
  destruct (fetch_error_paths_keep_data (Response false 503 NotJson) Samples.clock loadedBefore)
    as (_ & K & _).
  destruct (K F) as (st' & E & Er & _ & Eq & _ & Lu & _).
  exists st'. split; [exact E |]. split; [exact Er |]. split; [exact Eq | exact Lu].
Defined.

End FetchProps.

(** ** Purity of the view computation *)

Module PurityProps.

Import Js Feed EarthquakeVisualizer ArrayStore.

Lemma filter_filter_and {A : Type} (p q : A -> bool) (l : list A) :
  filter p (filter q l) = filter (fun x => q x && p x) l.
Proof.
  induction l as [| x rest IH]; cbn; [reflexivity |].
  destruct (q x); cbn; [destruct (p x) |]; now rewrite IH.
Qed.

Lemma filter_true {A : Type} (l : list A) : filter (fun _ => true) l = l.
Proof. induction l as [| x rest IH]; cbn; now rewrite ?IH. Qed.

Lemma filter_idempotent {A : Type} (p : A -> bool) (l : list A) :
  filter p (filter p l) = filter p l.
Proof.
  rewrite filter_filter_and. apply filter_ext. intro x. now destruct (p x).
Qed.

(** The two tests of the effect as one predicate on events. *)
Lemma filtered_as_filter (earthquakes : list Earthquake) (magnitudeFilter : list number)
    (timeFilter : string) (now : number) :
  filtered earthquakes magnitudeFilter timeFilter now =
  filter
    (fun eq =>
       (if gt (elem0 magnitudeFilter) 0%float
        then ge (mag (properties eq)) (elem0 magnitudeFilter) else true)
       && (if negb (String.eqb timeFilter "all")
           then le (now - time (properties eq))%float (timeThreshold timeFilter) else true))
    earthquakes.
Proof.
  unfold filtered.
  destruct (gt (elem0 magnitudeFilter) 0%float), (negb (String.eqb timeFilter "all")).
  - now rewrite filter_filter_and.
  - rewrite <- (filter_true (filter _ earthquakes)) at 1. now rewrite filter_filter_and.
  - reflexivity.
  - symmetry. apply filter_true.
Qed.

(** *** The array store *)

Lemma preserves_refl (h : store) : preserves h h.
Proof. split; auto. Qed.

Lemma preserves_trans (h1 h2 h3 : store) :
  preserves h1 h2 -> preserves h2 h3 -> preserves h1 h3.
Proof.
  intros [L1 R1] [L2 R2]. split; [lia |].
  intros a Ha. rewrite R2 by lia. now apply R1.
Qed.

Lemma alloc_preserves (h : store) (contents : list Earthquake) :
  preserves h (fst (alloc h contents)).
Proof.
  unfold alloc, preserves, read. cbn [fst]. rewrite length_app. cbn. split; [lia |].
  intros a Ha. now apply app_nth1.
Qed.

Lemma alloc_read (h : store) (contents : list Earthquake) :
  read (fst (alloc h contents)) (snd (alloc h contents)) = contents /\
  snd (alloc h contents) = List.length h /\
  List.length (fst (alloc h contents)) = S (List.length h).
Proof.
  unfold alloc, read. cbn [fst snd]. rewrite length_app. cbn. repeat split; [| lia].
  rewrite app_nth2 by lia. now rewrite Nat.sub_diag.
Qed.

Lemma write_length (h : store) : forall (a : address) (contents : list Earthquake),
  List.length (write h a contents) = List.length h.
Proof.
  induction h as [| x rest IH]; intros [| a] contents; cbn; auto.
Qed.

Lemma write_read_same (h : store) : forall (a : address) (contents : list Earthquake),
  (a < List.length h)%nat -> read (write h a contents) a = contents.
Proof.
  unfold read. induction h as [| x rest IH]; intros [| a] contents Ha; cbn in *; try lia; auto.
  apply IH. lia.
Qed.

Lemma write_read_other (h : store) : forall (a b : address) (contents : list Earthquake),
  a <> b -> read (write h a contents) b = read h b.
Proof.
  unfold read. induction h as [| x rest IH]; intros [| a] [| b] contents Hab; cbn; auto;
    try congruence.
Qed.

(** The filter effect allocates and never writes; its result holds the
    filtered contents. *)
Lemma filterEffect_store (earthquakes : address) (magnitudeFilter : list number)
    (timeFilter : string) (now : number) (h : store) :
  (earthquakes < List.length h)%nat ->
  let '(h', result) := ArrayStore.filterEffect earthquakes magnitudeFilter timeFilter now h in
  preserves h h' /\ (result < List.length h')%nat /\
  read h' result = filtered (read h earthquakes) magnitudeFilter timeFilter now.
Proof.
  intro He. unfold ArrayStore.filterEffect, filtered, array_filter.
  destruct (gt (elem0 magnitudeFilter) 0%float).
  - set (c1 := filter _ (read h earthquakes)).
    destruct (alloc_read h c1) as (R1 & A1 & L1). pose proof (alloc_preserves h c1) as P1.
    destruct (alloc h c1) as [h1 a1] eqn:E1. cbn [fst snd] in *.
    destruct (negb (String.eqb timeFilter "all")).
    + set (c2 := filter _ (read h1 a1)).
      destruct (alloc_read h1 c2) as (R2 & A2 & L2). pose proof (alloc_preserves h1 c2) as P2.
      destruct (alloc h1 c2) as [h2 a2] eqn:E2. cbn [fst snd] in *.
      split; [eapply preserves_trans; eauto |]. split; [lia |].
      rewrite R2. unfold c2. now rewrite R1.
    + split; [exact P1 |]. split; [lia | exact R1].
  - destruct (negb (String.eqb timeFilter "all")).
    + set (c2 := filter _ (read h earthquakes)).
      destruct (alloc_read h c2) as (R2 & A2 & L2). pose proof (alloc_preserves h c2) as P2.
      destruct (alloc h c2) as [h2 a2] eqn:E2. cbn [fst snd] in *.
      split; [exact P2 |]. split; [lia | exact R2].
    + split; [apply preserves_refl |]. split; [exact He | reflexivity].
Qed.

(** Deriving the list of significant events sorts only the array its own
    [filter] allocated. *)
Lemma significantEarthquakes_store (a : address) (h : store) :
  let '(h', top) := ArrayStore.significantEarthquakes a h in
  preserves h h' /\
  read h' top = EarthquakeVisualizer.significantEarthquakes (read h a).
Proof.
  unfold ArrayStore.significantEarthquakes, EarthquakeVisualizer.significantEarthquakes,
    array_filter, array_sort, array_slice.
  set (c1 := filter _ (read h a)).
  destruct (alloc_read h c1) as (R1 & A1 & L1). pose proof (alloc_preserves h c1) as P1.
  destruct (alloc h c1) as [h1 a1] eqn:E1. cbn [fst snd] in *.
  set (h2 := write h1 a1 _).
  assert (R2 : read h2 a1 = Array_sort byMagnitudeDescending c1).
  { unfold h2. rewrite write_read_same by lia. now rewrite R1. }
  assert (P2 : preserves h h2).
  { destruct P1 as [L P]. split; [unfold h2; rewrite write_length; lia |].
    intros b Hb. unfold h2. rewrite write_read_other by lia. now apply P. }
  set (c3 := slice 0 5 (read h2 a1)).
  destruct (alloc_read h2 c3) as (R3 & A3 & L3). pose proof (alloc_preserves h2 c3) as P3.
  destruct (alloc h2 c3) as [h3 a3] eqn:E3. cbn [fst snd] in *.
  split; [eapply preserves_trans; eauto |].
  rewrite R3. unfold c3. now rewrite R2.
Qed.

(** C9. The view computation is a function of the event array, the filter
    parameters and the one clock reading. Filtering is idempotent: filtering
    the filtered array again with the same parameters returns it unchanged,
    and the filtered events are among the loaded ones. The effect changes no
    state cell but the filtered array. On the array store, computing the view
    (the filter effect, then the list of significant events with its in-place
    sort) leaves every array that existed before with its contents, the
    loaded array included, and returns the arrays the pure functions give. *)
Theorem view_is_pure_and_idempotent (events : list Earthquake) (magnitudeFilter : list number)
    (w : TimeWindow) (now : number) :
  filtered (filtered events magnitudeFilter (timeFilterValue w) now) magnitudeFilter (timeFilterValue w) now =
  filtered events magnitudeFilter (timeFilterValue w) now
  /\ incl (filtered events magnitudeFilter (timeFilterValue w) now) events
  /\ (forall st : State,
        let st' := EarthquakeVisualizer.filterEffect now st in
        earthquakes st' = earthquakes st /\
        EarthquakeVisualizer.magnitudeFilter st' = EarthquakeVisualizer.magnitudeFilter st /\
        EarthquakeVisualizer.timeFilter st' = EarthquakeVisualizer.timeFilter st /\
        error st' = error st /\ lastUpdated st' = lastUpdated st /\
        loading st' = loading st /\ showFilters st' = showFilters st /\
        EarthquakeVisualizer.filterEffect now st' = st')
  /\ (forall (h : store) (earthquakes : address),
        (earthquakes < List.length h)%nat ->
        read h earthquakes = events ->
        let '(h', filteredAddress, topAddress) :=
          computeView earthquakes magnitudeFilter (timeFilterValue w) now h in
        (forall a : address, (a < List.length h)%nat -> read h' a = read h a) /\
        read h' earthquakes = events /\
        read h' filteredAddress = filtered events magnitudeFilter (timeFilterValue w) now /\
        read h' topAddress =
        EarthquakeVisualizer.significantEarthquakes
          (filtered events magnitudeFilter (timeFilterValue w) now)).
Proof.
  split; [| split; [| split]].
  - rewrite !filtered_as_filter. apply filter_idempotent.
  - rewrite filtered_as_filter. apply incl_filter.
  - intro st. cbn zeta. repeat split.
  - intros h earthquakes He Hr. unfold computeView.
    pose proof (filterEffect_store earthquakes magnitudeFilter (timeFilterValue w) now h He) as F.
    destruct (ArrayStore.filterEffect earthquakes magnitudeFilter (timeFilterValue w) now h)
      as [h1 filteredAddress].
    destruct F as (P1 & L1 & R1).
    pose proof (significantEarthquakes_store filteredAddress h1) as S.
    destruct (ArrayStore.significantEarthquakes filteredAddress h1) as [h2 topAddress].
    destruct S as (P2 & R2).
    destruct (preserves_trans _ _ _ P1 P2) as [_ P].
    split; [exact P |]. split; [rewrite P by exact He; exact Hr |].
    split.
    + destruct P2 as [_ P2]. rewrite P2 by exact L1. now rewrite R1, Hr.
    + now rewrite R2, R1, Hr.
Qed.

Lemma view_is_pure_and_idempotent_witness :
  let '(h', filteredAddress, topAddress) :=
    computeView 0 [0%float] (timeFilterValue All) Samples.clock
      [[Samples.q20; Samples.q60; Samples.q30; Samples.q90]] in
  read h' 0 = [Samples.q20; Samples.q60; Samples.q30; Samples.q90] /\
  filteredAddress = 0%nat /\
  read h' topAddress = [Samples.q90; Samples.q60; Samples.q30].
Proof.
  destruct (view_is_pure_and_idempotent
              [Samples.q20; Samples.q60; Samples.q30; Samples.q90] [0%float] All
              Samples.clock) as (_ & _ & _ & K).
  specialize (K [[Samples.q20; Samples.q60; Samples.q30; Samples.q90]] 0%nat
                ltac:(cbn; lia) eq_refl).
  destruct (computeView 0 [0%float] (timeFilterValue All) Samples.clock
              [[Samples.q20; Samples.q60; Samples.q30; Samples.q90]])
    as [[h' filteredAddress] topAddress] eqn:E.
  destruct K as (_ & K0 & _ & K2).
  split; [exact K0 |]. split; [| exact K2].
  cbv in E. congruence.
Defined.

End PurityProps.

(** ** Magnitude classes *)

Module ClassificationProps.

Import Js Feed Classification.

(** C4 (as stated, at 2.9). Magnitude 2.9 is below 3, so it is Minor with a
    7px blue marker, not Light with a 9px marker. *)
Lemma magnitude_2_9_is_minor :
  ge 2.9%float 3%float = false /\
  EarthquakeVisualizer.getMagnitudeLabel 2.9%float = "Minor"%string /\
  EarthquakeMap.markerStyle 2.9%float = ("#3b82f6"%string, 7%float) /\
  EarthquakeMapChecked.markerStyle 2.9%float = ("#3b82f6"%string, 7%float) /\
  EarthquakeVisualizer.getMagnitudeLabel 2.9%float <> "Light"%string /\
  snd (EarthquakeMapChecked.markerStyle 2.9%float) <> 9%float.
Proof.
  repeat split; try reflexivity; cbv; discriminate.
Qed.

(** C4 (amended). The classes are tested top-down and the first test that
    holds decides: [>= 7] Major, red, 15px; else [>= 5] Moderate, orange,
    12px; else [>= 3] Light, yellow, 9px; else [>= 1] Minor, blue, 7px; else
    Micro, green, 5px; the list label, the badge and both map components
    agree. So 7.0 is Major/15, 6.99 Moderate/12, 5.0 Moderate/12, 3.0
    Light/9, 2.9 Minor/7 and 0.99 Micro/5. *)
Theorem magnitude_classes (magnitude : number) :
  (ge magnitude 7%float = true ->
   classifiedAs magnitude "Major" "bg-destructive" "#dc2626" 15%float)
  /\
  (ge magnitude 7%float = false -> ge magnitude 5%float = true ->
   classifiedAs magnitude "Moderate" "bg-orange-500" "#f97316" 12%float)
  /\
  (ge magnitude 7%float = false -> ge magnitude 5%float = false ->
   ge magnitude 3%float = true ->
   classifiedAs magnitude "Light" "bg-yellow-500" "#eab308" 9%float)
  /\
  (ge magnitude 7%float = false -> ge magnitude 5%float = false ->
   ge magnitude 3%float = false -> ge magnitude 1%float = true ->
   classifiedAs magnitude "Minor" "bg-blue-500" "#3b82f6" 7%float)
  /\
  (ge magnitude 7%float = false -> ge magnitude 5%float = false ->
   ge magnitude 3%float = false -> ge magnitude 1%float = false ->
   classifiedAs magnitude "Micro" "bg-green-500" "#22c55e" 5%float)
  /\ classifiedAs 7.0%float "Major" "bg-destructive" "#dc2626" 15%float
  /\ classifiedAs 6.99%float "Moderate" "bg-orange-500" "#f97316" 12%float
  /\ classifiedAs 5.0%float "Moderate" "bg-orange-500" "#f97316" 12%float
  /\ classifiedAs 3.0%float "Light" "bg-yellow-500" "#eab308" 9%float
  /\ classifiedAs 2.9%float "Minor" "bg-blue-500" "#3b82f6" 7%float
  /\ classifiedAs 0.99%float "Micro" "bg-green-500" "#22c55e" 5%float.
Proof.
  unfold classifiedAs, EarthquakeVisualizer.getMagnitudeLabel,
    EarthquakeVisualizer.getMagnitudeColor, EarthquakeMap.markerStyle,
    EarthquakeMapChecked.markerStyle.
  repeat match goal with
         | |- _ /\ _ => split
         | |- _ -> _ => let H := fresh in intro H; rewrite ?H
         end; reflexivity.
Qed.

Lemma magnitude_classes_witness :
  ge 6.99%float 7%float = false /\ ge 6.99%float 5%float = true /\
  classifiedAs 6.99%float "Moderate" "bg-orange-500" "#f97316" 12%float.
Proof.
  assert (H7 : ge 6.99%float 7%float = false) by reflexivity.
  assert (H5 : ge 6.99%float 5%float = true) by reflexivity.
  split; [exact H7 |]. split; [exact H5 |].
  destruct (magnitude_classes 6.99%float) as (_ & K & _).
  exact (K H7 H5).
Defined.

End ClassificationProps.

(** ** The marker layer *)

Module MarkerProps.

Import Js Feed Leaflet.

Lemma forEach_app {A S : Type} (body : A -> S -> outcome S) (xs ys : list A) (s : S) :
  forEach body (xs ++ ys) s =
  match forEach body xs s with
  | Normal s' => forEach body ys s'
  | Thrown s' => Thrown s'
  end.
Proof.
  revert s. induction xs as [| x rest IH]; intro s; cbn; [reflexivity |].
  destruct (body x s); [apply IH | reflexivity].
Qed.

(** A callback that returns at once on [x] makes [x] invisible to the loop. *)
Lemma forEach_skip {A S : Type} (body : A -> S -> outcome S) (xs ys : list A) (x : A) (s : S) :
  (forall s', body x s' = Normal s') ->
  forEach body (xs ++ x :: ys) s = forEach body (xs ++ ys) s.
Proof.
  intro H. rewrite !forEach_app. destruct (forEach body xs s); [| reflexivity].
  cbn. now rewrite H.
Qed.

Section Renderer.

Variable circleMarkerThrows : number * number -> bool.

(** *** components/earthquake-map.tsx *)

Lemma plain_forEach_accepting (earthquakes : list Earthquake) : forall group : LayerGroup,
  Forall (fun marker => circleMarkerThrows (latlng marker) = false)
    (EarthquakeMap.project earthquakes) ->
  forEach (EarthquakeMap.addEarthquakeMarker circleMarkerThrows) earthquakes group =
  Normal (group ++ EarthquakeMap.project earthquakes).
Proof.
  induction earthquakes as [| eq rest IH]; intros group F; cbn.
  - now rewrite app_nil_r.
  - inversion F as [| ? ? Hx Hrest]; subst.
    unfold EarthquakeMap.addEarthquakeMarker at 1. rewrite Hx.
    unfold addLayer. rewrite (IH _ Hrest). now rewrite <- app_assoc.
Qed.

(** *** The map component with the coordinate check *)

Lemma checked_skip (earthquake : Earthquake) (group : LayerGroup) :
  EarthquakeMapChecked.skipped earthquake = true ->
  EarthquakeMapChecked.addEarthquakeMarker circleMarkerThrows earthquake group = Normal group.
Proof.
  intro H. unfold EarthquakeMapChecked.addEarthquakeMarker. now rewrite H.
Qed.

Lemma checked_project_skip (before after : list Earthquake) (earthquake : Earthquake) :
  EarthquakeMapChecked.skipped earthquake = true ->
  EarthquakeMapChecked.project (before ++ earthquake :: after) =
  EarthquakeMapChecked.project (before ++ after).
Proof.
  intro H. unfold EarthquakeMapChecked.project.
  rewrite !filter_app. cbn [filter]. now rewrite H.
Qed.

Lemma checked_forEach_accepting (earthquakes : list Earthquake) : forall group : LayerGroup,
  Forall (fun marker => circleMarkerThrows (latlng marker) = false)
    (EarthquakeMapChecked.project earthquakes) ->
  forEach (EarthquakeMapChecked.addEarthquakeMarker circleMarkerThrows) earthquakes group =
  Normal (group ++ EarthquakeMapChecked.project earthquakes).
Proof.
  unfold EarthquakeMapChecked.project.
  induction earthquakes as [| eq rest IH]; intros group F; cbn [forEach filter map].
  - now rewrite app_nil_r.
  - unfold EarthquakeMapChecked.addEarthquakeMarker at 1. cbn [filter] in F.
    destruct (EarthquakeMapChecked.skipped eq) eqn:Sk; cbn [negb map] in *.
    + now apply IH.
    + inversion F as [| ? ? Hx Hrest]; subst.
      rewrite Hx. unfold addLayer. rewrite (IH _ Hrest). now rewrite <- app_assoc.
Qed.

(** The effect with an event the check skips is the effect without it: the
    layer, the completion and the map error are the same. *)
Lemma checked_effect_skip (before after : list Earthquake) (earthquake : Earthquake)
    (previous : LayerGroup) (loading : bool) (st : EarthquakeMapChecked.MapState) :
  EarthquakeMapChecked.skipped earthquake = true ->
  EarthquakeMapChecked.project (before ++ earthquake :: after) =
  EarthquakeMapChecked.project (before ++ after)
  /\ EarthquakeMapChecked.reconcile circleMarkerThrows (before ++ earthquake :: after) previous =
     EarthquakeMapChecked.reconcile circleMarkerThrows (before ++ after) previous
  /\ EarthquakeMapChecked.markerEffect circleMarkerThrows (before ++ earthquake :: after) loading st =
     EarthquakeMapChecked.markerEffect circleMarkerThrows (before ++ after) loading st.
Proof.
  intro H.
  assert (R : forall group,
             EarthquakeMapChecked.reconcile circleMarkerThrows (before ++ earthquake :: after) group =
             EarthquakeMapChecked.reconcile circleMarkerThrows (before ++ after) group).
  { intro group. unfold EarthquakeMapChecked.reconcile. apply forEach_skip.
    intro s'. now apply checked_skip. }
  split; [now apply checked_project_skip |]. split; [apply R |].
  unfold EarthquakeMapChecked.markerEffect. destruct (EarthquakeMapChecked.markers st); [| reflexivity].
  now rewrite R.
Qed.

End Renderer.

Lemma skipped_of_nan (earthquake : Earthquake) :
  isNaN (latOf earthquake) = true \/ isNaN (lngOf earthquake) = true ->
  EarthquakeMapChecked.skipped earthquake = true.
Proof.
  unfold EarthquakeMapChecked.skipped, latOf, lngOf.
  destruct (coordinates (geometry earthquake)) as [[lng lat] depth]. cbn [fst snd].
  intros [H | H]; rewrite H; rewrite ?orb_true_r; reflexivity.
Qed.

Lemma skipped_of_zero (earthquake : Earthquake) :
  (latOf earthquake =? 0)%float = true \/ (lngOf earthquake =? 0)%float = true ->
  EarthquakeMapChecked.skipped earthquake = true.
Proof.
  unfold EarthquakeMapChecked.skipped, latOf, lngOf, falsy, ToBoolean, is_zero.
  destruct (coordinates (geometry earthquake)) as [[lng lat] depth]. cbn [fst snd].
  change zero with 0%float.
  intros [H | H]; rewrite H; cbn; rewrite ?orb_true_r; reflexivity.
Qed.

Lemma not_skipped (earthquake : Earthquake) :
  isNaN (latOf earthquake) = false -> isNaN (lngOf earthquake) = false ->
  (latOf earthquake =? 0)%float = false -> (lngOf earthquake =? 0)%float = false ->
  EarthquakeMapChecked.skipped earthquake = false.
Proof.
  unfold EarthquakeMapChecked.skipped, latOf, lngOf, falsy, ToBoolean, is_zero, isNaN.
  destruct (coordinates (geometry earthquake)) as [[lng lat] depth]. cbn [fst snd].
  change zero with 0%float.
  intros -> -> -> ->. reflexivity.
Qed.

(** C6 (as stated, at an infinite latitude). An event with latitude
    +Infinity passes the coordinate check and gets a marker, while an event
    on the equator, whose coordinates are finite, gets none. *)
Lemma infinite_latitude_gets_marker :
  isFinite (latOf Samples.qLatInfinite) = false /\
  isFinite (latOf Samples.qEquator) = true /\
  isFinite (lngOf Samples.qEquator) = true /\
  EarthquakeMapChecked.project [Samples.qLatInfinite; Samples.qEquator] =
  [EarthquakeMapChecked.markerFor Samples.qLatInfinite] /\
  EarthquakeMapChecked.reconcile throwsOnNaN [Samples.qLatInfinite; Samples.qEquator] [] =
  Normal [EarthquakeMapChecked.markerFor Samples.qLatInfinite].
Proof. repeat split. Qed.

(** C6 (amended). An event whose latitude or longitude is NaN is left out of
    the marker sequence, and silently: the layer, the completion of the
    effect and the map error are those of the list without the event,
    whatever the renderer does. An event whose latitude and longitude are
    both neither NaN nor zero is not left out by the check, infinite values
    included. *)
Theorem nan_coordinates_skipped (circleMarkerThrows : number * number -> bool)
    (before after : list Earthquake) (earthquake : Earthquake)
    (previous : LayerGroup) (loading : bool) (st : EarthquakeMapChecked.MapState) :
  (isNaN (latOf earthquake) = true \/ isNaN (lngOf earthquake) = true ->
   EarthquakeMapChecked.project (before ++ earthquake :: after) =
   EarthquakeMapChecked.project (before ++ after)
   /\ EarthquakeMapChecked.reconcile circleMarkerThrows (before ++ earthquake :: after) previous =
      EarthquakeMapChecked.reconcile circleMarkerThrows (before ++ after) previous
   /\ EarthquakeMapChecked.markerEffect circleMarkerThrows (before ++ earthquake :: after) loading st =
      EarthquakeMapChecked.markerEffect circleMarkerThrows (before ++ after) loading st)
  /\
  (isNaN (latOf earthquake) = false -> isNaN (lngOf earthquake) = false ->
   (latOf earthquake =? 0)%float = false -> (lngOf earthquake =? 0)%float = false ->
   EarthquakeMapChecked.project (before ++ earthquake :: after) =
   EarthquakeMapChecked.project before
   ++ EarthquakeMapChecked.markerFor earthquake :: EarthquakeMapChecked.project after).
Proof.
  split.
  - intro H. apply checked_effect_skip. now apply skipped_of_nan.
  - intros H1 H2 H3 H4. unfold EarthquakeMapChecked.project.
    rewrite filter_app. cbn [filter]. rewrite (not_skipped _ H1 H2 H3 H4). cbn [negb].
    now rewrite map_app.
Qed.

Lemma nan_coordinates_skipped_witness :
  (isNaN (latOf Samples.qLatNaN) = true \/ isNaN (lngOf Samples.qLatNaN) = true) /\
  EarthquakeMapChecked.reconcile throwsOnNaN
    ([Samples.q60] ++ Samples.qLatNaN :: [Samples.q90]) [] =
  EarthquakeMapChecked.reconcile throwsOnNaN ([Samples.q60] ++ [Samples.q90]) [] /\
  EarthquakeMapChecked.project ([Samples.q60] ++ Samples.qLatInfinite :: [Samples.q90]) =
  EarthquakeMapChecked.project [Samples.q60]
  ++ EarthquakeMapChecked.markerFor Samples.qLatInfinite
     :: EarthquakeMapChecked.project [Samples.q90].
Proof.
  assert (H : isNaN (latOf Samples.qLatNaN) = true \/ isNaN (lngOf Samples.qLatNaN) = true)
    by (left; reflexivity).
  split; [exact H |]. split.
  - destruct (nan_coordinates_skipped throwsOnNaN [Samples.q60] [Samples.q90] Samples.qLatNaN []
                false
                {| EarthquakeMapChecked.mapInstance := true;
                   EarthquakeMapChecked.markers := Some [];
                   EarthquakeMapChecked.leafletLoaded := true;
                   EarthquakeMapChecked.windowL := true;
                   EarthquakeMapChecked.mapError := None |}) as (K & _).
    exact (proj1 (proj2 (K H))).
  - destruct (nan_coordinates_skipped throwsOnNaN [Samples.q60] [Samples.q90]
                Samples.qLatInfinite [] false
                {| EarthquakeMapChecked.mapInstance := true;
                   EarthquakeMapChecked.markers := Some [];
                   EarthquakeMapChecked.leafletLoaded := true;
                   EarthquakeMapChecked.windowL := true;
                   EarthquakeMapChecked.mapError := None |}) as (_ & K).
    apply K; reflexivity.
Defined.

(** C10. In the map component with the coordinate check, an event whose
    latitude is zero or whose longitude is zero gets no marker, finite
    coordinates or not: the layer and the effect are those of the list
    without the event. *)
Theorem zero_coordinate_skipped (circleMarkerThrows : number * number -> bool)
    (before after : list Earthquake) (earthquake : Earthquake)
    (previous : LayerGroup) (loading : bool) (st : EarthquakeMapChecked.MapState) :
  (latOf earthquake =? 0)%float = true \/ (lngOf earthquake =? 0)%float = true ->
  EarthquakeMapChecked.skipped earthquake = true
  /\ EarthquakeMapChecked.project (before ++ earthquake :: after) =
     EarthquakeMapChecked.project (before ++ after)
  /\ EarthquakeMapChecked.reconcile circleMarkerThrows (before ++ earthquake :: after) previous =
     EarthquakeMapChecked.reconcile circleMarkerThrows (before ++ after) previous
  /\ EarthquakeMapChecked.markerEffect circleMarkerThrows (before ++ earthquake :: after) loading st =
     EarthquakeMapChecked.markerEffect circleMarkerThrows (before ++ after) loading st.
Proof.
  intro H. pose proof (skipped_of_zero earthquake H) as Sk.
  split; [exact Sk |]. now apply checked_effect_skip.
Qed.

Lemma zero_coordinate_skipped_witness :
  ((latOf Samples.qEquator =? 0)%float = true \/ (lngOf Samples.qEquator =? 0)%float = true) /\
  isFinite (latOf Samples.qEquator) = true /\
  isFinite (lngOf Samples.qEquator) = true /\
  EarthquakeMapChecked.reconcile acceptsAll ([Samples.q60] ++ Samples.qEquator :: [Samples.q90])
    [] =
  EarthquakeMapChecked.reconcile acceptsAll ([Samples.q60] ++ [Samples.q90]) [] /\
  EarthquakeMapChecked.project ([] ++ Samples.qMeridian :: [Samples.q90]) =
  EarthquakeMapChecked.project ([] ++ [Samples.q90]).
Proof.
  assert (H : (latOf Samples.qEquator =? 0)%float = true \/
              (lngOf Samples.qEquator =? 0)%float = true) by (left; reflexivity).
  split; [exact H |]. split; [reflexivity |]. split; [reflexivity |].
  destruct (zero_coordinate_skipped acceptsAll [Samples.q60] [Samples.q90] Samples.qEquator []
              false
              {| EarthquakeMapChecked.mapInstance := true;
                 EarthquakeMapChecked.markers := Some [];
                 EarthquakeMapChecked.leafletLoaded := true;
                 EarthquakeMapChecked.windowL := true;
                 EarthquakeMapChecked.mapError := None |} H) as (_ & _ & K & _).
  split; [exact K |].
  destruct (zero_coordinate_skipped acceptsAll [] [Samples.q90] Samples.qMeridian []
              false
              {| EarthquakeMapChecked.mapInstance := true;
                 EarthquakeMapChecked.markers := Some [];
                 EarthquakeMapChecked.leafletLoaded := true;
                 EarthquakeMapChecked.windowL := true;
                 EarthquakeMapChecked.mapError := None |}
              (or_intror eq_refl)) as (_ & K' & _).
  exact K'.
Defined.

End MarkerProps.

(** ** Reconciling the marker layer *)

Module ReconcileProps.

Import Js Feed Leaflet MarkerProps.

Section Renderer.

Variable circleMarkerThrows : number * number -> bool.

(** Whatever the renderer does, the layer after the loop is the group it
    started from followed by an initial segment of the descriptors. *)
Lemma checked_forEach_prefix (earthquakes : list Earthquake) : forall group : LayerGroup,
  exists added rest : list Marker,
    EarthquakeMapChecked.project earthquakes = added ++ rest /\
    (forEach (EarthquakeMapChecked.addEarthquakeMarker circleMarkerThrows) earthquakes group =
     Normal (group ++ added) /\ rest = []
     \/
     forEach (EarthquakeMapChecked.addEarthquakeMarker circleMarkerThrows) earthquakes group =
     Thrown (group ++ added)).
Proof.
  unfold EarthquakeMapChecked.project.
  induction earthquakes as [| eq rest IH]; intro group; cbn [forEach filter map].
  - exists [], []. rewrite !app_nil_r. auto.
  - unfold EarthquakeMapChecked.addEarthquakeMarker at 1 3.
    destruct (EarthquakeMapChecked.skipped eq) eqn:Sk; cbn [negb map].
    + apply IH.
    + destruct (circleMarkerThrows (latlng (EarthquakeMapChecked.markerFor eq))).
      * exists [], (EarthquakeMapChecked.markerFor eq
                    :: map EarthquakeMapChecked.markerFor
                         (filter (fun e => negb (EarthquakeMapChecked.skipped e)) rest)).
        rewrite !app_nil_r. cbn [app]. auto.
      * destruct (IH (addLayer (EarthquakeMapChecked.markerFor eq) group))
          as (added & rest' & E & H).
        exists (EarthquakeMapChecked.markerFor eq :: added), rest'.
        split; [cbn; now rewrite E |].
        unfold addLayer in H. rewrite <- !app_assoc in H. exact H.
Qed.

Lemma plain_forEach_prefix (earthquakes : list Earthquake) : forall group : LayerGroup,
  exists added rest : list Marker,
    EarthquakeMap.project earthquakes = added ++ rest /\
    (forEach (EarthquakeMap.addEarthquakeMarker circleMarkerThrows) earthquakes group =
     Normal (group ++ added) /\ rest = []
     \/
     forEach (EarthquakeMap.addEarthquakeMarker circleMarkerThrows) earthquakes group =
     Thrown (group ++ added)).
Proof.
  unfold EarthquakeMap.project.
  induction earthquakes as [| eq rest IH]; intro group; cbn [forEach map].
  - exists [], []. rewrite !app_nil_r. auto.
  - unfold EarthquakeMap.addEarthquakeMarker at 1 3.
    destruct (circleMarkerThrows (latlng (EarthquakeMap.markerFor eq))).
    + exists [], (EarthquakeMap.markerFor eq :: map EarthquakeMap.markerFor rest).
      rewrite !app_nil_r. cbn [app]. auto.
    + destruct (IH (addLayer (EarthquakeMap.markerFor eq) group)) as (added & rest' & E & H).
      exists (EarthquakeMap.markerFor eq :: added), rest'.
      split; [cbn; now rewrite E |].
      unfold addLayer in H. rewrite <- !app_assoc in H. exact H.
Qed.

End Renderer.

(** C7. In both map components the reconcile step first empties the layer
    group, so the layer that was there has no influence on the result, and
    then adds markers in event order: the layer afterwards is an initial
    segment of the descriptor sequence, and when the renderer accepts every
    descriptor it is exactly that sequence, one marker per descriptor in
    order. A ready effect stores that layer. *)
Theorem reconcile_replaces_layer (circleMarkerThrows : number * number -> bool)
    (earthquakes : list Earthquake) (previous : LayerGroup) :
  (EarthquakeMapChecked.reconcile circleMarkerThrows earthquakes previous =
   EarthquakeMapChecked.reconcile circleMarkerThrows earthquakes []
   /\ EarthquakeMap.reconcile circleMarkerThrows earthquakes previous =
      EarthquakeMap.reconcile circleMarkerThrows earthquakes [])
  /\
  (exists added rest : list Marker,
     EarthquakeMapChecked.project earthquakes = added ++ rest /\
     (EarthquakeMapChecked.reconcile circleMarkerThrows earthquakes previous = Normal added
      /\ rest = []
      \/ EarthquakeMapChecked.reconcile circleMarkerThrows earthquakes previous = Thrown added))
  /\
  (exists added rest : list Marker,
     EarthquakeMap.project earthquakes = added ++ rest /\
     (EarthquakeMap.reconcile circleMarkerThrows earthquakes previous = Normal added
      /\ rest = []
      \/ EarthquakeMap.reconcile circleMarkerThrows earthquakes previous = Thrown added))
  /\
  (Forall (fun marker => circleMarkerThrows (latlng marker) = false)
     (EarthquakeMapChecked.project earthquakes) ->
   EarthquakeMapChecked.reconcile circleMarkerThrows earthquakes previous =
   Normal (EarthquakeMapChecked.project earthquakes)
   /\
   forall st : EarthquakeMapChecked.MapState,
     EarthquakeMapChecked.markers st = Some previous ->
     EarthquakeMapChecked.mapInstance st = true ->
     EarthquakeMapChecked.leafletLoaded st = true ->
     EarthquakeMapChecked.windowL st = true ->
     EarthquakeMapChecked.mapError st = None ->
     EarthquakeMapChecked.markerEffect circleMarkerThrows earthquakes false st =
     Normal (EarthquakeMapChecked.setMarkers (EarthquakeMapChecked.project earthquakes) st))
  /\
  (Forall (fun marker => circleMarkerThrows (latlng marker) = false)
     (EarthquakeMap.project earthquakes) ->
   EarthquakeMap.reconcile circleMarkerThrows earthquakes previous =
   Normal (EarthquakeMap.project earthquakes)
   /\
   forall st : EarthquakeMap.MapState,
     EarthquakeMap.markers st = Some previous ->
     EarthquakeMap.mapInstance st = true ->
     EarthquakeMap.leafletLoaded st = true ->
     EarthquakeMap.windowL st = true ->
     EarthquakeMap.markerEffect circleMarkerThrows earthquakes false st =
     Normal (EarthquakeMap.setMarkers (EarthquakeMap.project earthquakes) st)).
Proof.
  split; [split; reflexivity |].
  split; [exact (checked_forEach_prefix circleMarkerThrows earthquakes []) |].
  split; [exact (plain_forEach_prefix circleMarkerThrows earthquakes []) |].
  split.
  - intro F.
    assert (R : EarthquakeMapChecked.reconcile circleMarkerThrows earthquakes previous =
                Normal (EarthquakeMapChecked.project earthquakes)).
    { unfold EarthquakeMapChecked.reconcile, clearLayers.
      now rewrite (checked_forEach_accepting circleMarkerThrows earthquakes [] F). }
    split; [exact R |].
    intros st Hm Hi Hl Hw He. unfold EarthquakeMapChecked.markerEffect.
    rewrite Hm, Hi, Hl, Hw, He, R. reflexivity.
  - intro F.
    assert (R : EarthquakeMap.reconcile circleMarkerThrows earthquakes previous =
                Normal (EarthquakeMap.project earthquakes)).
    { unfold EarthquakeMap.reconcile, clearLayers.
      now rewrite (plain_forEach_accepting circleMarkerThrows earthquakes [] F). }
    split; [exact R |].
    intros st Hm Hi Hl Hw. unfold EarthquakeMap.markerEffect.
    rewrite Hm, Hi, Hl, Hw, R. reflexivity.
Qed.

Lemma reconcile_replaces_layer_witness :
  Forall (fun marker => throwsOnNaN (latlng marker) = false)
    (EarthquakeMapChecked.project [Samples.q60; Samples.qLatNaN; Samples.q90]) /\
  EarthquakeMapChecked.reconcile throwsOnNaN [Samples.q60; Samples.qLatNaN; Samples.q90]
    [EarthquakeMapChecked.markerFor Samples.q20] =
  Normal [EarthquakeMapChecked.markerFor Samples.q60; EarthquakeMapChecked.markerFor Samples.q90].
Proof.
  assert (F : Forall (fun marker => throwsOnNaN (latlng marker) = false)
                (EarthquakeMapChecked.project [Samples.q60; Samples.qLatNaN; Samples.q90]))
    by (repeat constructor).
  split; [exact F |].
  destruct (reconcile_replaces_layer throwsOnNaN [Samples.q60; Samples.qLatNaN; Samples.q90]
              [EarthquakeMapChecked.markerFor Samples.q20]) as (_ & _ & _ & K & _).
  exact (proj1 (K F)).
Defined.

End ReconcileProps.

(** ** components/earthquake-map.tsx without the coordinate check *)

Module PlainMapFacts.

Import Js Feed Leaflet.

(** This component hands every event to the renderer. With a renderer that
    throws on a NaN position, an event with a NaN latitude ends the effect by
    an uncaught exception, and the events after it get no marker. *)
Lemma plain_map_has_no_coordinate_check :
  EarthquakeMap.project [Samples.q60; Samples.qLatNaN; Samples.q90] =
  [EarthquakeMap.markerFor Samples.q60; EarthquakeMap.markerFor Samples.qLatNaN;
   EarthquakeMap.markerFor Samples.q90]
  /\ EarthquakeMap.reconcile throwsOnNaN [Samples.q60; Samples.qLatNaN; Samples.q90] [] =
     Thrown [EarthquakeMap.markerFor Samples.q60]
  /\ EarthquakeMap.reconcile acceptsAll [Samples.qEquator] [] =
     Normal [EarthquakeMap.markerFor Samples.qEquator].
Proof. repeat split. Qed.

End PlainMapFacts.

(** ** More on the order of numbers *)

Module OrderFacts.

Import Js Binary64 Binary64Facts JsFacts.

Lemma ge_trans (x y z : number) : ge x y = true -> ge y z = true -> ge x z = true.
Proof.
  intros H1 H2. destruct (ge_not_nan _ _ H1) as [Nx Ny]. destruct (ge_not_nan _ _ H2) as [_ Nz].
  rewrite (ge_units _ _ Nx Ny) in H1. rewrite (ge_units _ _ Ny Nz) in H2.
  rewrite (ge_units _ _ Nx Nz). lia.
Qed.

Lemma le_trans (x y z : number) : le x y = true -> le y z = true -> le x z = true.
Proof. unfold le. intros H1 H2. exact (ge_trans z y x H2 H1). Qed.

Lemma lt_le (x y : number) : lt x y = true -> le x y = true.
Proof.
  unfold lt, le. intro H. destruct (ltb_not_nan _ _ H) as [Nx Ny].
  rewrite (ltb_units _ _ Nx Ny) in H. rewrite (leb_units _ _ Nx Ny). lia.
Qed.

Lemma gt_ge_false (x y : number) : ge x y = true -> gt y x = false.
Proof.
  intro H. destruct (ge_not_nan _ _ H) as [Nx Ny].
  rewrite (ge_units _ _ Nx Ny) in H. rewrite (gt_units _ _ Ny Nx). lia.
Qed.

Lemma ge_antisym_eqb (x y : number) : ge x y = true -> ge y x = true -> (x =? y)%float = true.
Proof.
  intros H1 H2. destruct (ge_not_nan _ _ H1) as [Nx Ny].
  rewrite (ge_units _ _ Nx Ny) in H1. rewrite (ge_units _ _ Ny Nx) in H2.
  rewrite (eqb_units _ _ Nx Ny). lia.
Qed.

(** A difference with a NaN operand is NaN. *)
Lemma sub_nan_r (x y : number) : is_nan y = true -> is_nan (x - y) = true.
Proof.
  rewrite !is_nan_spec, sub_spec. intro H.
  destruct (Prim2SF y); try discriminate H. now destruct (Prim2SF x).
Qed.

Lemma le_of_nan_l (x y : number) : is_nan x = true -> le x y = false.
Proof.
  intro N. unfold le. destruct (x <=? y)%float eqn:E; [| reflexivity].
  apply leb_not_nan in E. destruct E as [E _]. congruence.
Qed.

(** [Math.abs] forgets the sign. *)
Lemma abs_opp (x : number) : abs (- x) = abs x.
Proof.
  apply Prim2SF_inj. rewrite !abs_spec, opp_spec. now destruct (Prim2SF x).
Qed.

Lemma abs_nonnegative (x : number) : is_nan x = false -> ge (abs x) 0%float = true.
Proof.
  intro N. unfold ge. rewrite leb_spec, abs_spec. rewrite is_nan_spec in N.
  change (Prim2SF 0%float) with (S754_zero false).
  destruct (Prim2SF x); try discriminate N; reflexivity.
Qed.

End OrderFacts.

(** ** The filter effect: how the parameters compose *)

Module FilterComposition.

Import Js Feed EarthquakeVisualizer Binary64Facts JsFacts OrderFacts PurityProps.

Lemma filter_implied {A : Type} (p q : A -> bool) (l : list A) :
  (forall x, q x = true -> p x = true) ->
  filter q (filter p l) = filter q l.
Proof.
  intro H. rewrite filter_filter_and. apply filter_ext. intro x.
  destruct (q x) eqn:Q; [rewrite (H x Q) | rewrite andb_false_r]; reflexivity.
Qed.

(** X1. Raising the minimum magnitude only narrows the view: with the same
    time window and clock reading, filtering the events already filtered at
    a lower minimum gives the view of the higher minimum, so every event
    shown at the higher minimum is shown at the lower one. *)
Theorem raising_minimum_narrows (events : list Earthquake) (lower higher : list number)
    (w : TimeWindow) (now : number) :
  ge (elem0 higher) (elem0 lower) = true ->
  filtered (filtered events lower (timeFilterValue w) now) higher (timeFilterValue w) now =
  filtered events higher (timeFilterValue w) now
  /\ incl (filtered events higher (timeFilterValue w) now)
          (filtered events lower (timeFilterValue w) now).
Proof.
  intro H.
  assert (E : filtered (filtered events lower (timeFilterValue w) now) higher
                (timeFilterValue w) now =
              filtered events higher (timeFilterValue w) now).
  { rewrite !filtered_as_filter. apply filter_implied. intros eq Q.
    apply andb_true_iff in Q. destruct Q as [Qm Qt]. rewrite Qt, andb_true_r.
    destruct (gt (elem0 lower) 0%float) eqn:Gl; [| reflexivity].
    destruct (gt (elem0 higher) 0%float) eqn:Gh.
    - exact (ge_trans _ _ _ Qm H).
    - destruct (ge_not_nan _ _ H) as [Nh Nl]. destruct (gt_not_nan _ _ Gl) as [_ N0].
      rewrite (gt_units _ _ Nl N0) in Gl. rewrite (gt_units _ _ Nh N0) in Gh.
      rewrite (ge_units _ _ Nh Nl) in H. lia. }
  split; [exact E |].
  rewrite <- E. rewrite (filtered_as_filter (filtered events lower _ _)). apply incl_filter.
Qed.

Lemma raising_minimum_narrows_witness :
  ge (elem0 [5%float]) (elem0 [2.5%float]) = true /\
  incl (filtered [Samples.q20; Samples.q60; Samples.q30] [5%float] (timeFilterValue All)
          Samples.clock)
       (filtered [Samples.q20; Samples.q60; Samples.q30] [2.5%float] (timeFilterValue All)
          Samples.clock).
Proof.
  assert (H : ge (elem0 [5%float]) (elem0 [2.5%float]) = true) by reflexivity.
  split; [exact H |].
  exact (proj2 (raising_minimum_narrows [Samples.q20; Samples.q60; Samples.q30]
                  [2.5%float] [5%float] All Samples.clock H)).
Defined.

Lemma window_le (w1 w2 : TimeWindow) (age : number) :
  le (windowMillis w1) (windowMillis w2) = true ->
  le age (windowMillis w1) = true -> le age (windowMillis w2) = true.
Proof. intros H1 H2. exact (le_trans _ _ _ H2 H1). Qed.

(** X2. The time windows are nested: at one clock reading and one minimum
    magnitude, every event shown for the last hour is shown for the last 6
    hours, every one of those for the last 12 hours, and every one of those
    for All. *)
Theorem time_windows_nested (events : list Earthquake) (magnitudeFilter : list number)
    (now : number) :
  incl (filtered events magnitudeFilter (timeFilterValue LastHour) now)
       (filtered events magnitudeFilter (timeFilterValue Last6Hours) now)
  /\ incl (filtered events magnitudeFilter (timeFilterValue Last6Hours) now)
          (filtered events magnitudeFilter (timeFilterValue Last12Hours) now)
  /\ incl (filtered events magnitudeFilter (timeFilterValue Last12Hours) now)
          (filtered events magnitudeFilter (timeFilterValue All) now).
Proof.
  repeat split; intros eq H; apply FilterProps.filtered_In in H;
    apply FilterProps.filtered_In; destruct H as (I & M & [W | T]); try discriminate W;
    (split; [exact I | split; [exact M |]]).
  - right. rewrite FilterProps.timeThreshold_window in *.
    eapply le_trans; [exact T | reflexivity].
  - right. rewrite FilterProps.timeThreshold_window in *.
    eapply le_trans; [exact T | reflexivity].
  - left. reflexivity.
Qed.

(** X3. The time test at its edges: when a window other than All is
    selected, an event whose time is NaN is never shown, and an event dated
    after the clock reading (a negative age) is shown like any event inside
    the window. *)
Theorem time_filter_edges (events : list Earthquake) (magnitudeFilter : list number)
    (w : TimeWindow) (now : number) (eq : Earthquake) :
  w <> All ->
  (isNaN (time (properties eq)) = true ->
   ~ In eq (filtered events magnitudeFilter (timeFilterValue w) now))
  /\
  (lt now (time (properties eq)) = true ->
   (In eq (filtered events magnitudeFilter (timeFilterValue w) now) <->
    In eq (filtered events magnitudeFilter (timeFilterValue All) now))).
Proof.
  intro NW. split.
  - intros N H. apply FilterProps.filtered_In in H. destruct H as (_ & _ & [W | T]);
      [congruence |].
    unfold isNaN in N. rewrite (le_of_nan_l _ _ (sub_nan_r now _ N)) in T. discriminate T.
  - intro F. rewrite !FilterProps.filtered_In.
    assert (T : le (now - time (properties eq))%float (timeThreshold (timeFilterValue w)) = true).
    { rewrite FilterProps.timeThreshold_window.
      assert (Z : lt (now - time (properties eq))%float 0%float = true).
      { unfold lt. rewrite sub_ltb_zero. exact F. }
      apply lt_le in Z. eapply le_trans; [exact Z |]. destruct w; reflexivity. }
    split; intros (I & M & _); (split; [exact I | split; [exact M |]]); auto.
Qed.

Lemma time_filter_edges_witness :
  LastHour <> All /\
  lt Samples.clock (time (properties (Samples.quake "future" 4.5%float
                                        (Samples.clock + 60000)%float 10%float 20%float))) = true /\
  In (Samples.quake "future" 4.5%float (Samples.clock + 60000)%float 10%float 20%float)
     (filtered [Samples.quake "future" 4.5%float (Samples.clock + 60000)%float 10%float 20%float]
        [0%float] (timeFilterValue LastHour) Samples.clock).
Proof.
  assert (NW : LastHour <> All) by discriminate.
  split; [exact NW |]. split; [reflexivity |].
  destruct (time_filter_edges
              [Samples.quake "future" 4.5%float (Samples.clock + 60000)%float 10%float 20%float]
              [0%float] LastHour Samples.clock
              (Samples.quake "future" 4.5%float (Samples.clock + 60000)%float 10%float 20%float)
              NW) as (_ & K).
  apply (K eq_refl). cbn. auto.
Defined.

(** X4. The comparator [(a, b) => b.mag - a.mag] is consistent with the
    magnitudes for all events, rounding included: its result is positive
    exactly when [a] has the smaller magnitude and negative exactly when [a]
    has the larger one, so swapping the arguments swaps the sign, and it
    reads as zero when the magnitudes are equal or one is NaN. *)
Theorem comparator_follows_magnitude (a b : Earthquake) :
  (0 <? SortCompare byMagnitudeDescending a b)%float =
  lt (mag (properties a)) (mag (properties b))
  /\ (SortCompare byMagnitudeDescending a b <? 0)%float =
     gt (mag (properties a)) (mag (properties b))
  /\ (0 <? SortCompare byMagnitudeDescending a b)%float =
     (SortCompare byMagnitudeDescending b a <? 0)%float.
Proof.
  assert (P : forall x y : Earthquake,
             (0 <? SortCompare byMagnitudeDescending x y)%float =
             lt (mag (properties x)) (mag (properties y))).
  { intros x y. exact (SortFacts.descending_moves magnitudeOf x y). }
  assert (Q : forall x y : Earthquake,
             (SortCompare byMagnitudeDescending x y <? 0)%float =
             gt (mag (properties x)) (mag (properties y))).
  { intros x y. unfold SortCompare, byMagnitudeDescending, gt.
    destruct (is_nan (mag (properties y) - mag (properties x))) eqn:N.
    - change (0 <? 0)%float with false.
      rewrite <- (sub_ltb_zero (mag (properties y)) (mag (properties x))).
      destruct (mag (properties y) - mag (properties x) <? 0)%float eqn:E; [| reflexivity].
      apply ltb_not_nan in E. destruct E as [E _]. congruence.
    - apply sub_ltb_zero. }
  split; [apply P |]. split; [apply Q |].
  rewrite P, Q. reflexivity.
Qed.

End FilterComposition.

(** ** The list of significant events against the cards and the classes *)

Module SignificantListProps.

Import Js Feed EarthquakeVisualizer VisualizerView SortSpec Binary64Facts JsFacts SortFacts
  OrderFacts.

Lemma sorted_app_dominates {A : Type} (R : A -> A -> Prop) (l1 l2 : list A) :
  StronglySorted R (l1 ++ l2) ->
  forall a b, In a l1 -> In b l2 -> R a b.
Proof.
  induction l1 as [| x rest IH]; intros S a b Ha Hb; [contradiction |].
  cbn in S. inversion S as [| ? ? Srest F]; subst.
  destruct Ha as [-> | Ha].
  - rewrite Forall_forall in F. apply F. apply in_or_app. now right.
  - now apply IH.
Qed.

Lemma significant_sorted_facts (filteredEarthquakes : list Earthquake) :
  let significant := filter (fun eq => ge (mag (properties eq)) 2.5%float) filteredEarthquakes in
  let sorted := Array_sort byMagnitudeDescending significant in
  significantEarthquakes filteredEarthquakes = firstn 5 sorted /\
  Permutation sorted significant /\
  StronglySorted (precedesBy magnitudeOf) sorted.
Proof.
  cbn zeta. split; [| split].
  - unfold significantEarthquakes. apply SignificantProps.slice_from_zero.
  - apply Array_sort_perm.
  - exact (Array_sort_sorted magnitudeOf _ (SignificantProps.significant_keyed _)).
Qed.

(** X5. The list shows as many events as the "Significant Events" card
    counts, up to five, and each listed event is one of the filtered events
    with magnitude at least 2.5. *)
Theorem significant_list_matches_count (filteredEarthquakes : list Earthquake) :
  List.length (significantEarthquakes filteredEarthquakes) =
  Nat.min 5 (significantEvents filteredEarthquakes)
  /\ forall eq : Earthquake,
       In eq (significantEarthquakes filteredEarthquakes) ->
       In eq filteredEarthquakes /\ ge (mag (properties eq)) 2.5%float = true.
Proof.
  destruct (significant_sorted_facts filteredEarthquakes) as (E & P & _).
  split.
  - rewrite E, length_firstn. unfold significantEvents.
    now rewrite (Permutation_length P).
  - intros eq H. rewrite E in H.
    assert (I : In eq (Array_sort byMagnitudeDescending
                         (filter (fun eq => ge (mag (properties eq)) 2.5%float)
                            filteredEarthquakes))).
    { rewrite <- (firstn_skipn 5). apply in_or_app. now left. }
    apply (Permutation_in _ P) in I. now apply filter_In in I.
Qed.

(** X6. The listed events are the strongest: the significant events split
    into the listed ones and the rest, and no event of the rest has a
    magnitude above that of a listed event. *)
Theorem listed_events_dominate_the_rest (filteredEarthquakes : list Earthquake) :
  exists rest : list Earthquake,
    Permutation (significantEarthquakes filteredEarthquakes ++ rest)
      (filter (fun eq => ge (mag (properties eq)) 2.5%float) filteredEarthquakes) /\
    forall a b : Earthquake,
      In a (significantEarthquakes filteredEarthquakes) -> In b rest ->
      ge (mag (properties a)) (mag (properties b)) = true.
Proof.
  destruct (significant_sorted_facts filteredEarthquakes) as (E & P & S).
  exists (skipn 5 (Array_sort byMagnitudeDescending
                     (filter (fun eq => ge (mag (properties eq)) 2.5%float)
                        filteredEarthquakes))).
  rewrite E, firstn_skipn. split; [exact P |].
  rewrite <- (firstn_skipn 5) in S.
  exact (sorted_app_dominates _ _ _ S).
Qed.

(** X7. When no magnitude is NaN and the list of significant events is not
    empty, the "Strongest Event" card prints the magnitude of the first
    listed event. *)
Theorem strongest_card_is_first_listed (filteredEarthquakes : list Earthquake)
    (first : Earthquake) (others : list Earthquake) :
  Forall (fun eq => isNaN (mag (properties eq)) = false) filteredEarthquakes ->
  significantEarthquakes filteredEarthquakes = first :: others ->
  exists maxMagnitude : number,
    strongestEvent filteredEarthquakes = ToFixed1 maxMagnitude /\
    (maxMagnitude =? mag (properties first))%float = true.
Proof.
  intros N T.
  destruct (significant_sorted_facts filteredEarthquakes) as (E & P & S).
  set (significant := filter (fun eq => ge (mag (properties eq)) 2.5%float) filteredEarthquakes) in *.
  set (sorted := Array_sort byMagnitudeDescending significant) in *.
  rewrite T in E.
  destruct sorted as [| head tail] eqn:Es; [discriminate E |].
  cbn in E. injection E as Eh _. subst head.
  inversion S as [| ? ? _ F]; subst.
  assert (Hf : In first significant) by (apply (Permutation_in _ P); now left).
  apply filter_In in Hf. destruct Hf as [If Gf].
  assert (Hne : map magnitudeOf filteredEarthquakes <> []).
  { destruct filteredEarthquakes; [contradiction | discriminate]. }
  assert (Nm : Forall (fun x => is_nan x = false) (map magnitudeOf filteredEarthquakes)).
  { rewrite Forall_map. exact N. }
  destruct (Math_max_is_maximum _ Hne Nm) as [Im Lm].
  exists (Math_max (map magnitudeOf filteredEarthquakes)). split.
  - unfold strongestEvent. destruct filteredEarthquakes; [contradiction | reflexivity].
  - rewrite Forall_map, Forall_forall in Lm.
    pose proof (Lm first If) as L1.
    apply in_map_iff in Im. destruct Im as (e & Ee & Ie).
    change (magnitudeOf e) with (mag (properties e)) in Ee.
    rewrite <- Ee. rewrite <- Ee in L1.
    assert (Ge : ge (mag (properties e)) 2.5%float = true) by exact (ge_trans _ _ _ L1 Gf).
    assert (Is : In e (first :: tail)).
    { apply (Permutation_in _ (Permutation_sym P)). apply filter_In. now split. }
    apply ge_antisym_eqb; [exact L1 |].
    destruct Is as [<- | Is].
    + destruct (ge_not_nan _ _ Gf) as [Nf _].
      rewrite (ge_units _ _ Nf Nf). lia.
    + rewrite Forall_forall in F. exact (F e Is).
Qed.

Lemma strongest_card_is_first_listed_witness :
  Forall (fun eq => isNaN (mag (properties eq)) = false)
    [Samples.q20; Samples.q60; Samples.q30; Samples.q90] /\
  exists maxMagnitude : number,
    strongestEvent [Samples.q20; Samples.q60; Samples.q30; Samples.q90] = ToFixed1 maxMagnitude /\
    (maxMagnitude =? mag (properties Samples.q90))%float = true.
Proof.
  assert (N : Forall (fun eq => isNaN (mag (properties eq)) = false)
                [Samples.q20; Samples.q60; Samples.q30; Samples.q90]) by (repeat constructor).
  split; [exact N |].
  exact (strongest_card_is_first_listed [Samples.q20; Samples.q60; Samples.q30; Samples.q90]
           Samples.q90 [Samples.q60; Samples.q30] N eq_refl).
Defined.

Lemma listed_is_significant (filteredEarthquakes : list Earthquake) (eq : Earthquake) :
  In eq (significantEarthquakes filteredEarthquakes) ->
  ge (mag (properties eq)) 2.5%float = true.
Proof.
  destruct (significant_sorted_facts filteredEarthquakes) as (E & P & _).
  intro H. rewrite E in H.
  assert (I : In eq (Array_sort byMagnitudeDescending
                       (filter (fun eq => ge (mag (properties eq)) 2.5%float)
                          filteredEarthquakes))).
  { rewrite <- (firstn_skipn 5). apply in_or_app. now left. }
  apply (Permutation_in _ P) in I. now apply filter_In in I.
Qed.

Lemma listed_length (filteredEarthquakes : list Earthquake) :
  List.length (significantEarthquakes filteredEarthquakes) =
  Nat.min 5 (List.length (filter (fun eq => ge (mag (properties eq)) 2.5%float)
                            filteredEarthquakes)).
Proof.
  destruct (significant_sorted_facts filteredEarthquakes) as (E & P & _).
  rewrite E, length_firstn. now rewrite (Permutation_length P).
Qed.

Lemma significant_not_micro (magnitude : number) :
  ge magnitude 2.5%float = true ->
  getMagnitudeLabel magnitude <> "Micro"%string /\
  getMagnitudeColor magnitude <> "bg-green-500"%string.
Proof.
  intro H.
  assert (G1 : ge magnitude 1%float = true) by (eapply ge_trans; [exact H | reflexivity]).
  unfold getMagnitudeLabel, getMagnitudeColor. rewrite G1.
  destruct (ge magnitude 7%float), (ge magnitude 5%float), (ge magnitude 3%float);
    split; discriminate.
Qed.

(** X8. The list card, once loading is over: it shows the "no significant
    earthquakes" message exactly when the "Significant Events" card counts
    zero; otherwise it shows between one and five entries, one per listed
    event in order, and no entry is labelled Micro or carries the green
    badge. *)
Theorem list_card_entries (st : State) :
  loading st = false ->
  (listCard st = NoSignificantEvents <-> cardSignificant (summaryCards st) = 0%nat)
  /\
  (forall items : list ListItem,
     listCard st = Items items ->
     items = map listItem (significantEarthquakes (filteredEarthquakes st)) /\
     (1 <= List.length items <= 5)%nat /\
     Forall (fun item => itemLabel item <> "Micro"%string /\
                         itemBadge item <> "bg-green-500"%string) items).
Proof.
  intro L. unfold listCard. rewrite L.
  pose proof (listed_length (filteredEarthquakes st)) as Len.
  fold (significantEvents (filteredEarthquakes st)) in Len.
  cbn [summaryCards cardSignificant].
  destruct (0 <? List.length (significantEarthquakes (filteredEarthquakes st)))%nat eqn:Z.
  - apply Nat.ltb_lt in Z. split.
    + split; [discriminate | intro H0; rewrite Len, H0 in Z; cbn in Z; lia].
    + intros items H. injection H as <-. split; [reflexivity |].
      rewrite length_map. split; [lia |].
      rewrite Forall_map, Forall_forall. intros eq He.
      apply significant_not_micro. exact (listed_is_significant _ _ He).
  - apply Nat.ltb_ge in Z. split.
    + split; [intros _; lia | reflexivity].
    + intros items H. discriminate H.
Qed.

Lemma list_card_entries_witness :
  loading (setLoading false (setFilteredEarthquakes [Samples.q20; Samples.q60] initialState)) = false
  /\ listCard (setLoading false (setFilteredEarthquakes [Samples.q20; Samples.q60] initialState))
     <> NoSignificantEvents.
Proof.
  assert (L : loading (setLoading false
                         (setFilteredEarthquakes [Samples.q20; Samples.q60] initialState)) = false)
    by reflexivity.
  split; [exact L |].
  destruct (list_card_entries _ L) as (K & _).
  intro H. apply K in H. discriminate H.
Defined.

End SignificantListProps.

(** ** The classes: marker size and legend *)

Module ClassScaleProps.

Import Js Feed EarthquakeVisualizer VisualizerView Binary64 Binary64Facts JsFacts OrderFacts.

Lemma thresholds_ordered :
  (units 1%float < units 3%float < units 5%float)%Z /\ (units 5%float < units 7%float)%Z.
Proof. split; [split |]; vm_compute; reflexivity. Qed.

Lemma radius_monotone_at (markerStyle : number -> string * number) (m1 m2 : number) :
  (forall magnitude,
     markerStyle magnitude =
     if ge magnitude 7%float then ("#dc2626"%string, 15%float)
     else if ge magnitude 5%float then ("#f97316"%string, 12%float)
     else if ge magnitude 3%float then ("#eab308"%string, 9%float)
     else if ge magnitude 1%float then ("#3b82f6"%string, 7%float)
     else ("#22c55e"%string, 5%float)) ->
  le m1 m2 = true ->
  le (snd (markerStyle m1)) (snd (markerStyle m2)) = true.
Proof.
  intros Hs H. rewrite !Hs.
  destruct (leb_not_nan _ _ H) as [N1 N2].
  unfold le in H. rewrite (leb_units _ _ N1 N2) in H.
  destruct thresholds_ordered as [[T13 T35] T57].
  rewrite !(ge_units m1), !(ge_units m2) by (assumption || reflexivity).
  destruct (units 7%float <=? units m1)%Z eqn:A7, (units 7%float <=? units m2)%Z eqn:B7;
    try reflexivity; try (exfalso; lia);
    destruct (units 5%float <=? units m1)%Z eqn:A5, (units 5%float <=? units m2)%Z eqn:B5;
    try reflexivity; try (exfalso; lia);
    destruct (units 3%float <=? units m1)%Z eqn:A3, (units 3%float <=? units m2)%Z eqn:B3;
    try reflexivity; try (exfalso; lia);
    destruct (units 1%float <=? units m1)%Z eqn:A1, (units 1%float <=? units m2)%Z eqn:B1;
    try reflexivity; exfalso; lia.
Qed.

(** X9. In both map components the marker radius never decreases with the
    magnitude: a stronger earthquake never gets a smaller circle. *)
Theorem marker_radius_monotone (m1 m2 : number) :
  le m1 m2 = true ->
  le (snd (EarthquakeMap.markerStyle m1)) (snd (EarthquakeMap.markerStyle m2)) = true /\
  le (snd (EarthquakeMapChecked.markerStyle m1)) (snd (EarthquakeMapChecked.markerStyle m2)) = true.
Proof.
  intro H. split; apply radius_monotone_at; auto.
Qed.

Lemma marker_radius_monotone_witness :
  le 4.5%float 6.0%float = true /\
  le (snd (EarthquakeMapChecked.markerStyle 4.5%float))
     (snd (EarthquakeMapChecked.markerStyle 6.0%float)) = true.
Proof.
  assert (H : le 4.5%float 6.0%float = true) by reflexivity.
  split; [exact H |].
  exact (proj2 (marker_radius_monotone 4.5%float 6.0%float H)).
Defined.

(** X10. The magnitude scale card has a row for the label of every
    magnitude. For every class but Major the row's colour is the badge colour
    [getMagnitudeColor] gives; for Major the row is "bg-red-600" while the
    badge is "bg-destructive". *)
Theorem legend_against_badges (magnitude : number) :
  legendColorOf (getMagnitudeLabel magnitude) =
  Some (if ge magnitude 7%float then "bg-red-600"%string else getMagnitudeColor magnitude)
  /\ (ge magnitude 7%float = true -> getMagnitudeColor magnitude = "bg-destructive"%string)
  /\ NoDup (map legendLabel legend).
Proof.
  split; [| split].
  - unfold getMagnitudeLabel, getMagnitudeColor.
    destruct (ge magnitude 7%float); [reflexivity |].
    destruct (ge magnitude 5%float); [reflexivity |].
    destruct (ge magnitude 3%float); [reflexivity |].
    destruct (ge magnitude 1%float); reflexivity.
  - intro H. unfold getMagnitudeColor. now rewrite H.
  - cbn. repeat constructor; cbn; intuition discriminate.
Qed.

Lemma legend_against_badges_witness :
  ge 7.5%float 7%float = true /\ getMagnitudeColor 7.5%float = "bg-destructive"%string.
Proof.
  assert (H : ge 7.5%float 7%float = true) by reflexivity.
  split; [exact H |].
  destruct (legend_against_badges 7.5%float) as (_ & K & _). exact (K H).
Defined.

End ClassScaleProps.

(** ** Fetching and what is shown meanwhile and afterwards *)

Module FetchViewProps.

Import Js Feed EarthquakeVisualizer VisualizerView.

(** X11. A fetch is its synchronous start followed by its settling, and
    between the two the refresh button is disabled, the error panel and its
    retry button are gone, the list shows the skeleton, the cards keep the
    numbers of the events loaded before, and the map component is given the
    old filtered events with [loading] set, on which its marker effect
    leaves the layer untouched. *)
Theorem fetch_pending_view (result : FetchResult) (now : number) (st : State) :
  fetchEarthquakeData result now st = fetchSettle result now (fetchStart st)
  /\ refreshDisabled (fetchStart st) = true
  /\ mapCard (fetchStart st) = MapComponent (filteredEarthquakes st) true
  /\ listCard (fetchStart st) = Skeleton 5
  /\ summaryCards (fetchStart st) = summaryCards st
  /\ (forall (circleMarkerThrows : number * number -> bool) (earthquakes : list Earthquake)
             (loading : bool),
        mapCard (fetchStart st) = MapComponent earthquakes loading ->
        (forall mapState,
           EarthquakeMapChecked.markerEffect circleMarkerThrows earthquakes loading mapState =
           Normal mapState) /\
        (forall mapState,
           EarthquakeMap.markerEffect circleMarkerThrows earthquakes loading mapState =
           Normal mapState)).
Proof.
  split; [reflexivity |]. split; [reflexivity |]. split; [reflexivity |].
  split; [reflexivity |]. split; [reflexivity |].
  intros circleMarkerThrows earthquakes loading H. cbn in H. injection H as <- <-.
  split; intro mapState.
  - unfold EarthquakeMapChecked.markerEffect.
    destruct (EarthquakeMapChecked.markers mapState); [| reflexivity].
    now rewrite orb_true_r.
  - unfold EarthquakeMap.markerEffect.
    destruct (EarthquakeMap.markers mapState); [| reflexivity].
    now rewrite orb_true_r.
Qed.

Lemma fetch_pending_view_witness :
  mapCard (fetchStart (setFilteredEarthquakes [Samples.q60] initialState)) =
  MapComponent [Samples.q60] true /\
  EarthquakeMapChecked.markerEffect Leaflet.acceptsAll [Samples.q60] true
    {| EarthquakeMapChecked.mapInstance := true;
       EarthquakeMapChecked.markers := Some [EarthquakeMapChecked.markerFor Samples.q90];
       EarthquakeMapChecked.leafletLoaded := true;
       EarthquakeMapChecked.windowL := true;
       EarthquakeMapChecked.mapError := None |} =
  Normal
    {| EarthquakeMapChecked.mapInstance := true;
       EarthquakeMapChecked.markers := Some [EarthquakeMapChecked.markerFor Samples.q90];
       EarthquakeMapChecked.leafletLoaded := true;
       EarthquakeMapChecked.windowL := true;
       EarthquakeMapChecked.mapError := None |}.
Proof.
  assert (H : mapCard (fetchStart (setFilteredEarthquakes [Samples.q60] initialState)) =
              MapComponent [Samples.q60] true) by reflexivity.
  split; [exact H |].
  destruct (fetch_pending_view NetworkFailure Samples.clock
              (setFilteredEarthquakes [Samples.q60] initialState)) as (_ & _ & _ & _ & _ & K).
  exact (proj1 (K Leaflet.acceptsAll [Samples.q60] true H) _).
Defined.

(** X12. After a failed fetch the cards show the numbers of the events
    loaded before, the list is that of those events, the refresh button is
    enabled again, and the map card is the error panel with the message. *)
Theorem failed_fetch_view (result : FetchResult) (now : number) (st : State) :
  fetchFailed result = true ->
  summaryCards (stateOf (fetchEarthquakeData result now st)) = summaryCards st
  /\ listCard (stateOf (fetchEarthquakeData result now st)) = listCard (setLoading false st)
  /\ refreshDisabled (stateOf (fetchEarthquakeData result now st)) = false
  /\ mapCard (stateOf (fetchEarthquakeData result now st)) = ErrorPanel fetchErrorMessage.
Proof.
  intro F. destruct result as [| [] status [data |]]; cbn in F; try discriminate F;
    repeat split.
Qed.

Lemma failed_fetch_view_witness :
  fetchFailed NetworkFailure = true /\
  mapCard (stateOf (fetchEarthquakeData NetworkFailure Samples.clock
                      (setFilteredEarthquakes [Samples.q60] initialState)))
  = ErrorPanel fetchErrorMessage.
Proof.
  assert (F : fetchFailed NetworkFailure = true) by reflexivity.
  split; [exact F |].
  destruct (failed_fetch_view NetworkFailure Samples.clock
              (setFilteredEarthquakes [Samples.q60] initialState) F) as (_ & _ & _ & K).
  exact K.
Defined.

(** X13. When two fetches overlap, their results are applied in the order
    they settle. If the one settling last succeeds, its events and time
    replace whatever the other one loaded; and since only the start of a
    fetch clears the error, the message of a fetch that failed first stays in
    the state after the later success. *)
Theorem overlapping_fetches_settle_in_order (first second : FetchResult)
    (now1 now2 : number) (data : EarthquakeData) (status : Z) (st : State) :
  second = Response true status (Some data) ->
  let final :=
    stateOf (fetchSettle second now2
               (stateOf (fetchSettle first now1 (fetchStart (fetchStart st))))) in
  earthquakes final = features data
  /\ lastUpdated final = Some now2
  /\ loading final = false
  /\ (fetchFailed first = true ->
      error final = Some fetchErrorMessage /\ mapCard final = ErrorPanel fetchErrorMessage)
  /\ (fetchFailed first = false -> error final = None).
Proof.
  intros ->. cbn zeta.
  destruct first as [| [] status1 [data1 |]]; cbn; repeat split; intros;
    first [reflexivity | discriminate].
Qed.

Lemma overlapping_fetches_settle_in_order_witness :
  let final :=
    stateOf (fetchSettle (Response true 200 (Some {| features := [Samples.q90] |}))
               Samples.clock
               (stateOf (fetchSettle NetworkFailure Samples.clock
                           (fetchStart (fetchStart initialState))))) in
  earthquakes final = [Samples.q90] /\ error final = Some fetchErrorMessage.
Proof.
  destruct (overlapping_fetches_settle_in_order NetworkFailure
              (Response true 200 (Some {| features := [Samples.q90] |}))
              Samples.clock Samples.clock {| features := [Samples.q90] |} 200 initialState
              eq_refl) as (K1 & _ & _ & K2 & _).
  cbn zeta. split; [exact K1 | exact (proj1 (K2 eq_refl))].
Defined.

Lemma run_invariant (events : list Event) : forall (st : State) (seen : bool),
  lastUpdatedShown st = seen ->
  (seen = false -> earthquakes st = [] /\ filteredEarthquakes st = []) ->
  lastUpdatedShown (run events st) = seen || existsb succeeded events /\
  (seen || existsb succeeded events = false ->
   earthquakes (run events st) = [] /\ filteredEarthquakes (run events st) = []).
Proof.
  induction events as [| e rest IH]; intros st seen Hs He; cbn [run fold_left existsb].
  - rewrite orb_false_r. auto.
  - fold (run rest (handle e st)). rewrite orb_assoc. apply IH.
    + destruct e as [result now | now | value | value |]; cbn; try (now rewrite orb_false_r).
      destruct result as [| [] status [data |]]; cbn; rewrite ?orb_false_r, ?orb_true_r; auto.
    + intro H. apply orb_false_iff in H. destruct H as [-> Hf].
      destruct (He eq_refl) as [E1 E2].
      destruct e as [result now | now | value | value |]; cbn; auto.
      * destruct result as [| [] status [data |]]; cbn in *; auto; discriminate Hf.
      * rewrite E1. split; [reflexivity |]. unfold filtered.
        destruct (gt _ _), (negb _); reflexivity.
Qed.

(** X14. Starting from the initial state and whatever happens (fetches,
    filter effects, use of the controls), the "Last updated" line is shown
    exactly when some fetch has succeeded, and as long as none has, the
    loaded and the filtered events are empty, so the cards count zero. *)
Theorem nothing_shown_before_first_success (events : list Event) :
  lastUpdatedShown (run events initialState) = existsb succeeded events
  /\ (existsb succeeded events = false ->
      earthquakes (run events initialState) = [] /\
      filteredEarthquakes (run events initialState) = [] /\
      cardTotal (summaryCards (run events initialState)) = 0%nat).
Proof.
  destruct (run_invariant events initialState false eq_refl (fun _ => conj eq_refl eq_refl))
    as [H1 H2].
  cbn [orb] in H1, H2. split; [exact H1 |].
  intro H. destruct (H2 H) as [E1 E2]. repeat split; auto.
  cbn. now rewrite E2.
Qed.

Lemma nothing_shown_before_first_success_witness :
  existsb succeeded [Fetched NetworkFailure Samples.clock; SliderMoved [5%float];
                     FilterEffectRan Samples.clock] = false /\
  filteredEarthquakes
    (run [Fetched NetworkFailure Samples.clock; SliderMoved [5%float];
          FilterEffectRan Samples.clock] initialState) = [].
Proof.
  split; [reflexivity |].
  destruct (nothing_shown_before_first_success
              [Fetched NetworkFailure Samples.clock; SliderMoved [5%float];
               FilterEffectRan Samples.clock]) as (_ & K).
  exact (proj1 (proj2 (K eq_refl))).
Defined.

End FetchViewProps.

(** ** The two map components and the marker effect's failures *)

Module MapComponentsProps.

Import Js Feed Leaflet Binary64Facts JsFacts OrderFacts.

Lemma filter_partition_length {A : Type} (p : A -> bool) (l : list A) :
  (List.length (filter (fun x => negb (p x)) l) + List.length (filter p l) = List.length l)%nat.
Proof.
  induction l as [| x rest IH]; cbn; [reflexivity |].
  destruct (p x); cbn; lia.
Qed.

Lemma checked_is_plain_on_kept (circleMarkerThrows : number * number -> bool)
    (earthquakes : list Earthquake) : forall group : LayerGroup,
  forEach (EarthquakeMapChecked.addEarthquakeMarker circleMarkerThrows) earthquakes group =
  forEach (EarthquakeMap.addEarthquakeMarker circleMarkerThrows)
    (filter (fun earthquake => negb (EarthquakeMapChecked.skipped earthquake)) earthquakes) group.
Proof.
  induction earthquakes as [| eq rest IH]; intro group; cbn [forEach filter]; [reflexivity |].
  unfold EarthquakeMapChecked.addEarthquakeMarker at 1.
  destruct (EarthquakeMapChecked.skipped eq); cbn [negb forEach]; [apply IH |].
  unfold EarthquakeMap.addEarthquakeMarker at 1.
  change (EarthquakeMap.markerFor eq) with (EarthquakeMapChecked.markerFor eq).
  destruct (circleMarkerThrows (latlng (EarthquakeMapChecked.markerFor eq)));
    [reflexivity | apply IH].
Qed.

(** X15. The map component with the coordinate check behaves as the one
    without it run on the events that pass the check: the same markers, in
    the same order, and the same completion, whatever the renderer does. *)
Theorem checked_component_is_plain_on_kept_events
    (circleMarkerThrows : number * number -> bool) (earthquakes : list Earthquake)
    (previous : LayerGroup) :
  EarthquakeMapChecked.reconcile circleMarkerThrows earthquakes previous =
  EarthquakeMap.reconcile circleMarkerThrows
    (filter (fun earthquake => negb (EarthquakeMapChecked.skipped earthquake)) earthquakes)
    previous
  /\ EarthquakeMapChecked.project earthquakes =
     EarthquakeMap.project
       (filter (fun earthquake => negb (EarthquakeMapChecked.skipped earthquake)) earthquakes).
Proof.
  split; [apply checked_is_plain_on_kept | reflexivity].
Qed.

(** X16. The visualizer shows the map when no error is set, and hands it
    the filtered events and its loading flag. When it is not loading, the
    marker effect of the checked component, run on a map that is ready,
    completes with a marker layer whose markers, together with the events
    that the coordinate check skips, number at most the "Total Earthquakes"
    card. They number exactly the card when the effect ends without a map
    error, which is so whenever the renderer accepts every position. *)
Theorem markers_and_skipped_make_total
    (circleMarkerThrows : number * number -> bool) (st : EarthquakeVisualizer.State)
    (earthquakes : list Earthquake) (loading : bool)
    (mapState : EarthquakeMapChecked.MapState) (previous : LayerGroup) :
  VisualizerView.mapCard st = VisualizerView.MapComponent earthquakes loading ->
  loading = false ->
  EarthquakeMapChecked.markers mapState = Some previous ->
  EarthquakeMapChecked.mapInstance mapState = true ->
  EarthquakeMapChecked.leafletLoaded mapState = true ->
  EarthquakeMapChecked.windowL mapState = true ->
  EarthquakeMapChecked.mapError mapState = None ->
  exists (layer : LayerGroup) (mapState' : EarthquakeMapChecked.MapState),
    EarthquakeMapChecked.markerEffect circleMarkerThrows earthquakes loading mapState
    = Normal mapState' /\
    EarthquakeMapChecked.markers mapState' = Some layer /\
    (List.length layer
     + List.length (filter EarthquakeMapChecked.skipped
                      (EarthquakeVisualizer.filteredEarthquakes st))
     <= EarthquakeVisualizer.cardTotal (EarthquakeVisualizer.summaryCards st))%nat /\
    (EarthquakeMapChecked.mapError mapState' = None ->
     (List.length layer
      + List.length (filter EarthquakeMapChecked.skipped
                       (EarthquakeVisualizer.filteredEarthquakes st))
      = EarthquakeVisualizer.cardTotal (EarthquakeVisualizer.summaryCards st))%nat) /\
    (Forall (fun marker => circleMarkerThrows (latlng marker) = false)
       (EarthquakeMapChecked.project earthquakes) ->
     EarthquakeMapChecked.mapError mapState' = None).
Proof.
  intros Hcard Hl Hm Hi Hll Hw He.
  assert (Heq : earthquakes = EarthquakeVisualizer.filteredEarthquakes st).
  { unfold VisualizerView.mapCard in Hcard.
    destruct (EarthquakeVisualizer.error st) as [message |];
      [destruct (String.eqb message "") |]; congruence. }
  subst earthquakes loading.
  assert (T : (List.length (EarthquakeMapChecked.project
                              (EarthquakeVisualizer.filteredEarthquakes st))
               + List.length (filter EarthquakeMapChecked.skipped
                                (EarthquakeVisualizer.filteredEarthquakes st))
               = EarthquakeVisualizer.cardTotal (EarthquakeVisualizer.summaryCards st))%nat).
  { unfold EarthquakeMapChecked.project. rewrite length_map. cbn.
    unfold EarthquakeVisualizer.totalEarthquakes. apply filter_partition_length. }
  unfold EarthquakeMapChecked.markerEffect. rewrite Hm, Hi, Hll, Hw, He. cbn [negb orb].
  unfold EarthquakeMapChecked.reconcile.
  destruct (ReconcileProps.checked_forEach_prefix circleMarkerThrows
              (EarthquakeVisualizer.filteredEarthquakes st) (clearLayers previous))
    as (added & rest & E & [[R Rn] | R]); rewrite R; cbn [tryCatch].
  - subst rest. rewrite app_nil_r in E. rewrite E in T.
    exists (clearLayers previous ++ added). eexists. split; [reflexivity |].
    split; [reflexivity |].
    unfold EarthquakeMapChecked.setMarkers, clearLayers.
    cbn [EarthquakeMapChecked.mapError app].
    split; [lia |]. split; [intros _; lia | intros _; exact He].
  - rewrite E, length_app in T.
    exists (clearLayers previous ++ added). eexists. split; [reflexivity |].
    split; [reflexivity |].
    unfold EarthquakeMapChecked.setMapError, EarthquakeMapChecked.setMarkers, clearLayers.
    cbn [EarthquakeMapChecked.mapError app].
    split; [lia |]. split; [discriminate |].
    intro F.
    rewrite (MarkerProps.checked_forEach_accepting circleMarkerThrows _ _ F) in R.
    discriminate R.
Qed.

Lemma markers_and_skipped_make_total_witness :
  exists (layer : LayerGroup) (mapState' : EarthquakeMapChecked.MapState),
    EarthquakeMapChecked.markerEffect acceptsAll [Samples.q60; Samples.qLatNaN] false
      {| EarthquakeMapChecked.mapInstance := true;
         EarthquakeMapChecked.markers := Some [];
         EarthquakeMapChecked.leafletLoaded := true;
         EarthquakeMapChecked.windowL := true;
         EarthquakeMapChecked.mapError := None |}
    = Normal mapState' /\
    EarthquakeMapChecked.markers mapState' = Some layer /\
    (List.length layer + 1 = 2)%nat.
Proof.
  pose (st := EarthquakeVisualizer.setLoading false
                (EarthquakeVisualizer.setFilteredEarthquakes [Samples.q60; Samples.qLatNaN]
                   EarthquakeVisualizer.initialState)).
  destruct (markers_and_skipped_make_total acceptsAll st [Samples.q60; Samples.qLatNaN] false
              {| EarthquakeMapChecked.mapInstance := true;
                 EarthquakeMapChecked.markers := Some [];
                 EarthquakeMapChecked.leafletLoaded := true;
                 EarthquakeMapChecked.windowL := true;
                 EarthquakeMapChecked.mapError := None |} []
              eq_refl eq_refl eq_refl eq_refl eq_refl eq_refl eq_refl)
    as (layer & mapState' & E & M & _ & T & A).
  exists layer, mapState'. split; [exact E |]. split; [exact M |].
  apply T, A. repeat constructor.
Defined.

(** X17. The marker effect of the checked component never lets an exception
    out: it always completes normally. It changes the map error only by
    setting the marker error message, it leaves the readiness flags as they
    are, and running it again on the state it produced, with the same
    events, changes nothing. *)
Theorem checked_marker_effect_contains_failures
    (circleMarkerThrows : number * number -> bool) (earthquakes : list Earthquake)
    (loading : bool) (st : EarthquakeMapChecked.MapState) :
  exists st' : EarthquakeMapChecked.MapState,
    EarthquakeMapChecked.markerEffect circleMarkerThrows earthquakes loading st = Normal st' /\
    (EarthquakeMapChecked.mapError st' = EarthquakeMapChecked.mapError st \/
     EarthquakeMapChecked.mapError st' = Some EarthquakeMapChecked.markerErrorMessage) /\
    EarthquakeMapChecked.mapInstance st' = EarthquakeMapChecked.mapInstance st /\
    EarthquakeMapChecked.leafletLoaded st' = EarthquakeMapChecked.leafletLoaded st /\
    EarthquakeMapChecked.windowL st' = EarthquakeMapChecked.windowL st /\
    EarthquakeMapChecked.markerEffect circleMarkerThrows earthquakes loading st' = Normal st'.
Proof.
  destruct st as [mi [group |] ll wl me]; unfold EarthquakeMapChecked.markerEffect;
    cbn [EarthquakeMapChecked.markers EarthquakeMapChecked.mapInstance
         EarthquakeMapChecked.leafletLoaded EarthquakeMapChecked.windowL
         EarthquakeMapChecked.mapError].
  2:{ eexists. split; [reflexivity |]. cbn. auto 10. }
  destruct (negb mi || loading || negb ll || negb wl
            || match me with Some _ => true | None => false end) eqn:G.
  - eexists. split; [reflexivity |]. cbn. rewrite G. auto 10.
  - assert (R : forall g, EarthquakeMapChecked.reconcile circleMarkerThrows earthquakes g =
                          EarthquakeMapChecked.reconcile circleMarkerThrows earthquakes group)
      by reflexivity.
    destruct (EarthquakeMapChecked.reconcile circleMarkerThrows earthquakes group)
      as [group' | group'] eqn:E.
    + eexists. split; [reflexivity |]. cbn -[EarthquakeMapChecked.reconcile].
      rewrite G, R. cbn. auto 10.
    + eexists. split; [reflexivity |]. cbn.
      rewrite !orb_true_r. auto 10.
Qed.

(** X18. The popup shows [Math.abs] of the depth: in both components two
    events that differ only in the sign of the depth get the same marker,
    and the depth shown is not negative. *)
Theorem popup_depth_forgets_sign (name : string) (props : Properties) (lng lat depth : number) :
  EarthquakeMapChecked.markerFor
    {| id := name; properties := props; geometry := {| coordinates := (lng, lat, (- depth)%float) |} |}
  = EarthquakeMapChecked.markerFor
      {| id := name; properties := props; geometry := {| coordinates := (lng, lat, depth) |} |}
  /\ EarthquakeMap.markerFor
       {| id := name; properties := props; geometry := {| coordinates := (lng, lat, (- depth)%float) |} |}
     = EarthquakeMap.markerFor
         {| id := name; properties := props; geometry := {| coordinates := (lng, lat, depth) |} |}
  /\ (isNaN depth = false ->
      ge (popupDepth (popup (EarthquakeMapChecked.markerFor
                               {| id := name; properties := props;
                                  geometry := {| coordinates := (lng, lat, depth) |} |})))
         0%float = true).
Proof.
  unfold EarthquakeMapChecked.markerFor, EarthquakeMap.markerFor.
  cbn [coordinates geometry properties].
  rewrite abs_opp. split; [reflexivity | split; [reflexivity |]].
  intro N. destruct (EarthquakeMapChecked.markerStyle (mag props)) as [fill r].
  cbn [popup popupDepth]. now apply abs_nonnegative.
Qed.

Lemma popup_depth_forgets_sign_witness :
  isNaN (-3.5)%float = false /\
  ge (popupDepth (popup (EarthquakeMapChecked.markerFor
                           {| id := "above"; properties := properties Samples.q60;
                              geometry := {| coordinates := (10, 20, -3.5)%float |} |})))
     0%float = true.
Proof.
  assert (N : isNaN (-3.5)%float = false) by reflexivity.
  split; [exact N |].
  destruct (popup_depth_forgets_sign "above" (properties Samples.q60) 10%float 20%float
              (-3.5)%float) as (_ & _ & K).
  exact (K N).
Defined.

End MapComponentsProps.

(** ** The life of the checked map component *)

Module MapLifecycleProps.

Import Js Feed Leaflet EarthquakeMapChecked MapLifecycle.

Lemma marker_effect_after_error (circleMarkerThrows : number * number -> bool)
    (earthquakes : list Earthquake) (loading : bool) (st : MapState) (message : string) :
  mapError st = Some message ->
  markerEffect circleMarkerThrows earthquakes loading st = Normal st.
Proof.
  intro H. unfold markerEffect. rewrite H.
  destruct (markers st); [| reflexivity]. now rewrite !orb_true_r.
Qed.

Lemma step_after_error (s : Step) (c : Component) (message : string) :
  mapError (refs c) = Some message -> message <> ""%string ->
  (exists message', mapError (refs (step s c)) = Some message' /\ message' <> ""%string) /\
  markers (refs (step s c)) = markers (refs c).
Proof.
  intros H N. destruct s; cbn [step onRefs refs].
  - unfold loadLeaflet. destruct (windowL (refs c)); cbn; eauto.
  - cbn. eauto.
  - cbn. split; [| reflexivity]. eexists. split; [reflexivity | discriminate].
  - cbn. eauto.
  - unfold initEffect. rewrite H, !orb_true_r. eauto.
  - unfold initCleanup. destruct (mapInstance (refs c)); [destruct removeThrows |]; cbn; eauto.
  - rewrite (marker_effect_after_error _ _ _ _ _ H). cbn. eauto.
Qed.

(** X19. Once the map error holds a message, which in the code is never the
    empty string, nothing the component does clears it: after any further
    steps (loading the library, script events, the initialisation effect and
    its cleanup, marker effects) the error still holds a message that is not
    empty, so the guards that test it keep both effects from running, the
    marker layer is the one it was, and the component renders the error view
    instead of the map. *)
Theorem map_error_is_permanent (steps : list Step) (c : Component) (message : string) :
  mapError (refs c) = Some message ->
  message <> ""%string ->
  (exists message', mapError (refs (run steps c)) = Some message' /\
                    message' <> ""%string /\
                    render (refs (run steps c)) = MapErrorView message')
  /\ markers (refs (run steps c)) = markers (refs c).
Proof.
  revert c message. induction steps as [| s rest IH]; intros c message H N; cbn [run fold_left].
  - split; [| reflexivity]. exists message. split; [exact H |]. split; [exact N |].
    unfold render. now rewrite H.
  - fold (run rest (step s c)).
    destruct (step_after_error s c message H N) as ((message' & H' & N') & M).
    destruct (IH _ _ H' N') as (E & M'). split; [exact E |]. now rewrite M'.
Qed.

Lemma map_error_is_permanent_witness :
  mapError (refs (run [ScriptFailed] (mounted false []))) = Some "Failed to load map library"%string
  /\ "Failed to load map library"%string <> ""%string
  /\ exists message,
       message <> ""%string /\
       render (refs (run [ScriptLoaded; LibraryDefined; InitEffect true InitCompletes;
                          MarkerEffect acceptsAll [Samples.q60] false]
                       (run [ScriptFailed] (mounted false [])))) = MapErrorView message.
Proof.
  assert (H : mapError (refs (run [ScriptFailed] (mounted false [])))
              = Some "Failed to load map library"%string) by reflexivity.
  assert (N : "Failed to load map library"%string <> ""%string) by discriminate.
  split; [exact H |]. split; [exact N |].
  destruct (map_error_is_permanent
              [ScriptLoaded; LibraryDefined; InitEffect true InitCompletes;
               MarkerEffect acceptsAll [Samples.q60] false]
              (run [ScriptFailed] (mounted false [])) _ H N) as ((message & _ & N' & R) & _).
  exists message. split; [exact N' | exact R].
Defined.

Lemma kept_position (earthquake : Earthquake) :
  skipped earthquake = false ->
  falsy (fst (latlng (markerFor earthquake))) || falsy (snd (latlng (markerFor earthquake)))
  || isNaN (fst (latlng (markerFor earthquake))) || isNaN (snd (latlng (markerFor earthquake)))
  = false.
Proof.
  unfold skipped, markerFor.
  destruct (coordinates (geometry earthquake)) as [[lng lat] depth].
  destruct (markerStyle (mag (properties earthquake))). cbn [latlng fst snd]. auto.
Qed.

Lemma project_positions (earthquakes : list Earthquake) :
  Forall (fun marker =>
            falsy (fst (latlng marker)) || falsy (snd (latlng marker))
            || isNaN (fst (latlng marker)) || isNaN (snd (latlng marker)) = false)
    (project earthquakes).
Proof.
  unfold project. rewrite Forall_map, Forall_forall. intros eq H.
  apply filter_In in H. destruct H as [_ H]. apply kept_position.
  now destruct (skipped eq).
Qed.

Lemma marker_effect_layer (circleMarkerThrows : number * number -> bool)
    (earthquakes : list Earthquake) (loading : bool) (st : MapState) :
  let st' := completed (markerEffect circleMarkerThrows earthquakes loading st) in
  mapInstance st' = mapInstance st /\
  (mapError st = None -> mapError st' = None \/ mapError st' = Some markerErrorMessage) /\
  (markers st' = markers st \/
   exists added rest, markers st' = Some added /\ project earthquakes = added ++ rest).
Proof.
  cbn zeta. unfold markerEffect.
  destruct (markers st) as [group |] eqn:M; [| cbn; rewrite M; auto].
  destruct (negb (mapInstance st) || loading || negb (leafletLoaded st) || negb (windowL st)
            || match mapError st with Some _ => true | None => false end);
    [cbn; rewrite M; auto |].
  destruct (ReconcileProps.checked_forEach_prefix circleMarkerThrows earthquakes [])
    as (added & rest & E & [[R _] | R]);
    unfold reconcile, clearLayers; rewrite R; cbn; eauto 10.
Qed.

Lemma step_invariant (s : Step) (c : Component) :
  (mapInstance (refs c) = true -> markers (refs c) <> None \/ mapError (refs c) <> None) ->
  (forall group, markers (refs c) = Some group ->
     Forall (fun marker =>
               falsy (fst (latlng marker)) || falsy (snd (latlng marker))
               || isNaN (fst (latlng marker)) || isNaN (snd (latlng marker)) = false) group) ->
  (mapInstance (refs (step s c)) = true ->
   markers (refs (step s c)) <> None \/ mapError (refs (step s c)) <> None) /\
  (forall group, markers (refs (step s c)) = Some group ->
     Forall (fun marker =>
               falsy (fst (latlng marker)) || falsy (snd (latlng marker))
               || isNaN (fst (latlng marker)) || isNaN (snd (latlng marker)) = false) group).
Proof.
  intros I1 I2. destruct s; cbn [step onRefs refs].
  - unfold loadLeaflet. destruct (windowL (refs c)); cbn; auto.
  - cbn. auto.
  - cbn. split; [right; discriminate | exact I2].
  - cbn. auto.
  - unfold initEffect.
    destruct (negb mapRef || negb (leafletLoaded (refs c)) || negb (windowL (refs c))
              || match mapError (refs c) with Some _ => true | None => false end); [auto |].
    destruct (mapInstance (refs c)) eqn:Mi; [auto |].
    destruct throws; cbn.
    + split; [left; discriminate |]. intros group H. injection H as <-. constructor.
    + split; [right; discriminate | exact I2].
    + split; [right; discriminate | exact I2].
    + split; [right; discriminate | exact I2].
  - unfold initCleanup. destruct (mapInstance (refs c)) eqn:Mi; [destruct removeThrows |];
      cbn; auto. split; [intro H; congruence | exact I2].
  - destruct (marker_effect_layer circleMarkerThrows earthquakes loading (refs c))
      as (Mi & Me & Ml). cbn zeta in Mi, Me, Ml.
    split.
    + rewrite Mi. intro H. destruct (I1 H) as [Hm | He].
      * left. destruct Ml as [-> | (added & rest & -> & _)]; [exact Hm | discriminate].
      * destruct (mapError (refs c)) as [message |] eqn:E; [| congruence].
        rewrite (marker_effect_after_error _ _ _ _ _ E). cbn. right. congruence.
    + intros group H. destruct Ml as [Es | (added & rest & Ea & Ep)].
      * apply I2. congruence.
      * rewrite Ea in H. injection H as <-.
        pose proof (project_positions earthquakes) as P. rewrite Ep in P.
        now apply Forall_app in P.
Qed.

(** X20. From the moment the component mounts and whatever steps follow,
    two things hold. If the map instance is assigned, then the marker layer
    group is assigned too or the map error is set. And every marker in the
    layer has a latitude and a longitude that are neither NaN nor zero: no
    marker of a skipped event ever reaches the layer. *)
Theorem mounted_component_invariants (hasL : bool) (hrefs : list string) (steps : list Step) :
  (mapInstance (refs (run steps (mounted hasL hrefs))) = true ->
   markers (refs (run steps (mounted hasL hrefs))) <> None \/
   mapError (refs (run steps (mounted hasL hrefs))) <> None)
  /\
  (forall group : LayerGroup,
     markers (refs (run steps (mounted hasL hrefs))) = Some group ->
     Forall (fun marker =>
               falsy (fst (latlng marker)) || falsy (snd (latlng marker))
               || isNaN (fst (latlng marker)) || isNaN (snd (latlng marker)) = false) group).
Proof.
  assert (G : forall (steps : list Step) (c : Component),
             (mapInstance (refs c) = true ->
              markers (refs c) <> None \/ mapError (refs c) <> None) ->
             (forall group, markers (refs c) = Some group ->
                Forall (fun marker =>
                          falsy (fst (latlng marker)) || falsy (snd (latlng marker))
                          || isNaN (fst (latlng marker)) || isNaN (snd (latlng marker)) = false)
                  group) ->
             (mapInstance (refs (run steps c)) = true ->
              markers (refs (run steps c)) <> None \/ mapError (refs (run steps c)) <> None) /\
             (forall group, markers (refs (run steps c)) = Some group ->
                Forall (fun marker =>
                          falsy (fst (latlng marker)) || falsy (snd (latlng marker))
                          || isNaN (fst (latlng marker)) || isNaN (snd (latlng marker)) = false)
                  group)).
  { clear steps. induction steps as [| s rest IH]; intros c I1 I2; cbn [run fold_left]; [auto |].
    fold (run rest (step s c)). destruct (step_invariant s c I1 I2) as [J1 J2].
    now apply IH. }
  apply G; cbn; [discriminate | intros group H; discriminate H].
Qed.

Lemma mounted_component_invariants_witness :
  markers (refs (run [ScriptLoaded; LibraryDefined; InitEffect true InitCompletes;
                      MarkerEffect acceptsAll [Samples.q60; Samples.qEquator] false]
                   (mounted false [])))
  = Some [markerFor Samples.q60] /\
  Forall (fun marker =>
            falsy (fst (latlng marker)) || falsy (snd (latlng marker))
            || isNaN (fst (latlng marker)) || isNaN (snd (latlng marker)) = false)
    [markerFor Samples.q60].
Proof.
  assert (H : markers (refs (run [ScriptLoaded; LibraryDefined; InitEffect true InitCompletes;
                                  MarkerEffect acceptsAll [Samples.q60; Samples.qEquator] false]
                               (mounted false [])))
              = Some [markerFor Samples.q60]) by reflexivity.
  split; [exact H |].
  destruct (mounted_component_invariants false []
              [ScriptLoaded; LibraryDefined; InitEffect true InitCompletes;
               MarkerEffect acceptsAll [Samples.q60; Samples.qEquator] false]) as (_ & K).
  exact (K _ H).
Defined.

Lemma leaflet_link_found (hrefs : list string) :
  existsb (fun href => includes href "leaflet") (hrefs ++ [leafletCss]) = true.
Proof. rewrite existsb_app. cbn. now rewrite orb_true_r. Qed.

(** X21. Loading the library adds the stylesheet at most once: after one
    run the document has a link whose address contains "leaflet", and any
    further run leaves the links as they are. When [window.L] is already
    defined no script is appended and [leafletLoaded] is set at once;
    otherwise each run appends one more script element. *)
Theorem stylesheet_is_added_once (c : Component) :
  existsb (fun href => includes href "leaflet") (links (document (loadLeaflet c))) = true
  /\ links (document (loadLeaflet (loadLeaflet c))) = links (document (loadLeaflet c))
  /\ (windowL (refs c) = true ->
      scripts (document (loadLeaflet c)) = scripts (document c) /\
      leafletLoaded (refs (loadLeaflet c)) = true)
  /\ (windowL (refs c) = false ->
      scripts (document (loadLeaflet c)) = scripts (document c) ++ [leafletJs] /\
      refs (loadLeaflet c) = refs c).
Proof.
  assert (L : existsb (fun href => includes href "leaflet") (links (document (loadLeaflet c)))
              = true).
  { unfold loadLeaflet.
    destruct (existsb (fun href => includes href "leaflet") (links (document c))) eqn:E;
      destruct (windowL (refs c)); cbn [document links]; auto using leaflet_link_found. }
  split; [exact L |]. split.
  - unfold loadLeaflet at 1. rewrite L. now destruct (windowL (refs (loadLeaflet c))).
  - unfold loadLeaflet. split; intros ->; cbn; auto.
Qed.

Lemma stylesheet_is_added_once_witness :
  windowL (refs (mounted false [])) = false /\
  scripts (document (loadLeaflet (mounted false []))) = [leafletJs] /\
  links (document (loadLeaflet (loadLeaflet (mounted false [])))) = [leafletCss].
Proof.
  assert (H : windowL (refs (mounted false [])) = false) by reflexivity.
  split; [exact H |].
  destruct (stylesheet_is_added_once (mounted false [])) as (_ & K1 & _ & K2).
  split; [exact (proj1 (K2 H)) | rewrite K1; reflexivity].
Defined.

End MapLifecycleProps.

(** ** Evaluations of the list properties on the sample events *)

Module SignificantListWitnesses.

Import Js Feed EarthquakeVisualizer SignificantListProps.

Lemma significant_list_matches_count_witness :
  In Samples.q90 (significantEarthquakes [Samples.q20; Samples.q60; Samples.q30; Samples.q90]) /\
  In Samples.q90 [Samples.q20; Samples.q60; Samples.q30; Samples.q90] /\
  ge (mag (properties Samples.q90)) 2.5%float = true.
Proof.
  assert (H : In Samples.q90
                (significantEarthquakes [Samples.q20; Samples.q60; Samples.q30; Samples.q90]))
    by (left; reflexivity).
  split; [exact H |].
  destruct (significant_list_matches_count
              [Samples.q20; Samples.q60; Samples.q30; Samples.q90]) as (_ & K).
  exact (K Samples.q90 H).
Defined.

Lemma listed_events_dominate_the_rest_witness :
  exists rest : list Earthquake,
    Permutation
      (significantEarthquakes
         [Samples.q30; Samples.q60; Samples.q90; Samples.q50; Samples.q60'; Samples.q30;
          Samples.q90] ++ rest)
      (filter (fun eq => ge (mag (properties eq)) 2.5%float)
         [Samples.q30; Samples.q60; Samples.q90; Samples.q50; Samples.q60'; Samples.q30;
          Samples.q90]) /\
    In Samples.q50
      (significantEarthquakes
         [Samples.q30; Samples.q60; Samples.q90; Samples.q50; Samples.q60'; Samples.q30;
          Samples.q90]) /\
    forall b, In b rest -> ge (mag (properties Samples.q50)) (mag (properties b)) = true.
Proof.
  assert (H : In Samples.q50
                (significantEarthquakes
                   [Samples.q30; Samples.q60; Samples.q90; Samples.q50; Samples.q60';
                    Samples.q30; Samples.q90]))
    by (do 4 right; left; reflexivity).
  destruct (listed_events_dominate_the_rest
              [Samples.q30; Samples.q60; Samples.q90; Samples.q50; Samples.q60'; Samples.q30;
               Samples.q90]) as (rest & P & K).
  exists rest. split; [exact P |]. split; [exact H |].
  intros b Hb. exact (K Samples.q50 b H Hb).
Defined.

End SignificantListWitnesses.
